(** * vector_search: retrieval fusion, batched reranking, score normalisation

    A shallow embedding of the Python sources
      - [app/search.py]             (class [VectorSearch])
      - [app/hybrid_search.py]      (class [HybridSearchService])
      - [app/hybrid_search_bm25.py] (class [HybridSearchBM25Service])
      - [app/rerank.py]             (class [RerankService])
      - [app/models.py]             (the request and response models)
      - [app/main.py]               (the handlers of the endpoints)
    followed by the properties proved about them.

    Conventions.
      - A Python [float] is an IEEE 754 binary64 number: [spec_float] with
        precision 53 and maximal exponent 1024, rounding to nearest even.
      - A Python [int] is a [Z]; a [str] is a [string]; a [dict] with
        string keys is a [gmap string _]; a [set] of strings is a
        [gset string].
      - Code that can raise returns a [result]; the collaborators (embedding
        service, database, LLM client, the [json] module) are Section
        variables, so every statement holds for every behaviour of theirs. *)

From Stdlib Require Import ZArith Bool List Ascii SpecFloat Lia.
From stdpp Require Import base tactics option list sorting gmap strings pretty.

Open Scope Z_scope.

Set Warnings "-register-all,-clear-no-such-hyp".

(* ===================================================================== *)
(** * Python floats *)
(* ===================================================================== *)

Module PyFloat.

Definition prec : Z := 53.
Definition emax : Z := 1024.

Abbreviation float := spec_float.

Definition add : float -> float -> float := SFadd prec emax.
Definition sub : float -> float -> float := SFsub prec emax.
Definition div : float -> float -> float := SFdiv prec emax.
Definition neg : float -> float := SFopp.

(** [x < y], [x <= y] and [x == y]; all three are [false] as soon as
    one side is a NaN. *)
Definition ltb : float -> float -> bool := SFltb.
Definition leb : float -> float -> bool := SFleb.
Definition eqb : float -> float -> bool := SFeqb.

Definition zero : float := S754_zero false.

Definition is_zero (x : float) : bool :=
  match x with S754_zero _ => true | _ => false end.

Definition is_nan (x : float) : bool :=
  match x with S754_nan => true | _ => false end.

(** The integer [z] rounded to the nearest float (ties to even). *)
Definition of_Z (z : Z) : float := binary_normalize prec emax z 0 false.

Definition one : float := Eval vm_compute in of_Z 1.

(** The float denoted by the decimal literal [n / 10^places]: both
    operands are exact for the literals used here, so the division
    rounds the decimal correctly. *)
Definition literal (n : Z) (places : Z) : float :=
  div (of_Z n) (of_Z (10 ^ places)).

(** The integer nearest to [num / den] for [0 < den], ties to even. *)
Definition round_half_even (num den : Z) : Z :=
  let q := num / den in
  let r := num mod den in
  match 2 * r ?= den with
  | Lt => q
  | Gt => q + 1
  | Eq => if Z.even q then q else q + 1
  end.

(** The builtin [round(x, ndigits)] for [0 <= ndigits]: the exact value
    of [x] is rounded half-to-even to [ndigits] decimals and the decimal
    obtained is converted back to the nearest float.  NaN, infinities
    and zeros are returned unchanged. *)
Definition round (x : float) (ndigits : Z) : float :=
  match x with
  | S754_finite s m e =>
      let p := 10 ^ ndigits in
      let n :=
        if 0 <=? e then Z.pos m * 2 ^ e * p
        else round_half_even (Z.pos m * p) (2 ^ (- e)) in
      match n with
      | Z.pos n' =>
          SFdiv prec emax (S754_finite s n' 0) (S754_finite false (Z.to_pos p) 0)
      | _ => S754_zero s
      end
  | _ => x
  end.

End PyFloat.

Export PyFloat(float).

(* ===================================================================== *)
(** * Python runtime: exceptions, slices, ranges, [list.sort] *)
(* ===================================================================== *)

Inductive exn :=
| ZeroDivisionError
| OverflowError
| TypeError
| KeyError
| ValueError
| CollaboratorError (who : string).

(** Either the exception raised or the value returned. *)
Definition result (A : Type) : Type := exn + A.

Definition raise {A} (e : exn) : result A := inl e.

#[global] Instance result_ret : MRet result := fun _ x => inr x.
#[global] Instance result_bind : MBind result := fun _ _ f m =>
  match m with inl e => inl e | inr x => f x end.

(** [for x in l: out.append(f(x))], stopping at the first exception. *)
Fixpoint for_each {A B} (f : A -> result B) (l : list A) : result (list B) :=
  match l with
  | [] => mret []
  | x :: l' => y ← f x; ys ← for_each f l'; mret (y :: ys)
  end.

(** [float / int]: the integer is converted first, which raises
    [OverflowError] when it is too large for a float; a zero divisor
    raises [ZeroDivisionError]. *)
Definition float_of_int (n : Z) : result float :=
  match PyFloat.of_Z n with
  | S754_infinity _ | S754_nan => raise OverflowError
  | x => mret x
  end.

Definition float_truediv (x y : float) : result float :=
  if PyFloat.is_zero y then raise ZeroDivisionError else mret (PyFloat.div x y).

Definition float_truediv_int (x : float) (n : Z) : result float :=
  y ← float_of_int n; float_truediv x y.

(** [l[:n]] for an integer [n] of either sign. *)
Definition slice_to {A} (l : list A) (n : Z) : list A :=
  if 0 <=? n then take (Z.to_nat n) l
  else take (length l - Z.to_nat (- n))%nat l.

(** [l[i:j]] for natural numbers [i], [j]. *)
Definition slice {A} (l : list A) (i j : nat) : list A :=
  take (j - i)%nat (drop i l).

(** [range(0, stop, step)] for [0 < step]. *)
Fixpoint range_from (fuel : nat) (i stop step : nat) : list nat :=
  match fuel with
  | O => []
  | S fuel' =>
      if (i <? stop)%nat then i :: range_from fuel' (i + step)%nat stop step
      else []
  end.

Definition range_step (stop step : nat) : list nat := range_from stop 0 stop step.

(** [l.sort(key=key, reverse=True)]: a stable sort into descending key
    order; elements with equal keys keep their relative order.  Like
    CPython it only ever asks [key a < key b].  When no key is a NaN the
    outcome is the one stable descending arrangement of the list, whatever
    the algorithm; when a key is a NaN, CPython's merges may arrange the
    list otherwise, and only that the outcome is a permutation of the
    list is then used below. *)
Fixpoint insert_reverse {A} (key : A -> float) (x : A) (l : list A) : list A :=
  match l with
  | [] => [x]
  | y :: l' =>
      if PyFloat.ltb (key x) (key y) then y :: insert_reverse key x l'
      else x :: y :: l'
  end.

Definition sort_reverse {A} (key : A -> float) (l : list A) : list A :=
  foldr (insert_reverse key) [] l.

(** The order in which a [for] loop visits a [set]: CPython fixes none,
    so it is an argument of the code that iterates; [set_iteration]
    says what every such order satisfies. *)
Definition set_iteration (set_iter : gset string -> list string) : Prop :=
  forall s : gset string, NoDup (set_iter s) /\ forall x, x ∈ set_iter s <-> x ∈ s.

(* ===================================================================== *)
(** * Collaborators and result models *)
(* ===================================================================== *)

(** The statements sent to PostgreSQL.  The query embedding is passed as
    it is; the source sends its text form [embedding_str]. *)
Inductive sql :=
| SelectByDistance (column operator : string) (embedding : list float) (limit : Z)
| SelectBM25 (query : string) (limit : Z)
| SelectDescriptions (table_names : list string).

(** A fetched row: [table_name], the numeric column of the statement
    ([distance] or [rank_score]) and [table_description], which may be
    NULL. *)
Record row := {
  row_table_name : string;
  row_number : float;
  row_table_description : option string;
}.

(** [app/models.py] *)
Module SearchResult.
Record t := mk { table_name : string; score : float }.
End SearchResult.

Module RerankResult.
Record t := mk { table_name : string; score : float }.
End RerankResult.

Module HybridSearchResult.
Record t := mk {
  table_name : string;
  rrf_score : float;
  vector_rank : option Z;
  tags_rank : option Z;
}.
End HybridSearchResult.

(** Map method names to pgvector operators. *)
Definition OPERATORS : gmap string string :=
  {[ "cosine" := "<=>"; "L2" := "<->"; "dot_product" := "<#>" ]}.

(* ===================================================================== *)
(** * [app/search.py] *)
(* ===================================================================== *)

Module VectorSearch.
Section Collaborators.

Variable get_embedding : string -> result (list float).
Variable fetch : sql -> result (list row).

(** The branch on [method] inside the loop of [search]: the score
    before it is rounded. *)
Definition similarity (method : string) (distance : float) : result float :=
  if decide (method = "cosine") then
    mret (PyFloat.sub PyFloat.one distance)
  else if decide (method = "L2") then
    float_truediv PyFloat.one (PyFloat.add PyFloat.one distance)
  else
    mret (PyFloat.neg distance).

Definition search (query : string) (top_n : Z) (method : string)
  : result (list SearchResult.t) :=
  query_embedding ← get_embedding query;
  let operator := default "<=>" (OPERATORS !! method) in
  rows ← fetch (SelectByDistance "description_embedding" operator
                  query_embedding top_n);
  for_each
    (fun row =>
       let distance := row_number row in
       score ← similarity method distance;
       mret (SearchResult.mk (row_table_name row) (PyFloat.round score 4)))
    rows.

End Collaborators.
End VectorSearch.

(* ===================================================================== *)
(** * [app/hybrid_search.py] and [app/hybrid_search_bm25.py] *)
(* ===================================================================== *)

(** The dicts [{"table_name": .., "rank": ..}] returned by the retrieval
    sources; the BM25 source adds ["bm25_score"]. *)
Record ranked := {
  ranked_table_name : string;
  ranked_rank : Z;
  ranked_bm25_score : option float;
}.

(** [{r["table_name"]: r["rank"] for r in results}]: a later entry
    overwrites an earlier one with the same name. *)
Definition rank_map (results : list ranked) : gmap string Z :=
  foldl (fun m r => <[ranked_table_name r := ranked_rank r]> m) ∅ results.

(** [asyncio.gather(a, b)]: both results when both coroutines return,
    otherwise the exception that was raised first; [a_first] is the
    scheduler's choice when both raise. *)
Definition gather {A B} (a_first : bool) (a : result A) (b : result B)
  : result (A * B) :=
  match a, b with
  | inr x, inr y => inr (x, y)
  | inl e, inr _ => inl e
  | inr _, inl e => inl e
  | inl ea, inl eb => inl (if a_first then ea else eb)
  end.

Module HybridSearchService.
Section Collaborators.

(** [embedding_service.get_embedding] as the call in [vector_search]
    finds it, and as the call in [tags_search] finds it: one [search]
    calls the service twice, and the two calls can end differently. *)
Variable get_embedding : string -> result (list float).
Variable get_tags_embedding : string -> result (list float).
Variable fetch : sql -> result (list row).
Variable set_iter : gset string -> list string.
Variable vector_first : bool.

Definition vector_search (query : string) (top_n : Z) (method : string)
  : result (list ranked) :=
  query_embedding ← get_embedding query;
  let operator := default "<=>" (OPERATORS !! method) in
  rows ← fetch (SelectByDistance "description_embedding" operator
                  query_embedding top_n);
  mret (imap (fun idx row =>
                {| ranked_table_name := row_table_name row;
                   ranked_rank := Z.of_nat idx + 1;
                   ranked_bm25_score := None |}) rows).

Definition tags_search (query : string) (top_n : Z) : result (list ranked) :=
  query_embedding ← get_tags_embedding query;
  rows ← fetch (SelectByDistance "tags_embedding" "<=>" query_embedding top_n);
  mret (imap (fun idx row =>
                {| ranked_table_name := row_table_name row;
                   ranked_rank := Z.of_nat idx + 1;
                   ranked_bm25_score := None |}) rows).

(** The body of the loop over [all_tables]. *)
Definition fuse_one (vector_ranks tags_ranks : gmap string Z) (k : Z)
    (vector_weight tags_weight : float) (table_name : string)
  : result HybridSearchResult.t :=
  let score := PyFloat.zero in
  let vector_rank := vector_ranks !! table_name in
  let tags_rank := tags_ranks !! table_name in
  score ← match vector_rank with
          | Some r => q ← float_truediv_int vector_weight (k + r);
                      mret (PyFloat.add score q)
          | None => mret score
          end;
  score ← match tags_rank with
          | Some r => q ← float_truediv_int tags_weight (k + r);
                      mret (PyFloat.add score q)
          | None => mret score
          end;
  mret (HybridSearchResult.mk table_name score vector_rank tags_rank).

Definition calculate_rrf (vector_results tags_results : list ranked)
    (k : Z) (vector_weight tags_weight : float)
  : result (list HybridSearchResult.t) :=
  let vector_ranks := rank_map vector_results in
  let tags_ranks := rank_map tags_results in
  let all_tables : gset string := dom vector_ranks ∪ dom tags_ranks in
  rrf_scores ← for_each
                 (fuse_one vector_ranks tags_ranks k vector_weight tags_weight)
                 (set_iter all_tables);
  mret (sort_reverse HybridSearchResult.rrf_score rrf_scores).

Definition search (query : string) (top_n : Z) (method : string)
    (vector_weight tags_weight : float) (rrf_k : Z)
  : result (list HybridSearchResult.t) :=
  let candidate_count := Z.max 100 (top_n * 10) in
  '(vector_results, tags_results) ←
    gather vector_first
      (vector_search query candidate_count method)
      (tags_search query candidate_count);
  rrf_results ← calculate_rrf vector_results tags_results rrf_k
                  vector_weight tags_weight;
  mret (slice_to rrf_results top_n).

End Collaborators.
End HybridSearchService.

Module HybridSearchBM25Service.
Section Collaborators.

Variable get_embedding : string -> result (list float).
Variable fetch : sql -> result (list row).
Variable set_iter : gset string -> list string.
Variable vector_first : bool.

Definition vector_search (query : string) (top_n : Z) (method : string)
  : result (list ranked) :=
  query_embedding ← get_embedding query;
  let operator := default "<=>" (OPERATORS !! method) in
  rows ← fetch (SelectByDistance "description_embedding" operator
                  query_embedding top_n);
  mret (imap (fun idx row =>
                {| ranked_table_name := row_table_name row;
                   ranked_rank := Z.of_nat idx + 1;
                   ranked_bm25_score := None |}) rows).

Definition bm25_search (query : string) (top_n : Z) : result (list ranked) :=
  rows ← fetch (SelectBM25 query top_n);
  mret (imap (fun idx row =>
                {| ranked_table_name := row_table_name row;
                   ranked_rank := Z.of_nat idx + 1;
                   ranked_bm25_score := Some (row_number row) |}) rows).

(** The body of the loop over [all_tables]; the BM25 rank is stored in
    the field [tags_rank]. *)
Definition fuse_one (vector_ranks bm25_ranks : gmap string Z) (k : Z)
    (vector_weight bm25_weight : float) (table_name : string)
  : result HybridSearchResult.t :=
  let score := PyFloat.zero in
  let vector_rank := vector_ranks !! table_name in
  let bm25_rank := bm25_ranks !! table_name in
  score ← match vector_rank with
          | Some r => q ← float_truediv_int vector_weight (k + r);
                      mret (PyFloat.add score q)
          | None => mret score
          end;
  score ← match bm25_rank with
          | Some r => q ← float_truediv_int bm25_weight (k + r);
                      mret (PyFloat.add score q)
          | None => mret score
          end;
  mret (HybridSearchResult.mk table_name score vector_rank bm25_rank).

Definition calculate_rrf (vector_results bm25_results : list ranked)
    (k : Z) (vector_weight bm25_weight : float)
  : result (list HybridSearchResult.t) :=
  let vector_ranks := rank_map vector_results in
  let bm25_ranks := rank_map bm25_results in
  let all_tables : gset string := dom vector_ranks ∪ dom bm25_ranks in
  rrf_scores ← for_each
                 (fuse_one vector_ranks bm25_ranks k vector_weight bm25_weight)
                 (set_iter all_tables);
  mret (sort_reverse HybridSearchResult.rrf_score rrf_scores).

Definition search (query : string) (top_n : Z) (method : string)
    (vector_weight bm25_weight : float) (rrf_k : Z)
  : result (list HybridSearchResult.t) :=
  let candidate_count := Z.max 100 (top_n * 10) in
  '(vector_results, bm25_results) ←
    gather vector_first
      (vector_search query candidate_count method)
      (bm25_search query candidate_count);
  rrf_results ← calculate_rrf vector_results bm25_results rrf_k
                  vector_weight bm25_weight;
  mret (slice_to rrf_results top_n).

End Collaborators.
End HybridSearchBM25Service.

(* ===================================================================== *)
(** * [app/rerank.py] *)
(* ===================================================================== *)

(** The values [json.loads] returns.  [JDict] lists the items of the
    dict, whose keys are distinct. *)
Inductive json :=
| JNull
| JBool (b : bool)
| JInt (n : Z)
| JFloat (x : float)
| JStr (s : string)
| JList (items : list json)
| JDict (fields : list (string * json)).

Fixpoint assoc (key : string) (fields : list (string * json)) : option json :=
  match fields with
  | [] => None
  | (k, v) :: rest => if decide (k = key) then Some v else assoc key rest
  end.

(** [for item in v]: lists yield their elements, dicts their keys,
    strings their characters; nothing else is iterable. *)
Definition py_iter (v : json) : result (list json) :=
  match v with
  | JList items => mret items
  | JDict fields => mret (map (fun kv => JStr (fst kv)) fields)
  | JStr s => mret (map (fun c => JStr (String c EmptyString)) (String.list_ascii_of_string s))
  | _ => raise TypeError
  end.

(** [v[key]] for a string [key]. *)
Definition py_getitem (v : json) (key : string) : result json :=
  match v with
  | JDict fields =>
      match assoc key fields with Some x => mret x | None => raise KeyError end
  | _ => raise TypeError
  end.

(** The dicts [{"table_name": .., "description": ..}] built in step 2. *)
Record candidate := {
  cand_table_name : string;
  cand_description : string;
}.

(** What [self.client.generate] does on one call: it raises, or it
    returns a response object whose field ["response"] may be missing. *)
Inductive llm_reply :=
| GenerateRaises (e : exn)
| Generated (response : option string).

Definition newline : string := String (Ascii.ascii_of_nat 10) EmptyString.
Definition quoted (s : string) : string :=
  String (Ascii.ascii_of_nat 34) EmptyString +:+ s +:+ String (Ascii.ascii_of_nat 34) EmptyString.

Fixpoint unlines (lines : list string) : string :=
  match lines with
  | [] => EmptyString
  | l :: rest => l +:+ newline +:+ unlines rest
  end.

(** [re.search(r'\[.*\]', response, re.DOTALL)]: from the first opening
    bracket to the last closing bracket after it. *)
Fixpoint from_open_bracket (s : string) : option string :=
  match s with
  | EmptyString => None
  | String c s' =>
      if decide (c = "["%char) then Some s' else from_open_bracket s'
  end.

Fixpoint upto_last_close_bracket (s : string) : option string :=
  match s with
  | EmptyString => None
  | String c s' =>
      match upto_last_close_bracket s' with
      | Some t => Some (String c t)
      | None => if decide (c = "]"%char) then Some (String c EmptyString) else None
      end
  end.

Definition re_search_array (response : string) : option string :=
  rest ← from_open_bracket response;
  body ← upto_last_close_bracket rest;
  Some (String "["%char body).

Module RerankService.
Section Collaborators.

Variable get_embedding : string -> result (list float).
Variable fetch : sql -> result (list row).
(** The reply of the LLM client to the [n]-th call of one request,
    given the prompt. *)
Variable generate : nat -> string -> llm_reply.
(** [json.loads]; [None] when it raises [JSONDecodeError]. *)
Variable json_loads : string -> option json.
(** The builtin [float] on a [str]; [None] when it raises [ValueError]. *)
Variable float_of_str : string -> option float.

Definition BATCH_SIZE : nat := 25.

Definition candidates_text (candidates : list candidate) : string :=
  foldl (fun text ic =>
           text +:+ (pretty (S (fst ic)) +:+ ". Table: "
                       +:+ cand_table_name (snd ic) +:+ newline)
                +:+ ("   Description: " +:+ cand_description (snd ic)
                       +:+ newline +:+ newline))
        EmptyString
        (imap (fun i c => (i, c)) candidates).

Definition _build_prompt (query context : string) (candidates : list candidate)
  : string :=
  unlines [
    "You are a database relevance scoring assistant. Given a user query and context, evaluate how relevant each database table is to the query.";
    "";
    "Task: For each table, provide a relevance score from 0 to 1, where:";
    "- 0.0-0.3: Not relevant (table has no relation to the query)";
    "- 0.4-0.6: Somewhat relevant (table has indirect relation)";
    "- 0.7-0.8: Relevant (table contains related information)";
    "- 0.9-1.0: Highly relevant (table directly answers the query)";
    "";
    "Return ONLY a valid JSON array with this exact format (no additional text):";
    "[";
    "  {" +:+ quoted "table_name" +:+ ": " +:+ quoted "exact_table_name"
          +:+ ", " +:+ quoted "score" +:+ ": 0.8},";
    "  {" +:+ quoted "table_name" +:+ ": " +:+ quoted "exact_table_name"
          +:+ ", " +:+ quoted "score" +:+ ": 0.6}";
    "]";
    "";
    "Important:";
    "- Use exact table names from the list above";
    "- Scores must be floats from 0.0 to 1.0";
    "- Return ALL tables (even with low scores)";
    "";
    "Database Tables to Evaluate:";
    candidates_text candidates;
    "";
    "User Query: " +:+ query;
    "Context: " +:+ context
  ].

Definition _parse_llm_response (response : string) : json :=
  let loaded :=
    match re_search_array response with
    | Some json_str => json_loads json_str
    | None => json_loads response
    end in
  match loaded with
  | Some parsed => parsed
  | None => JList []
  end.

(** What [_rerank_batch] returns for a reply of the client: the parsed
    response of the [try] block, or the [[]] of its [except] clause. *)
Definition reply_scores (reply : llm_reply) : json :=
  match reply with
  | Generated response => _parse_llm_response (default EmptyString response)
  | GenerateRaises _ => JList []
  end.

(** [calls] is the list of the prompts sent to the LLM so far; the
    call made here is appended to it. *)
Definition _rerank_batch (calls : list string) (query context : string)
    (batch_candidates : list candidate) : json * list string :=
  let prompt := _build_prompt query context batch_candidates in
  (reply_scores (generate (length calls) prompt), calls ++ [prompt]).

(** [{item["table_name"]: item["score"] for item in batch_scores}].
    Only the entries with a [str] key are kept in the model: the map
    is read with [str] keys only.  A list or a dict as key raises. *)
Definition score_map_insert (score_map : gmap string json) (item : json)
  : result (gmap string json) :=
  key ← py_getitem item "table_name";
  value ← py_getitem item "score";
  match key with
  | JStr name => mret (<[name := value]> score_map)
  | JList _ | JDict _ => raise TypeError
  | _ => mret score_map
  end.

Fixpoint score_map_fill (score_map : gmap string json) (items : list json)
  : result (gmap string json) :=
  match items with
  | [] => mret score_map
  | item :: rest =>
      score_map ← score_map_insert score_map item;
      score_map_fill score_map rest
  end.

Definition build_score_map (batch_scores : json) : result (gmap string json) :=
  items ← py_iter batch_scores;
  score_map_fill ∅ items.

(** [float(llm_score)] *)
Definition py_float (v : json) : result float :=
  match v with
  | JFloat x => mret x
  | JInt n => float_of_int n
  | JBool b => mret (if b then PyFloat.one else PyFloat.zero)
  | JStr s =>
      match float_of_str s with Some x => mret x | None => raise ValueError end
  | _ => raise TypeError
  end.

(** The inner loop [for candidate in batch]. *)
Definition batch_results (score_map : gmap string json) (batch : list candidate)
  : result (list RerankResult.t) :=
  for_each
    (fun candidate =>
       let table_name := cand_table_name candidate in
       let llm_score := default (JFloat PyFloat.zero) (score_map !! table_name) in
       score ← py_float llm_score;
       mret (RerankResult.mk table_name score))
    batch.

(** The body of the outer loop once the LLM has answered. *)
Definition score_batch (batch_scores : json) (batch : list candidate)
  : result (list RerankResult.t) :=
  score_map ← build_score_map batch_scores;
  batch_results score_map batch.

(** The loop [for i in range(0, len(candidates), BATCH_SIZE)] over the
    indices still to visit. *)
Fixpoint batch_loop (query context : string) (candidates : list candidate)
    (indices : list nat) (all_results : list RerankResult.t)
    (calls : list string) : result (list RerankResult.t) * list string :=
  match indices with
  | [] => (mret all_results, calls)
  | i :: rest =>
      let batch := slice candidates i (i + BATCH_SIZE) in
      let '(batch_scores, calls) := _rerank_batch calls query context batch in
      match score_batch batch_scores batch with
      | inl e => (inl e, calls)
      | inr results =>
          batch_loop query context candidates rest (all_results ++ results) calls
      end
  end.

(** Steps 3 and 4 of [rerank]: everything from the candidate list
    onward.  Returns the results and the prompts sent to the LLM. *)
Definition rerank_candidates (query context : string)
    (candidates : list candidate) : list RerankResult.t * list string :=
  match batch_loop query context candidates
          (range_step (length candidates) BATCH_SIZE) [] [] with
  | (inr all_results, calls) =>
      (sort_reverse RerankResult.score all_results, calls)
  | (inl _, calls) =>
      (map (fun c => RerankResult.mk (cand_table_name c) PyFloat.zero) candidates,
       calls)
  end.

Definition rerank (query context : string) (top_n : Z) (method : string)
  : result (list RerankResult.t) * list string :=
  match VectorSearch.search get_embedding fetch query top_n method with
  | inl e => (inl e, [])
  | inr [] => (mret [], [])
  | inr initial_results =>
      let table_names := map SearchResult.table_name initial_results in
      match fetch (SelectDescriptions table_names) with
      | inl e => (inl e, [])
      | inr rows =>
          let candidates :=
            map (fun row =>
                   {| cand_table_name := row_table_name row;
                      cand_description :=
                        match row_table_description row with
                        | Some d =>
                            if decide (d = EmptyString)
                            then "No description available" else d
                        | None => "No description available"
                        end |}) rows in
          match candidates with
          | [] => (mret [], [])
          | _ =>
              let '(results, calls) := rerank_candidates query context candidates in
              (mret results, calls)
          end
      end
  end.

End Collaborators.
End RerankService.

(* ===================================================================== *)
(** * [app/models.py] and [app/main.py] *)
(* ===================================================================== *)

(** [Literal["cosine", "L2", "dot_product"]] *)
Definition METHODS : list string := ["cosine"; "L2"; "dot_product"].

(** The request models.  [valid] holds the constraints of the [Field]s:
    a handler is only called with a request that satisfies them. *)
Module SearchRequest.
Record t := mk { query : string; top_n : Z; method : string }.
Definition valid (request : t) : bool :=
  (1 <=? top_n request) && (top_n request <=? 10000)
  && bool_decide (method request ∈ METHODS).
End SearchRequest.

Module RerankRequest.
Record t := mk { query : string; prompt : string; top_n : Z; method : string }.
Definition valid (request : t) : bool :=
  (1 <=? top_n request) && (top_n request <=? 10000)
  && bool_decide (method request ∈ METHODS).
End RerankRequest.

Module HybridSearchRequest.
Record t := mk {
  query : string;
  top_n : Z;
  vector_weight : float;
  tags_weight : float;
  method : string;
  rrf_k : Z;
}.
Definition valid (request : t) : bool :=
  (1 <=? top_n request) && (top_n request <=? 100)
  && PyFloat.leb PyFloat.zero (vector_weight request)
  && PyFloat.leb (vector_weight request) PyFloat.one
  && PyFloat.leb PyFloat.zero (tags_weight request)
  && PyFloat.leb (tags_weight request) PyFloat.one
  && bool_decide (method request ∈ METHODS)
  && (1 <=? rrf_k request) && (rrf_k request <=? 100).
End HybridSearchRequest.

Module SearchResponse.
Record t := mk { results : list SearchResult.t; total : Z }.
End SearchResponse.

Module RerankResponse.
Record t := mk { results : list RerankResult.t; total : Z }.
End RerankResponse.

Module HybridSearchResponse.
Record t := mk { results : list HybridSearchResult.t; total : Z }.
End HybridSearchResponse.

(** What a handler does: it returns the response model, or it raises
    [HTTPException(status_code, detail)]. *)
Inductive http (A : Type) :=
| Returns (body : A)
| HTTPException (status_code : Z) (detail : string).
Arguments Returns {A} body.
Arguments HTTPException {A} status_code detail.

Module Main.
Section Collaborators.

Variable get_embedding : string -> result (list float).
(** The second call of one hybrid search, made by [tags_search]. *)
Variable get_tags_embedding : string -> result (list float).
Variable fetch : sql -> result (list row).
Variable set_iter : gset string -> list string.
Variable vector_first : bool.
Variable generate : nat -> string -> llm_reply.
Variable json_loads : string -> option json.
Variable float_of_str : string -> option float.
(** [str(e)] *)
Variable str : exn -> string.

Definition search_tables (request : SearchRequest.t) : http SearchResponse.t :=
  match VectorSearch.search get_embedding fetch
          (SearchRequest.query request) (SearchRequest.top_n request)
          (SearchRequest.method request) with
  | inr results =>
      Returns (SearchResponse.mk results (Z.of_nat (length results)))
  | inl e => HTTPException 500 ("Search failed: " +:+ str e)
  end.

(** With the prompts sent to the LLM while the request was served. *)
Definition search_with_rerank (request : RerankRequest.t)
  : http RerankResponse.t * list string :=
  match RerankService.rerank get_embedding fetch generate json_loads float_of_str
          (RerankRequest.query request) (RerankRequest.prompt request)
          (RerankRequest.top_n request) (RerankRequest.method request) with
  | (inr results, calls) =>
      (Returns (RerankResponse.mk results (Z.of_nat (length results))), calls)
  | (inl e, calls) =>
      (HTTPException 500 ("Reranking failed: " +:+ str e), calls)
  end.

Definition search_hybrid (request : HybridSearchRequest.t)
  : http HybridSearchResponse.t :=
  match HybridSearchService.search get_embedding get_tags_embedding fetch
          set_iter vector_first
          (HybridSearchRequest.query request)
          (HybridSearchRequest.top_n request)
          (HybridSearchRequest.method request)
          (HybridSearchRequest.vector_weight request)
          (HybridSearchRequest.tags_weight request)
          (HybridSearchRequest.rrf_k request) with
  | inr results =>
      Returns (HybridSearchResponse.mk results (Z.of_nat (length results)))
  | inl e => HTTPException 500 ("Hybrid search failed: " +:+ str e)
  end.

Definition search_hybrid_bm25 (request : HybridSearchRequest.t)
  : http HybridSearchResponse.t :=
  match HybridSearchBM25Service.search get_embedding fetch set_iter vector_first
          (HybridSearchRequest.query request)
          (HybridSearchRequest.top_n request)
          (HybridSearchRequest.method request)
          (HybridSearchRequest.vector_weight request)
          (HybridSearchRequest.tags_weight request)
          (HybridSearchRequest.rrf_k request) with
  | inr results =>
      Returns (HybridSearchResponse.mk results (Z.of_nat (length results)))
  | inl e => HTTPException 500 ("Hybrid BM25 search failed: " +:+ str e)
  end.

End Collaborators.
End Main.

(* ===================================================================== *)
(** * Vocabulary of the statements *)
(* ===================================================================== *)

(** ** Floats *)

(** A float that is not a NaN and is not below zero. *)
Definition nonneg (x : float) : Prop :=
  match x with
  | S754_nan => False
  | S754_zero _ => True
  | S754_infinity s | S754_finite s _ _ => s = false
  end.

Definition has_sign (s : bool) (x : float) : Prop :=
  match x with
  | S754_nan => False
  | S754_zero s' | S754_infinity s' | S754_finite s' _ _ => s' = s
  end.

(** Floats with at most four decimals: the float nearest to [n / 10^4]
    for an integer [n], or a zero, an infinity or a NaN. *)
Definition four_decimals (x : float) : Prop :=
  match x with
  | S754_finite _ _ _ =>
      exists s n, x = SFdiv PyFloat.prec PyFloat.emax (S754_finite s n 0)
                        (S754_finite false 10000 0)
  | _ => True
  end.

(** [a] may stand before [b] in a list sorted with [reverse=True]: the
    key of [b] is not above the key of [a]. *)
Definition descending {A} (key : A -> float) (a b : A) : Prop :=
  PyFloat.leb (key b) (key a) = true.

(** ** Fusion *)

(** One term of the RRF sum as the specification writes it:
    [weight / (k + rank)] if the identifier is ranked by the source,
    else 0. *)
Definition rrf_term (weight : float) (k : Z) (rank : option Z) : float :=
  match rank with
  | Some r => PyFloat.div weight (PyFloat.of_Z (k + r))
  | None => PyFloat.zero
  end.

(** Ranks as the data model has them: 1-indexed, and small enough for
    [k + rank] to be converted to a float without rounding. *)
Definition valid_ranks (k : Z) (results : list ranked) : Prop :=
  Forall (fun r => 1 <= ranked_rank r /\ k + ranked_rank r < 2 ^ 53) results.

(** The identifiers a source returned. *)
Definition source_names (results : list ranked) : gset string :=
  list_to_set (ranked_table_name <$> results).

(** Renaming the source labels: the two rank fields are exchanged. *)
Definition swap_sources (r : HybridSearchResult.t) : HybridSearchResult.t :=
  HybridSearchResult.mk (HybridSearchResult.table_name r)
    (HybridSearchResult.rrf_score r)
    (HybridSearchResult.tags_rank r) (HybridSearchResult.vector_rank r).

(** The record [r] carries the ranks of its identifier in both sources
    and the score [0.0 + a + b] of the loop, which equals [a + b] as
    floats compare. *)
Definition fused_as_specified (vector_ranks tags_ranks : gmap string Z) (k : Z)
    (vector_weight tags_weight : float) (r : HybridSearchResult.t) : Prop :=
  let a := rrf_term vector_weight k (vector_ranks !! HybridSearchResult.table_name r) in
  let b := rrf_term tags_weight k (tags_ranks !! HybridSearchResult.table_name r) in
  HybridSearchResult.vector_rank r = vector_ranks !! HybridSearchResult.table_name r /\
  HybridSearchResult.tags_rank r = tags_ranks !! HybridSearchResult.table_name r /\
  HybridSearchResult.rrf_score r = PyFloat.add (PyFloat.add PyFloat.zero a) b /\
  PyFloat.eqb (HybridSearchResult.rrf_score r) (PyFloat.add a b) = true.

(** One entry per identifier of the union of the two sources. *)
Definition fusion_complete (vector_results tags_results : list ranked)
    (out : list HybridSearchResult.t) : Prop :=
  length out = size (source_names vector_results ∪ source_names tags_results)
  /\ NoDup (HybridSearchResult.table_name <$> out)
  /\ forall name,
      name ∈ (HybridSearchResult.table_name <$> out)
      <-> name ∈ source_names vector_results \/ name ∈ source_names tags_results.

(** [out] is a list [calculate_rrf] can return: the one it returns under
    some iteration order of the set of identifiers. *)
Definition may_return (vector_results tags_results : list ranked) (k : Z)
    (vector_weight tags_weight : float) (out : list HybridSearchResult.t) : Prop :=
  exists set_iter,
    set_iteration set_iter /\
    HybridSearchService.calculate_rrf set_iter vector_results tags_results k
      vector_weight tags_weight = inr out.

(** ** Score normalisation *)

(** The rules of the specification: cosine is [1 - distance], L2 is
    [1 / (1 + distance)], dot_product is [-distance]. *)
Definition normalization_rule (method : string) (distance : float) : option float :=
  if decide (method = "cosine") then
    Some (PyFloat.sub PyFloat.one distance)
  else if decide (method = "L2") then
    Some (PyFloat.div PyFloat.one (PyFloat.add PyFloat.one distance))
  else if decide (method = "dot_product") then
    Some (PyFloat.neg distance)
  else None.

(** ** Reranking *)

(** The contiguous batches of [rerank]: [candidates[i:i + BATCH_SIZE]]
    for [i] in [range(0, len(candidates), BATCH_SIZE)]. *)
Definition batches (candidates : list candidate) : list (list candidate) :=
  (fun i => slice candidates i (i + RerankService.BATCH_SIZE))
    <$> range_step (length candidates) RerankService.BATCH_SIZE.

Definition zero_scores (candidates : list candidate) : list RerankResult.t :=
  (fun c => RerankResult.mk (cand_table_name c) PyFloat.zero) <$> candidates.

(** The results of the batch sent as call number [n], or the exception
    that ends the loop. *)
Definition scored (generate : nat -> string -> llm_reply)
    (json_loads : string -> option json) (float_of_str : string -> option float)
    (query context : string) (n : nat) (batch : list candidate)
  : result (list RerankResult.t) :=
  RerankService.score_batch float_of_str
    (RerankService.reply_scores json_loads
       (generate n (RerankService._build_prompt query context batch)))
    batch.

(** Every reply can be turned into scores: no batch makes the loop of
    [rerank] raise. *)
Definition all_scorable (generate : nat -> string -> llm_reply)
    (json_loads : string -> option json) (float_of_str : string -> option float)
    (query context : string) (candidates : list candidate) : Prop :=
  forall j batch,
    batches candidates !! j = Some batch ->
    exists results,
      scored generate json_loads float_of_str query context j batch = inr results.

(** ** Example inputs *)

Definition rank_row (name : string) (rank : Z) : ranked :=
  {| ranked_table_name := name; ranked_rank := rank; ranked_bm25_score := None |}.

(** [vector_ranks = {"t1": 1, "t2": 2}], [keyword_ranks = {"t2": 1, "t3": 2}]
    and the weight [0.5]. *)
Definition ex_vector_results : list ranked := [rank_row "t1" 1; rank_row "t2" 2].
Definition ex_keyword_results : list ranked := [rank_row "t2" 1; rank_row "t3" 2].
Definition half : float := PyFloat.literal 5 1.

Definition distance_row (name : string) (distance : float) : row :=
  {| row_table_name := name; row_number := distance; row_table_description := None |}.

(** An iteration order of sets other than that of [elements]: its
    reverse. *)
Definition reversed_elements : gset string -> list string :=
  fun s => reverse (elements s).

Definition ex_embedding : string -> result (list float) := fun _ => inr [].
Definition ex_fetch (rows : list row) : sql -> result (list row) := fun _ => inr rows.
Definition failing_embedding : string -> result (list float) :=
  fun _ => inl (CollaboratorError "embedding").

(** [n] candidates [t0], [t1], ... *)
Definition ex_candidates (n : nat) : list candidate :=
  (fun i => {| cand_table_name := "t" +:+ pretty i;
               cand_description := "table " +:+ pretty i |}) <$> seq 0 n.

Definition failing_llm : nat -> string -> llm_reply :=
  fun _ _ => GenerateRaises (CollaboratorError "llm").

Definition no_json : string -> option json := fun _ => None.
Definition no_float : string -> option float := fun _ => None.

(** An LLM that answers every prompt with the text [[1]], and a decoder
    that agrees with [json.loads] on that text. *)
Definition malformed_llm : nat -> string -> llm_reply :=
  fun _ _ => Generated (Some "[1]").

Definition loads_array_of_one : string -> option json :=
  fun s => if decide (s = "[1]") then Some (JList [JInt 1]) else None.

(** An LLM whose reply names [a] twice, decoded as
    [[{a: 0.2}, {b: 0.5}, {a: 0.9}]]. *)
Definition score_entry (name : string) (score : float) : json :=
  JDict [("table_name", JStr name); ("score", JFloat score)].

Definition duplicate_llm : nat -> string -> llm_reply :=
  fun _ _ => Generated (Some "[a, b, a]").

Definition loads_duplicate : string -> option json :=
  fun s =>
    if decide (s = "[a, b, a]") then
      Some (JList [score_entry "a" (PyFloat.literal 2 1);
                   score_entry "b" (PyFloat.literal 5 1);
                   score_entry "a" (PyFloat.literal 9 1)])
    else None.

Definition two_candidates : list candidate :=
  [ {| cand_table_name := "a"; cand_description := "first" |};
    {| cand_table_name := "b"; cand_description := "second" |} ].

(** ** Replies of the LLM *)

(** The character [c] does not occur in [s]. *)
Fixpoint lacks (c : ascii) (s : string) : Prop :=
  match s with
  | EmptyString => True
  | String c' s' => c' <> c /\ lacks c s'
  end.

(** The text [_parse_llm_response] hands to [json.loads]: the match of
    the regular expression if there is one, else the whole response. *)
Definition decoded_text (response : string) : string :=
  match re_search_array response with
  | Some json_str => json_str
  | None => response
  end.

(** The reply gives the batch no scores: the client raised, or
    [json.loads] rejected the text. *)
Definition undecodable (json_loads : string -> option json) (reply : llm_reply) : Prop :=
  match reply with
  | GenerateRaises _ => True
  | Generated response => json_loads (decoded_text (default EmptyString response)) = None
  end.

(** The key of a reply entry is not the name of a candidate of the
    batch: a string that names none of them, or a number, a boolean or
    [null]. *)
Definition names_no_candidate (key : json) (batch : list candidate) : Prop :=
  match key with
  | JStr name => name ∉ cand_table_name <$> batch
  | JList _ | JDict _ => False
  | _ => True
  end.

(** A reply entry the dict comprehension of [rerank] accepts: an object
    with the keys ["table_name"] and ["score"] whose name is hashable. *)
Definition well_formed_entry (item : json) : Prop :=
  exists key value,
    py_getitem item "table_name" = inr key
    /\ py_getitem item "score" = inr value
    /\ match key with JList _ | JDict _ => False | _ => True end.

(** The candidate list [rerank] builds from the description rows. *)
Definition candidates_of_rows (rows : list row) : list candidate :=
  map (fun row =>
         {| cand_table_name := row_table_name row;
            cand_description :=
              match row_table_description row with
              | Some d =>
                  if decide (d = EmptyString)
                  then "No description available" else d
              | None => "No description available"
              end |}) rows.

(** Floats are compared bit for bit. *)
#[global] Instance float_eq_dec : EqDecision float.
Proof. solve_decision. Defined.


(** ** More example inputs *)

(** An LLM that answers in prose. *)
Definition prose_llm : nat -> string -> llm_reply :=
  fun _ _ => Generated (Some "I cannot score these tables.").

(** An LLM that scores [a] only, decoded as [[{a: 0.9}]]. *)
Definition partial_llm : nat -> string -> llm_reply :=
  fun _ _ => Generated (Some "[a]").

Definition loads_only_a : string -> option json :=
  fun s =>
    if decide (s = "[a]") then Some (JList [score_entry "a" (PyFloat.literal 9 1)])
    else None.

(** An LLM whose reply names [a] twice and gives [b] the score [null],
    decoded as [[{a: 0.2}, {a: 0.9}, {b: null}]]. *)
Definition duplicate_null_llm : nat -> string -> llm_reply :=
  fun _ _ => Generated (Some "[a, a, b]").

Definition loads_duplicate_null : string -> option json :=
  fun s =>
    if decide (s = "[a, a, b]") then
      Some (JList [score_entry "a" (PyFloat.literal 2 1);
                   score_entry "a" (PyFloat.literal 9 1);
                   JDict [("table_name", JStr "b"); ("score", JNull)]])
    else None.

(** An LLM whose score for [a] is [null]. *)
Definition null_score_entry : json :=
  JDict [("table_name", JStr "a"); ("score", JNull)].

Definition null_score_llm : nat -> string -> llm_reply :=
  fun _ _ => Generated (Some "[null]").

Definition loads_null_score : string -> option json :=
  fun s => if decide (s = "[null]") then Some (JList [null_score_entry]) else None.

(** A database with the tables [a] and [b]; [b] has no description. *)
Definition ex_database : sql -> result (list row) :=
  fun statement =>
    match statement with
    | SelectDescriptions _ =>
        inr [ {| row_table_name := "a"; row_number := PyFloat.zero;
                 row_table_description := Some "first" |};
              {| row_table_name := "b"; row_number := PyFloat.zero;
                 row_table_description := None |} ]
    | _ =>
        inr [distance_row "a" (PyFloat.literal 2 1);
             distance_row "b" (PyFloat.literal 3 1)]
    end.

(** ** Retrieval sources *)

(** The identifiers of the rows a statement returned. *)
Definition row_names (rows : list row) : gset string :=
  list_to_set (row_table_name <$> rows).

(** Every [k + rank] is an integer a float holds exactly. *)
Definition small_ranks (k : Z) (results : list ranked) : Prop :=
  Forall (fun r => - 2 ^ 53 < k + ranked_rank r < 2 ^ 53) results.

(** The entries of a source that name [name]. *)
Definition entries_of (name : string) (results : list ranked) : list ranked :=
  filter (fun r => ranked_table_name r = name) results.

(** [out] is the top of a fusion over the identifiers [names]: its
    [top_n] first entries or all of them, each identifier at most once,
    in descending order of score. *)
Definition top_of_fusion (top_n : Z) (names : gset string)
    (out : list HybridSearchResult.t) : Prop :=
  length out = Nat.min (Z.to_nat top_n) (size names)
  /\ NoDup (HybridSearchResult.table_name <$> out)
  /\ Forall (fun r => HybridSearchResult.table_name r ∈ names) out
  /\ StronglySorted (descending HybridSearchResult.rrf_score) out.

(** ** Example sources *)

(** A source that lists [t] at ranks 1 and 3. *)
Definition ex_repeated_results : list ranked :=
  [rank_row "t" 1; rank_row "u" 2; rank_row "t" 3].

Definition ex_rows : list row :=
  [distance_row "a" (PyFloat.literal 2 1); distance_row "b" (PyFloat.literal 3 1)].

(** A database whose keyword statement returns [a] with the BM25 score
    [rank_score], and whose other statements return [ex_rows]. *)
Definition ex_bm25_database (rank_score : float) : sql -> result (list row) :=
  fun statement =>
    match statement with
    | SelectBM25 _ _ => inr [distance_row "a" rank_score]
    | _ => inr ex_rows
    end.

(** ** Vector search *)

(** A method name that [OPERATORS] does not list. *)
Definition unlisted (method : string) : Prop :=
  method <> "cosine" /\ method <> "L2" /\ method <> "dot_product".

(** The results of [search] when every row is scored by [score]. *)
Definition scored_rows (score : float -> float) (rows : list row)
  : list SearchResult.t :=
  (fun row => SearchResult.mk (row_table_name row)
                (PyFloat.round (score (row_number row)) 4)) <$> rows.

(** ** Requests *)

(** The statement [search] sends for a request of the [/search]
    endpoint. *)
Definition search_statement (request : SearchRequest.t)
    (query_embedding : list float) : sql :=
  SelectByDistance "description_embedding"
    (default "<=>" (OPERATORS !! SearchRequest.method request))
    query_embedding (SearchRequest.top_n request).

(** The two statements of a hybrid request: each source is asked for
    [max(100, 10 * top_n)] rows. *)
Definition vector_statement (request : HybridSearchRequest.t)
    (query_embedding : list float) : sql :=
  SelectByDistance "description_embedding"
    (default "<=>" (OPERATORS !! HybridSearchRequest.method request))
    query_embedding (Z.max 100 (HybridSearchRequest.top_n request * 10)).

Definition tags_statement (request : HybridSearchRequest.t)
    (query_embedding : list float) : sql :=
  SelectByDistance "tags_embedding" "<=>" query_embedding
    (Z.max 100 (HybridSearchRequest.top_n request * 10)).

Definition bm25_statement (request : HybridSearchRequest.t) : sql :=
  SelectBM25 (HybridSearchRequest.query request)
    (Z.max 100 (HybridSearchRequest.top_n request * 10)).

(** ** The calls of the retrieval sources *)

(** The rankings the sources make of the rows their statement returned:
    the identifiers in the order of the rows, ranked from 1; the BM25
    source keeps the [rank_score] of each row beside its rank. *)
Definition ranking (rows : list row) : list ranked :=
  imap (fun idx row =>
          {| ranked_table_name := row_table_name row;
             ranked_rank := Z.of_nat idx + 1;
             ranked_bm25_score := None |}) rows.

Definition bm25_ranking (rows : list row) : list ranked :=
  imap (fun idx row =>
          {| ranked_table_name := row_table_name row;
             ranked_rank := Z.of_nat idx + 1;
             ranked_bm25_score := Some (row_number row) |}) rows.

(** The statements of the three sources, each for [limit] rows. *)
Definition description_statement (method : string) (limit : Z)
    (query_embedding : list float) : sql :=
  SelectByDistance "description_embedding"
    (default "<=>" (OPERATORS !! method)) query_embedding limit.

Definition tags_embedding_statement (limit : Z) (query_embedding : list float)
  : sql :=
  SelectByDistance "tags_embedding" "<=>" query_embedding limit.

(** The call of a source that embeds the query and then sends
    [statement] fails with [e]: the embedding call raises [e], or it
    returns and the statement raises [e]. *)
Definition source_fails (embedding : result (list float))
    (fetch : sql -> result (list row)) (statement : list float -> sql)
    (e : exn) : Prop :=
  embedding = inl e
  \/ exists query_embedding,
      embedding = inr query_embedding
      /\ fetch (statement query_embedding) = inl e.

(** The call goes through: the embedding call returns and the statement
    returns [rows]. *)
Definition source_fetches (embedding : result (list float))
    (fetch : sql -> result (list row)) (statement : list float -> sql)
    (rows : list row) : Prop :=
  exists query_embedding,
    embedding = inr query_embedding
    /\ fetch (statement query_embedding) = inr rows.

(** A database that answers the statement on [description_embedding]
    with [ex_rows] and fails on every other statement. *)
Definition ex_description_only_database : sql -> result (list row) :=
  fun statement =>
    match statement with
    | SelectByDistance column _ _ _ =>
        if decide (column = "description_embedding") then inr ex_rows
        else inl (CollaboratorError "database")
    | _ => inl (CollaboratorError "database")
    end.

(** ** Example requests *)

Definition ex_str : exn -> string := fun _ => "error".

Definition ex_search_request : SearchRequest.t :=
  SearchRequest.mk "q" 10 "cosine".

Definition ex_hybrid_request : HybridSearchRequest.t :=
  HybridSearchRequest.mk "q" 10 half half "cosine" 60.

(** A request for the single best table. *)
Definition ex_top_1_request : HybridSearchRequest.t :=
  HybridSearchRequest.mk "q" 1 half half "cosine" 60.

(** The rows of a second source, which ranks [b] before [c], and two
    databases that answer the statement on [description_embedding] with
    [ex_rows] and the statement of the second source with these rows:
    the fusion holds [a], [b] and [c], and a request for one table is
    answered with a proper part of it. *)
Definition ex_tags_rows : list row :=
  [distance_row "b" (PyFloat.literal 1 1); distance_row "c" (PyFloat.literal 4 1)].

Definition ex_tags_database : sql -> result (list row) :=
  fun statement =>
    match statement with
    | SelectByDistance column _ _ _ =>
        if decide (column = "tags_embedding") then inr ex_tags_rows
        else inr ex_rows
    | _ => inr ex_rows
    end.

Definition ex_keyword_database : sql -> result (list row) :=
  fun statement =>
    match statement with
    | SelectBM25 _ _ => inr ex_tags_rows
    | _ => inr ex_rows
    end.

(** ** Prompts *)

(** The two lines of the prompt for the candidate at [position],
    followed by an empty line. *)
Definition candidate_entry (position : nat) (c : candidate) : string :=
  (pretty position +:+ ". Table: " +:+ cand_table_name c +:+ newline)
  +:+ ("   Description: " +:+ cand_description c +:+ newline +:+ newline).

(** [part] is a piece of [whole]. *)
Definition occurs_in (part whole : string) : Prop :=
  exists before after, whole = before +:+ part +:+ after.

(** [whole] ends with [part]. *)
Definition ends_with (part whole : string) : Prop :=
  exists before, whole = before +:+ part.

(* ===================================================================== *)
(** * Proofs *)
(* ===================================================================== *)

#[local] Arguments PyFloat.add : simpl never.
#[local] Arguments PyFloat.div : simpl never.
#[local] Arguments PyFloat.zero : simpl never.
#[local] Arguments PyFloat.of_Z : simpl never.

(** ** Floats *)

Module FloatFacts.
Import PyFloat.

Lemma leb_zero_nonneg x : leb zero x = true -> nonneg x.
Proof. destruct x as [s|[]| |[] m e]; simpl; try done. Qed.

Lemma nonneg_not_nan x : nonneg x -> is_nan x = false.
Proof. by destruct x. Qed.

Lemma add_comm x y : add x y = add y x.
Proof.
  destruct x as [[]|[]| |sx mx ex], y as [[]|[]| |sy my ey]; try reflexivity.
  unfold add, SFadd. rewrite (Z.min_comm ey ex). f_equal. apply Z.add_comm.
Qed.

Lemma add_zero_twice a b : add (add zero a) b = add (add zero b) a.
Proof.
  destruct a as [[]|[]| |sa ma ea], b as [[]|[]| |sb mb eb]; try reflexivity.
  change (add zero (S754_finite sa ma ea)) with (S754_finite sa ma ea).
  change (add zero (S754_finite sb mb eb)) with (S754_finite sb mb eb).
  apply add_comm.
Qed.

Lemma add_zero_r x : add (add zero x) zero = add zero x.
Proof. by destruct x as [[]|[]| |s m e]. Qed.

(** ** Rounding never invents a sign or a NaN *)

Lemma shr_1_nonneg mrs : 0 <= shr_m mrs -> 0 <= shr_m (shr_1 mrs).
Proof. destruct mrs as [[|[p|p|]|p] r s]; simpl; lia. Qed.

Lemma iter_pos_preserves {A} (P : A -> Prop) (f : A -> A) :
  (forall x, P x -> P (f x)) -> forall n x, P x -> P (SpecFloat.iter_pos f n x).
Proof. intros Hf. induction n; simpl; auto. Qed.

Lemma shr_fexp_nonneg m e l :
  0 <= m -> 0 <= shr_m (fst (shr_fexp prec emax m e l)).
Proof.
  intros Hm. unfold shr_fexp, shr.
  assert (H0 : 0 <= shr_m (shr_record_of_loc m l)) by (by destruct l as [|[]]).
  destruct (fexp prec emax (Zdigits2 m + e) - e); simpl; auto.
  by apply (iter_pos_preserves (fun mrs => 0 <= shr_m mrs)), H0; apply shr_1_nonneg.
Qed.

Lemma round_nearest_even_nonneg m l : 0 <= m -> 0 <= round_nearest_even m l.
Proof. destruct l as [|[]]; simpl; try destruct (Z.even m); lia. Qed.

Lemma binary_round_aux_sign s m e l :
  0 <= m -> has_sign s (binary_round_aux prec emax s m e l).
Proof.
  intros Hm. unfold binary_round_aux.
  pose proof (shr_fexp_nonneg m e l Hm) as H1.
  destruct (shr_fexp prec emax m e l) as [mrs' e']. simpl in H1.
  pose proof (shr_fexp_nonneg _ e' loc_Exact
                (round_nearest_even_nonneg _ (loc_of_shr_record mrs') H1)) as H2.
  destruct (shr_fexp prec emax _ e' loc_Exact) as [mrs'' e'']. simpl in H2.
  destruct (shr_m mrs'') as [|p|p]; [done| |lia].
  by destruct (e'' <=? emax - prec).
Qed.

Lemma has_sign_nonneg x : has_sign false x -> nonneg x.
Proof. by destruct x. Qed.

Lemma binary_round_sign s m e : has_sign s (binary_round prec emax s m e).
Proof.
  unfold binary_round. destruct (shl_align _ _ _) as [mz ez].
  by apply binary_round_aux_sign.
Qed.

Lemma add_nonneg x y : nonneg x -> nonneg y -> nonneg (add x y).
Proof.
  destruct x as [[]|[]| |[] mx ex], y as [[]|[]| |[] my ey]; simpl; try done.
  intros _ _. apply has_sign_nonneg. unfold add, SFadd.
  cbn [cond_Zopp Z.add]. apply binary_round_sign.
Qed.

Lemma div_nonneg x my ey :
  nonneg x -> nonneg (div x (S754_finite false my ey)).
Proof.
  destruct x as [[]|[]| |[] mx ex]; simpl; try done.
  intros _. apply has_sign_nonneg. unfold div, SFdiv, SFdiv_core_binary.
  set (m' := match _ - _ - _ with Z.pos _ => _ | Z0 => _ | Z.neg _ => _ end).
  assert (Hm' : 0 <= m').
  { subst m'. destruct (_ - _ - _); try lia. apply Z.shiftl_nonneg. lia. }
  pose proof (Z.div_pos m' (Z.pos my) Hm' ltac:(lia)) as Hq.
  unfold Z.div in Hq. destruct (Z.div_eucl m' (Z.pos my)) as [q r].
  by apply binary_round_aux_sign.
Qed.

(** ** The order on floats that are not NaN *)

Lemma ltb_false_leb x y :
  is_nan x = false -> is_nan y = false -> ltb x y = false -> leb y x = true.
Proof.
  unfold ltb, leb, SFltb, SFleb.
  destruct x as [[]|[]| |[] mx ex], y as [[]|[]| |[] my ey]; simpl; try done;
    intros _ _; fold (Pos.compare mx my) (Pos.compare my mx);
    destruct (Z.compare_spec ex ey), (Z.compare_spec ey ex),
      (Pos.compare_spec mx my), (Pos.compare_spec my mx); simpl; try done; lia.
Qed.

Lemma leb_trans x y z : leb x y = true -> leb y z = true -> leb x z = true.
Proof.
  unfold leb, SFleb.
  destruct x as [[]|[]| |[] mx ex], y as [[]|[]| |[] my ey],
           z as [[]|[]| |[] mz ez]; simpl; try done;
    fold (Pos.compare mx my) (Pos.compare my mz) (Pos.compare mx mz);
    destruct (Z.compare_spec ex ey), (Z.compare_spec ey ez), (Z.compare_spec ex ez),
      (Pos.compare_spec mx my), (Pos.compare_spec my mz), (Pos.compare_spec mx mz);
    simpl; try done; lia.
Qed.

Lemma eqb_refl x : is_nan x = false -> eqb x x = true.
Proof.
  unfold eqb, SFeqb.
  destruct x as [[]|[]| |[] m e]; simpl; try done; intros _;
    rewrite Z.compare_refl; fold (Pos.compare m m);
    by rewrite Pos.compare_refl.
Qed.

Lemma leb_leb_eqb x y : leb x y = true -> leb y x = true -> eqb x y = true.
Proof.
  unfold leb, eqb, SFleb, SFeqb.
  destruct x as [[]|[]| |[] mx ex], y as [[]|[]| |[] my ey]; simpl; try done;
    fold (Pos.compare mx my) (Pos.compare my mx);
    destruct (Z.compare_spec ex ey), (Z.compare_spec ey ex),
      (Pos.compare_spec mx my), (Pos.compare_spec my mx); simpl; try done; lia.
Qed.

End FloatFacts.

Import FloatFacts.

Lemma ltb_leb x y : PyFloat.ltb x y = true -> PyFloat.leb x y = true.
Proof.
  unfold PyFloat.ltb, PyFloat.leb, SFltb, SFleb.
  by destruct (SFcompare x y) as [[]|].
Qed.

(** ** The error monad *)

Lemma bind_inr {A B} (m : result A) (f : A -> result B) y :
  m ≫= f = inr y <-> exists x, m = inr x /\ f x = inr y.
Proof.
  destruct m as [e|x]; simpl; split.
  - done.
  - by intros (? & ? & _).
  - eauto.
  - by intros (? & [= <-] & ?).
Qed.

Lemma for_each_inr {A B} (f : A -> result B) l out :
  for_each f l = inr out <-> Forall2 (fun x y => f x = inr y) l out.
Proof.
  revert out. induction l as [|x l IH]; intros out; simpl.
  - split.
    + intros [= <-]. constructor.
    + by inversion 1.
  - rewrite bind_inr. split.
    + intros (y & Hy & H). apply bind_inr in H as (ys & Hys & [= <-]).
      constructor; [done|]. by apply IH.
    + inversion 1 as [|? y ? ys Hy Hys]; subst. exists y. split; [done|].
      apply bind_inr. exists ys. split; [|done]. by apply IH.
Qed.

Lemma for_each_returns {A B} (f : A -> result B) l :
  Forall (fun x => exists y, f x = inr y) l -> exists out, for_each f l = inr out.
Proof.
  induction 1 as [|x l [y Hy] _ [ys Hys]].
  - by exists [].
  - exists (y :: ys). simpl. by rewrite Hy, Hys.
Qed.

Lemma for_each_fmap {A B} (f : A -> result B) (g : B -> A) l out :
  (forall x y, f x = inr y -> g y = x) ->
  for_each f l = inr out -> g <$> out = l.
Proof.
  intros Hg H. apply for_each_inr in H.
  induction H as [|x y l out Hxy _ IH]; [done|].
  rewrite fmap_cons. by rewrite (Hg _ _ Hxy), IH.
Qed.

(** ** [list.sort(key=.., reverse=True)] *)

Section SortReverse.
Context {A : Type} (key : A -> float).

Lemma insert_reverse_Permutation x l : insert_reverse key x l ≡ₚ x :: l.
Proof.
  induction l as [|y l IH]; simpl; [done|].
  destruct (PyFloat.ltb _ _); [|done].
  rewrite IH. apply Permutation_swap.
Qed.

Lemma sort_reverse_Permutation l : sort_reverse key l ≡ₚ l.
Proof.
  induction l as [|x l IH]; simpl; [done|].
  by rewrite insert_reverse_Permutation, IH.
Qed.

Lemma insert_reverse_sorted x l :
  PyFloat.is_nan (key x) = false ->
  Forall (fun y => PyFloat.is_nan (key y) = false) l ->
  StronglySorted (descending key) l ->
  StronglySorted (descending key) (insert_reverse key x l).
Proof.
  intros Hx Hl Hs. induction Hs as [|y l Hs IH Hy]; simpl.
  - repeat constructor.
  - apply Forall_cons in Hl as [Hny Hl].
    destruct (PyFloat.ltb (key x) (key y)) eqn:Hlt.
    + constructor; [by apply IH|].
      rewrite insert_reverse_Permutation. constructor; [|done].
      by apply ltb_leb.
    + assert (Hyx : descending key x y) by by apply ltb_false_leb.
      constructor; [by constructor|]. constructor; [done|].
      eapply Forall_impl; [exact Hy|]. intros z Hz.
      unfold descending in *. by eapply leb_trans.
Qed.

Lemma sort_reverse_sorted l :
  Forall (fun y => PyFloat.is_nan (key y) = false) l ->
  StronglySorted (descending key) (sort_reverse key l).
Proof.
  induction 1 as [|x l Hx Hl IH]; simpl; [constructor|].
  apply insert_reverse_sorted; [done| |done].
  by rewrite sort_reverse_Permutation.
Qed.

Lemma sort_reverse_ties l :
  (forall x y, x ∈ l -> y ∈ l -> PyFloat.ltb (key x) (key y) = false) ->
  sort_reverse key l = l.
Proof.
  induction l as [|x l IH]; intros H; simpl; [done|].
  rewrite IH by (intros; apply H; by constructor).
  destruct l as [|y l]; simpl; [done|].
  rewrite H; [done| |]; repeat constructor.
Qed.

End SortReverse.

Lemma insert_reverse_fmap {A B} (key : A -> float) (f : B -> A) x l :
  insert_reverse key (f x) (f <$> l) = f <$> insert_reverse (key ∘ f) x l.
Proof.
  induction l as [|y l IH]; [done|].
  rewrite fmap_cons. cbn [insert_reverse]. unfold compose at 1 2.
  destruct (PyFloat.ltb (key (f x)) (key (f y))); rewrite !fmap_cons; [|done].
  by rewrite IH.
Qed.

Lemma sort_reverse_fmap {A B} (key : A -> float) (f : B -> A) l :
  sort_reverse key (f <$> l) = f <$> sort_reverse (key ∘ f) l.
Proof.
  induction l as [|x l IH]; [done|].
  rewrite fmap_cons. cbn [sort_reverse foldr].
  fold (sort_reverse key (f <$> l)). fold (sort_reverse (key ∘ f) l).
  by rewrite IH, insert_reverse_fmap.
Qed.

(** ** Integers below [2^53] convert exactly *)

Lemma digits2_pos_lower p : 2 ^ (Z.pos (digits2_pos p) - 1) <= Z.pos p.
Proof.
  induction p as [p IH|p IH|]; simpl digits2_pos; [| |done];
    rewrite Pos2Z.inj_succ;
    replace (Z.succ (Z.pos (digits2_pos p)) - 1)
      with (Z.succ (Z.pos (digits2_pos p) - 1)) by lia;
    rewrite Z.pow_succ_r by lia; lia.
Qed.

Lemma digits2_pos_shift p k :
  digits2_pos (Pos.iter xO p k) = (digits2_pos p + k)%positive.
Proof.
  induction k as [|k IH] using Pos.peano_ind.
  - simpl. lia.
  - rewrite Pos.iter_succ. simpl. rewrite IH. lia.
Qed.

Lemma binary_round_aux_canonical s m e :
  fexp PyFloat.prec PyFloat.emax (Z.pos (digits2_pos m) + e) = e ->
  e <= PyFloat.emax - PyFloat.prec ->
  binary_round_aux PyFloat.prec PyFloat.emax s (Z.pos m) e loc_Exact
  = S754_finite s m e.
Proof.
  intros Hc He. unfold binary_round_aux, shr_fexp. simpl Zdigits2.
  rewrite Hc, Z.sub_diag. simpl. rewrite Hc, Z.sub_diag. simpl.
  by apply Z.leb_le in He as ->.
Qed.

Lemma of_Z_small z :
  0 < z < 2 ^ 53 -> exists m e, PyFloat.of_Z z = S754_finite false m e.
Proof.
  intros [Hz Hlt]. destruct z as [|p|p]; try lia.
  unfold PyFloat.of_Z, binary_normalize, binary_round.
  pose proof (digits2_pos_lower p) as Hd.
  assert (Hd53 : Z.pos (digits2_pos p) <= 53).
  { destruct (decide (Z.pos (digits2_pos p) <= 53)) as [|Hn]; [done|].
    assert (2 ^ 53 <= 2 ^ (Z.pos (digits2_pos p) - 1))
      by (apply Z.pow_le_mono_r; lia). lia. }
  assert (Hf : fexp PyFloat.prec PyFloat.emax (Z.pos (digits2_pos p) + 0)
               = Z.pos (digits2_pos p) - 53).
  { unfold fexp, emin, PyFloat.prec, PyFloat.emax. lia. }
  rewrite Hf. unfold shl_align.
  destruct (Z.pos (digits2_pos p) - 53 - 0) as [|k|k] eqn:Hk; try lia.
  - eexists _, _. apply binary_round_aux_canonical.
    + unfold fexp, emin, PyFloat.prec, PyFloat.emax. lia.
    + unfold PyFloat.prec, PyFloat.emax. lia.
  - eexists _, _. apply binary_round_aux_canonical.
    + rewrite digits2_pos_shift.
      unfold fexp, emin, PyFloat.prec, PyFloat.emax. lia.
    + unfold PyFloat.prec, PyFloat.emax. lia.
Qed.

Lemma float_truediv_int_returns x n :
  0 < n < 2 ^ 53 ->
  float_truediv_int x n = inr (PyFloat.div x (PyFloat.of_Z n)).
Proof.
  intros Hn. destruct (of_Z_small n Hn) as (m & e & Hm).
  unfold float_truediv_int, float_of_int. by rewrite Hm.
Qed.

Lemma float_truediv_int_inr x n y :
  float_truediv_int x n = inr y ->
  y = PyFloat.div x (PyFloat.of_Z n) /\ PyFloat.is_zero (PyFloat.of_Z n) = false.
Proof.
  unfold float_truediv_int, float_of_int, float_truediv.
  destruct (PyFloat.of_Z n) as [[]|[]| |s m e]; simpl; try done;
    by intros [= <-].
Qed.

(** A non-negative weight over a positive integer: not a NaN, not negative. *)
Lemma div_of_Z_nonneg w n :
  nonneg w -> 0 < n < 2 ^ 53 -> nonneg (PyFloat.div w (PyFloat.of_Z n)).
Proof.
  intros Hw Hn. destruct (of_Z_small n Hn) as (m & e & ->). by apply div_nonneg.
Qed.

(** ** Rank maps *)

Lemma rank_map_foldl_dom (results : list ranked) (m : gmap string Z) :
  dom (foldl (fun m r => <[ranked_table_name r := ranked_rank r]> m) m results)
  = dom m ∪ source_names results.
Proof.
  unfold source_names. revert m.
  induction results as [|r l IH]; intros m; simpl.
  - set_solver.
  - rewrite IH, dom_insert_L. set_solver.
Qed.

Lemma rank_map_dom results : dom (rank_map results) = source_names results.
Proof. unfold rank_map. rewrite rank_map_foldl_dom. set_solver. Qed.

Lemma rank_map_foldl_Forall (P : Z -> Prop) (results : list ranked) (m : gmap string Z) :
  map_Forall (fun _ r => P r) m ->
  Forall (fun x => P (ranked_rank x)) results ->
  map_Forall (fun _ r => P r)
    (foldl (fun m r => <[ranked_table_name r := ranked_rank r]> m) m results).
Proof.
  intros Hm Hl. revert m Hm.
  induction Hl as [|x l Hx _ IH]; intros m Hm; simpl; [done|].
  apply IH. by apply map_Forall_insert_2.
Qed.

Lemma rank_map_valid k results name r :
  valid_ranks k results -> rank_map results !! name = Some r ->
  1 <= r /\ k + r < 2 ^ 53.
Proof.
  intros Hv Hr.
  apply (rank_map_foldl_Forall (fun r => 1 <= r /\ k + r < 2 ^ 53) results ∅
           (map_Forall_empty _) Hv name r Hr).
Qed.

Lemma set_iteration_Permutation set_iter s :
  set_iteration set_iter -> set_iter s ≡ₚ elements s.
Proof.
  intros H. destruct (H s) as [Hnd Hin].
  apply NoDup_Permutation; [done|apply NoDup_elements|].
  intros x. by rewrite Hin, elem_of_elements.
Qed.

Lemma set_iteration_elements : set_iteration elements.
Proof.
  intros s. split; [apply NoDup_elements|]. intros x. apply elem_of_elements.
Qed.

(** ** One pass of the fusion loop *)

Lemma fuse_one_inr vector_ranks tags_ranks k wv wt name r :
  HybridSearchService.fuse_one vector_ranks tags_ranks k wv wt name = inr r ->
  r = HybridSearchResult.mk name
        (PyFloat.add (PyFloat.add PyFloat.zero (rrf_term wv k (vector_ranks !! name)))
           (rrf_term wt k (tags_ranks !! name)))
        (vector_ranks !! name) (tags_ranks !! name).
Proof.
  unfold HybridSearchService.fuse_one.
  destruct (vector_ranks !! name) as [rv|], (tags_ranks !! name) as [rt|]; simpl.
  - destruct (float_truediv_int wv (k + rv)) as [|qv] eqn:Hv; simpl; [done|].
    destruct (float_truediv_int wt (k + rt)) as [|qt] eqn:Ht; simpl; [done|].
    apply float_truediv_int_inr in Hv as [-> _], Ht as [-> _]. by intros [= <-].
  - destruct (float_truediv_int wv (k + rv)) as [|qv] eqn:Hv; simpl; [done|].
    apply float_truediv_int_inr in Hv as [-> _]. intros [= <-].
    unfold rrf_term. by rewrite add_zero_r.
  - destruct (float_truediv_int wt (k + rt)) as [|qt] eqn:Ht; simpl; [done|].
    apply float_truediv_int_inr in Ht as [-> _]. by intros [= <-].
  - by intros [= <-].
Qed.

Lemma fuse_one_returns vector_ranks tags_ranks k wv wt name :
  (forall r, vector_ranks !! name = Some r -> 0 < k + r < 2 ^ 53) ->
  (forall r, tags_ranks !! name = Some r -> 0 < k + r < 2 ^ 53) ->
  exists r, HybridSearchService.fuse_one vector_ranks tags_ranks k wv wt name = inr r.
Proof.
  intros Hv Ht. unfold HybridSearchService.fuse_one.
  destruct (vector_ranks !! name) as [rv|], (tags_ranks !! name) as [rt|]; simpl;
    rewrite ?(float_truediv_int_returns wv (k + rv)) by auto;
    rewrite ?(float_truediv_int_returns wt (k + rt)) by auto; simpl; eauto.
Qed.

Lemma rrf_term_nonneg w k rank :
  nonneg w -> (forall r, rank = Some r -> 0 < k + r < 2 ^ 53) -> nonneg (rrf_term w k rank).
Proof.
  intros Hw Hr. destruct rank as [r|]; simpl; [|done]. apply div_of_Z_nonneg; auto.
Qed.

Lemma add_zero_add_eqb a b :
  nonneg a -> nonneg b ->
  PyFloat.eqb (PyFloat.add (PyFloat.add PyFloat.zero a) b) (PyFloat.add a b) = true.
Proof.
  intros Ha Hb.
  destruct a as [[]|[]| |[] ma ea]; try done;
    try (apply eqb_refl, nonneg_not_nan, add_nonneg; done).
  destruct b as [[]|[]| |[] mb eb]; try done; by apply eqb_refl.
Qed.

(** ** [calculate_rrf] *)

Section Fusion.
Variable set_iter : gset string -> list string.
Variables vector_results tags_results : list ranked.
Variable k : Z.
Variables vector_weight tags_weight : float.

Local Abbreviation vector_ranks := (rank_map vector_results).
Local Abbreviation tags_ranks := (rank_map tags_results).
Local Abbreviation all_tables :=
  (source_names vector_results ∪ source_names tags_results).

Lemma calculate_rrf_inr out :
  HybridSearchService.calculate_rrf set_iter vector_results tags_results k
    vector_weight tags_weight = inr out
  <-> exists rrf_scores,
      Forall2 (fun name r =>
                 HybridSearchService.fuse_one vector_ranks tags_ranks k
                   vector_weight tags_weight name = inr r)
        (set_iter all_tables) rrf_scores
      /\ out = sort_reverse HybridSearchResult.rrf_score rrf_scores.
Proof.
  unfold HybridSearchService.calculate_rrf. rewrite bind_inr, !rank_map_dom.
  split; intros (rrf_scores & H & Hout); exists rrf_scores.
  - apply for_each_inr in H. by injection Hout as <-.
  - apply for_each_inr in H. by subst out.
Qed.

Lemma fuse_all_names rrf_scores :
  Forall2 (fun name r =>
             HybridSearchService.fuse_one vector_ranks tags_ranks k
               vector_weight tags_weight name = inr r)
    (set_iter all_tables) rrf_scores ->
  HybridSearchResult.table_name <$> rrf_scores = set_iter all_tables.
Proof.
  induction 1 as [|name r l rs H _ IH]; [done|].
  rewrite fmap_cons, IH. by rewrite (fuse_one_inr _ _ _ _ _ _ _ H).
Qed.

Lemma calculate_rrf_names out :
  set_iteration set_iter ->
  HybridSearchService.calculate_rrf set_iter vector_results tags_results k
    vector_weight tags_weight = inr out ->
  HybridSearchResult.table_name <$> out ≡ₚ elements all_tables.
Proof.
  intros Hset (rrf_scores & H & ->)%calculate_rrf_inr.
  rewrite sort_reverse_Permutation, (fuse_all_names _ H).
  by apply set_iteration_Permutation.
Qed.

Lemma calculate_rrf_fused out r :
  HybridSearchService.calculate_rrf set_iter vector_results tags_results k
    vector_weight tags_weight = inr out ->
  r ∈ out ->
  r = HybridSearchResult.mk (HybridSearchResult.table_name r)
        (PyFloat.add
           (PyFloat.add PyFloat.zero
              (rrf_term vector_weight k (vector_ranks !! HybridSearchResult.table_name r)))
           (rrf_term tags_weight k (tags_ranks !! HybridSearchResult.table_name r)))
        (vector_ranks !! HybridSearchResult.table_name r)
        (tags_ranks !! HybridSearchResult.table_name r).
Proof.
  intros (rrf_scores & H & ->)%calculate_rrf_inr Hr.
  rewrite sort_reverse_Permutation in Hr.
  apply list_elem_of_lookup in Hr as [i Hi].
  destruct (Forall2_lookup_r _ _ _ _ _ H Hi) as (name & _ & Hf).
  apply fuse_one_inr in Hf. rewrite Hf. reflexivity.
Qed.

Lemma calculate_rrf_returns :
  0 <= k -> valid_ranks k vector_results -> valid_ranks k tags_results ->
  exists out,
    HybridSearchService.calculate_rrf set_iter vector_results tags_results k
      vector_weight tags_weight = inr out.
Proof.
  intros Hk Hv Ht.
  destruct (for_each_returns
              (HybridSearchService.fuse_one vector_ranks tags_ranks k
                 vector_weight tags_weight) (set_iter all_tables))
    as [rrf_scores H].
  { apply Forall_forall. intros name _. apply fuse_one_returns; intros r Hr.
    - destruct (rank_map_valid _ _ _ _ Hv Hr). lia.
    - destruct (rank_map_valid _ _ _ _ Ht Hr). lia. }
  eexists. apply calculate_rrf_inr. eexists. split; [|done]. by apply for_each_inr.
Qed.

End Fusion.

Lemma bm25_calculate_rrf_eq :
  HybridSearchBM25Service.calculate_rrf = HybridSearchService.calculate_rrf.
Proof. reflexivity. Qed.

Lemma calculate_rrf_complete set_iter vector_results tags_results k wv wt out :
  set_iteration set_iter ->
  HybridSearchService.calculate_rrf set_iter vector_results tags_results k wv wt
    = inr out ->
  fusion_complete vector_results tags_results out.
Proof.
  intros Hset H. pose proof (calculate_rrf_names _ _ _ _ _ _ _ Hset H) as Hp.
  repeat split.
  - rewrite <-(length_fmap HybridSearchResult.table_name), Hp. done.
  - rewrite Hp. apply NoDup_elements.
  - rewrite Hp, elem_of_elements. set_solver.
  - rewrite Hp, elem_of_elements. set_solver.
Qed.

Lemma swap_sources_involutive r : swap_sources (swap_sources r) = r.
Proof. by destruct r. Qed.

Lemma fuse_one_swap A B k w1 w2 name r :
  HybridSearchService.fuse_one A B k w1 w2 name = inr r ->
  HybridSearchService.fuse_one B A k w2 w1 name = inr (swap_sources r).
Proof.
  unfold HybridSearchService.fuse_one.
  destruct (A !! name) as [ra|], (B !! name) as [rb|]; simpl;
    repeat match goal with
      | |- context [float_truediv_int ?w ?n] =>
          destruct (float_truediv_int w n); simpl; try done
      end;
    intros [= <-]; unfold swap_sources; simpl; try done.
  by rewrite add_zero_twice.
Qed.

Lemma calculate_rrf_swap set_iter A B k w1 w2 out :
  HybridSearchService.calculate_rrf set_iter A B k w1 w2 = inr out ->
  HybridSearchService.calculate_rrf set_iter B A k w2 w1 = inr (swap_sources <$> out).
Proof.
  intros (rrf_scores & H & ->)%calculate_rrf_inr.
  apply calculate_rrf_inr. exists (swap_sources <$> rrf_scores). split.
  - rewrite (union_comm_L (source_names B)).
    apply Forall2_fmap_r. eapply Forall2_impl; [exact H|].
    intros name r. apply fuse_one_swap.
  - by rewrite sort_reverse_fmap.
Qed.

Lemma calculate_rrf_sorted set_iter vector_results tags_results k wv wt out :
  0 <= k -> valid_ranks k vector_results -> valid_ranks k tags_results ->
  nonneg wv -> nonneg wt ->
  HybridSearchService.calculate_rrf set_iter vector_results tags_results k wv wt
    = inr out ->
  Forall (fused_as_specified (rank_map vector_results) (rank_map tags_results)
            k wv wt) out
  /\ StronglySorted (descending HybridSearchResult.rrf_score) out.
Proof.
  intros Hk Hv Ht Hwv Hwt H.
  assert (Hterms : forall name,
             nonneg (rrf_term wv k (rank_map vector_results !! name)) /\
             nonneg (rrf_term wt k (rank_map tags_results !! name))).
  { intros name. split; apply rrf_term_nonneg; try done; intros r Hr.
    - destruct (rank_map_valid _ _ _ _ Hv Hr). lia.
    - destruct (rank_map_valid _ _ _ _ Ht Hr). lia. }
  assert (Hall : Forall (fused_as_specified (rank_map vector_results)
                           (rank_map tags_results) k wv wt) out).
  { apply Forall_forall. intros r Hr.
    pose proof (calculate_rrf_fused _ _ _ _ _ _ _ _ H Hr) as Hf.
    destruct (Hterms (HybridSearchResult.table_name r)) as [Ha Hb].
    unfold fused_as_specified. rewrite Hf. simpl. repeat split.
    by apply add_zero_add_eqb. }
  split; [done|].
  apply calculate_rrf_inr in H as (rrf_scores & _ & Hout).
  rewrite Hout. apply sort_reverse_sorted.
  rewrite <-(sort_reverse_Permutation HybridSearchResult.rrf_score), <-Hout.
  eapply Forall_impl; [exact Hall|]. intros r (_ & _ & -> & _).
  destruct (Hterms (HybridSearchResult.table_name r)) as [Ha Hb].
  apply nonneg_not_nan, add_nonneg; [|done]. by apply add_nonneg.
Qed.

Lemma ex_iteration_orders set_iter :
  set_iteration set_iter ->
  set_iter (dom (rank_map ex_vector_results) ∪ dom (rank_map ex_keyword_results))
    ∈ permutations ["t1"; "t2"; "t3"].
Proof.
  intros Hset. apply permutations_Permutation.
  rewrite (set_iteration_Permutation _ _ Hset).
  apply NoDup_Permutation.
  - repeat constructor; set_solver.
  - apply NoDup_elements.
  - intros x. rewrite elem_of_elements, !rank_map_dom.
    unfold source_names, ex_vector_results, ex_keyword_results. set_solver.
Qed.

(** C1 (as amended): for every iteration order of the union, every
    k >= 0, ranks >= 1 and weights >= 0, calculate_rrf returns one record
    per identifier of the union, whose score is
    0.0 + (weightA/(k+rankA) or 0) + (weightB/(k+rankB) or 0), and the
    records are in descending score order.  For the example of the
    specification the output is t2, t1, t3 with scores
    0.5/62 + 0.5/61, 0.5/61 and 0.5/62. *)
Theorem C1_calculate_rrf_scores_and_order :
  forall set_iter vector_results tags_results k vector_weight tags_weight,
    set_iteration set_iter ->
    0 <= k -> valid_ranks k vector_results -> valid_ranks k tags_results ->
    PyFloat.leb PyFloat.zero vector_weight = true ->
    PyFloat.leb PyFloat.zero tags_weight = true ->
    (exists out,
        HybridSearchService.calculate_rrf set_iter vector_results tags_results k
          vector_weight tags_weight = inr out
        /\ HybridSearchResult.table_name <$> out
           ≡ₚ elements (source_names vector_results ∪ source_names tags_results)
        /\ Forall (fused_as_specified (rank_map vector_results)
                     (rank_map tags_results) k vector_weight tags_weight) out
        /\ StronglySorted (descending HybridSearchResult.rrf_score) out)
    /\ HybridSearchService.calculate_rrf set_iter ex_vector_results
         ex_keyword_results 60 half half
       = inr [ HybridSearchResult.mk "t2"
                 (PyFloat.add (PyFloat.div half (PyFloat.of_Z 62))
                    (PyFloat.div half (PyFloat.of_Z 61)))
                 (Some 2) (Some 1);
               HybridSearchResult.mk "t1" (PyFloat.div half (PyFloat.of_Z 61))
                 (Some 1) None;
               HybridSearchResult.mk "t3" (PyFloat.div half (PyFloat.of_Z 62))
                 None (Some 2) ].
Proof.
  intros set_iter vr tr k wv wt Hset Hk Hv Ht Hwv Hwt. split.
  - destruct (calculate_rrf_returns set_iter vr tr k wv wt Hk Hv Ht) as [out H].
    exists out. split; [done|]. split; [by eapply calculate_rrf_names|].
    eapply calculate_rrf_sorted; eauto using leb_zero_nonneg.
  - pose proof (ex_iteration_orders _ Hset) as Ho.
    unfold HybridSearchService.calculate_rrf.
    remember (set_iter _) as order eqn:Heq. clear Heq.
    vm_compute in Ho.
    repeat (apply elem_of_cons in Ho as [->|Ho]; [vm_compute; reflexivity|]).
    by apply elem_of_nil in Ho.
Qed.

Lemma C1_witness :
  (exists out,
      HybridSearchService.calculate_rrf elements ex_vector_results
        ex_keyword_results 60 half half = inr out
      /\ HybridSearchResult.table_name <$> out
         ≡ₚ elements (source_names ex_vector_results ∪ source_names ex_keyword_results)
      /\ Forall (fused_as_specified (rank_map ex_vector_results)
                   (rank_map ex_keyword_results) 60 half half) out
      /\ StronglySorted (descending HybridSearchResult.rrf_score) out)
  /\ HybridSearchService.calculate_rrf elements ex_vector_results
       ex_keyword_results 60 half half
     = inr [ HybridSearchResult.mk "t2"
               (PyFloat.add (PyFloat.div half (PyFloat.of_Z 62))
                  (PyFloat.div half (PyFloat.of_Z 61)))
               (Some 2) (Some 1);
             HybridSearchResult.mk "t1" (PyFloat.div half (PyFloat.of_Z 61))
               (Some 1) None;
             HybridSearchResult.mk "t3" (PyFloat.div half (PyFloat.of_Z 62))
               None (Some 2) ].
Proof.
  apply (C1_calculate_rrf_scores_and_order elements ex_vector_results
           ex_keyword_results 60 half half).
  - exact set_iteration_elements.
  - lia.
  - repeat constructor; simpl; lia.
  - repeat constructor; simpl; lia.
  - reflexivity.
  - reflexivity.
Defined.

(** C1, the example as the specification states it: the score of t2 is
    not 0.5/61 + 0.5/61 (t2 has rank 2 in the vector source). *)
Lemma C1_counterexample :
  exists t2,
    HybridSearchService.calculate_rrf elements ex_vector_results ex_keyword_results
      60 half half
    = inr [ t2;
            HybridSearchResult.mk "t1" (PyFloat.div half (PyFloat.of_Z 61))
              (Some 1) None;
            HybridSearchResult.mk "t3" (PyFloat.div half (PyFloat.of_Z 62))
              None (Some 2) ]
    /\ HybridSearchResult.table_name t2 = "t2"
    /\ PyFloat.eqb (HybridSearchResult.rrf_score t2)
         (PyFloat.add (PyFloat.div half (PyFloat.of_Z 61))
            (PyFloat.div half (PyFloat.of_Z 61))) = false.
Proof.
  exists (HybridSearchResult.mk "t2"
            (PyFloat.add (PyFloat.div half (PyFloat.of_Z 62))
               (PyFloat.div half (PyFloat.of_Z 61)))
            (Some 2) (Some 1)).
  repeat split; vm_compute; reflexivity.
Qed.

(** C4: for every iteration order of the union, k >= 0 and ranks >= 1,
    calculate_rrf (tags variant and BM25 variant) returns a list with
    exactly one entry per identifier of the union of the two sources:
    its length is the size of the union, no identifier of either source
    is missing and no other identifier occurs. *)
Theorem C4_fusion_output_is_the_union :
  forall set_iter vector_results other_results k vector_weight other_weight,
    set_iteration set_iter ->
    0 <= k -> valid_ranks k vector_results -> valid_ranks k other_results ->
    (exists out,
        HybridSearchService.calculate_rrf set_iter vector_results other_results k
          vector_weight other_weight = inr out
        /\ fusion_complete vector_results other_results out)
    /\ (exists out,
          HybridSearchBM25Service.calculate_rrf set_iter vector_results
            other_results k vector_weight other_weight = inr out
          /\ fusion_complete vector_results other_results out).
Proof.
  intros set_iter vr tr k wv wt Hset Hk Hv Ht. rewrite bm25_calculate_rrf_eq.
  destruct (calculate_rrf_returns set_iter vr tr k wv wt Hk Hv Ht) as [out H].
  split; exists out; (split; [done|]); by eapply calculate_rrf_complete.
Qed.

Lemma C4_witness :
  (exists out,
      HybridSearchService.calculate_rrf elements ex_vector_results
        ex_keyword_results 60 half half = inr out
      /\ fusion_complete ex_vector_results ex_keyword_results out)
  /\ (exists out,
        HybridSearchBM25Service.calculate_rrf elements ex_vector_results
          ex_keyword_results 60 half half = inr out
        /\ fusion_complete ex_vector_results ex_keyword_results out).
Proof.
  apply (C4_fusion_output_is_the_union elements ex_vector_results
           ex_keyword_results 60 half half).
  - exact set_iteration_elements.
  - lia.
  - repeat constructor; simpl; lia.
  - repeat constructor; simpl; lia.
Defined.

Lemma swap_sources_twice (out : list HybridSearchResult.t) :
  swap_sources <$> (swap_sources <$> out) = out.
Proof.
  rewrite <-list_fmap_compose. rewrite <-(list_fmap_id out) at 2.
  apply list_fmap_ext. intros _ r _. apply swap_sources_involutive.
Qed.

Lemma fuse_all_fmap set_names A B k w1 w2 rrf_scores :
  Forall2 (fun name r => HybridSearchService.fuse_one A B k w1 w2 name = inr r)
    set_names rrf_scores ->
  rrf_scores
  = (fun name =>
       HybridSearchResult.mk name
         (PyFloat.add (PyFloat.add PyFloat.zero (rrf_term w1 k (A !! name)))
            (rrf_term w2 k (B !! name)))
         (A !! name) (B !! name)) <$> set_names.
Proof.
  induction 1 as [|name r l rs H _ IH]; [done|].
  rewrite fmap_cons, <-IH. f_equal. by apply fuse_one_inr.
Qed.

(** Without ties the iteration order of the set does not show in the
    output. *)
Lemma calculate_rrf_order_independent iter1 iter2 A B k w1 w2 out1 out2 :
  set_iteration iter1 -> set_iteration iter2 ->
  HybridSearchService.calculate_rrf iter1 A B k w1 w2 = inr out1 ->
  HybridSearchService.calculate_rrf iter2 A B k w1 w2 = inr out2 ->
  Forall (fun r => PyFloat.is_nan (HybridSearchResult.rrf_score r) = false) out1 ->
  (forall x y,
      x ∈ out1 -> y ∈ out1 ->
      PyFloat.eqb (HybridSearchResult.rrf_score x) (HybridSearchResult.rrf_score y)
      = true -> x = y) ->
  out1 = out2.
Proof.
  intros Hs1 Hs2 (rs1 & H1 & ->)%calculate_rrf_inr (rs2 & H2 & ->)%calculate_rrf_inr
    Hnan Hties.
  assert (Hperm : rs1 ≡ₚ rs2).
  { rewrite (fuse_all_fmap _ _ _ _ _ _ _ H1), (fuse_all_fmap _ _ _ _ _ _ _ H2).
    apply fmap_Permutation.
    by rewrite (set_iteration_Permutation _ _ Hs1),
         (set_iteration_Permutation _ _ Hs2). }
  apply (StronglySorted_unique_strong (descending HybridSearchResult.rrf_score)).
  - intros x y Hx Hy Hxy Hyx. unfold descending in *.
    rewrite sort_reverse_Permutation, <-Hperm,
      <-(sort_reverse_Permutation HybridSearchResult.rrf_score) in Hy.
    apply Hties; [done|done|]. by apply leb_leb_eqb.
  - apply sort_reverse_sorted.
    by rewrite <-(sort_reverse_Permutation HybridSearchResult.rrf_score).
  - apply sort_reverse_sorted. rewrite <-Hperm.
    by rewrite <-(sort_reverse_Permutation HybridSearchResult.rrf_score).
  - by rewrite !sort_reverse_Permutation.
Qed.

(** ** Two sorted arrangements of the same records *)

Lemma leb_refl x : PyFloat.is_nan x = false -> PyFloat.leb x x = true.
Proof.
  intros Hx. apply ltb_false_leb; [done|done|].
  unfold PyFloat.ltb, SFltb, SFcompare.
  destruct x as [[]|[]| |[] m e]; try done;
    by rewrite Z.compare_refl, Pcompare_refl.
Qed.

Lemma filter_all {A} (P : A -> Prop) `{forall x, Decision (P x)} (l : list A) :
  Forall P l -> filter P l = l.
Proof.
  induction 1 as [|x l Hx _ IH]; [done|].
  by rewrite filter_cons_True, IH.
Qed.

Lemma filter_none {A} (P : A -> Prop) `{forall x, Decision (P x)} (l : list A) :
  Forall (fun x => ~ P x) l -> filter P l = [].
Proof.
  induction 1 as [|x l Hx _ IH]; [done|].
  by rewrite filter_cons_False, IH.
Qed.

Section SortedArrangements.
Context {A : Type} (key : A -> float).

Lemma sorted_lookup_descending l i j x y :
  Forall (fun r => PyFloat.is_nan (key r) = false) l ->
  StronglySorted (descending key) l ->
  (i <= j)%nat -> l !! i = Some x -> l !! j = Some y ->
  PyFloat.leb (key y) (key x) = true.
Proof.
  intros Hnan Hsorted. revert i j.
  induction Hsorted as [|a l Hsorted IH Ha]; intros i j Hij Hi Hj; [done|].
  apply Forall_cons in Hnan as [Hna Hnan].
  destruct i as [|i], j as [|j]; simpl in *; try lia.
  - injection Hi as <-. injection Hj as <-. by apply leb_refl.
  - injection Hi as <-. rewrite Forall_forall in Ha.
    apply Ha. by eapply list_elem_of_lookup_2.
  - apply (IH Hnan i j); [lia|done|done].
Qed.

(** Two descending arrangements of the same records carry, position by
    position, scores that are not above one another. *)
Lemma sorted_arrangements_leb l1 l2 i x y :
  Forall (fun r => PyFloat.is_nan (key r) = false) l1 ->
  StronglySorted (descending key) l1 ->
  StronglySorted (descending key) l2 ->
  l1 ≡ₚ l2 ->
  l1 !! i = Some x -> l2 !! i = Some y ->
  PyFloat.leb (key x) (key y) = true.
Proof.
  intros Hnan1 Hs1 Hs2 Hperm Hx Hy.
  assert (Hnan2 : Forall (fun r => PyFloat.is_nan (key r) = false) l2)
    by by rewrite <-Hperm.
  destruct (PyFloat.leb (key x) (key y)) eqn:Hxy; [done|exfalso].
  set (above := fun r => PyFloat.leb (key r) (key y) = false).
  assert (Hlen : length (filter above l1) = length (filter above l2))
    by by rewrite Hperm.
  assert (H1 : (S i <= length (filter above l1))%nat).
  { rewrite <-(take_drop (S i) l1), filter_app, length_app.
    assert (Hall : filter above (take (S i) l1) = take (S i) l1).
    { apply filter_all, Forall_forall. intros r Hr.
      apply list_elem_of_lookup in Hr as [j Hj].
      apply lookup_take_Some in Hj as [Hj Hji].
      unfold above. destruct (PyFloat.leb (key r) (key y)) eqn:Hry; [|done].
      rewrite <-Hxy. symmetry. eapply leb_trans; [|exact Hry].
      apply (sorted_lookup_descending l1 j i); [done|done|lia|done|done]. }
    rewrite Hall, length_take.
    apply lookup_lt_Some in Hx. lia. }
  assert (H2 : (length (filter above l2) <= i)%nat).
  { rewrite <-(take_drop i l2), filter_app, length_app.
    assert (Hnone : filter above (drop i l2) = []).
    { apply filter_none, Forall_forall. intros r Hr.
      apply list_elem_of_lookup in Hr as [j Hj]. rewrite lookup_drop in Hj.
      unfold above.
      rewrite (sorted_lookup_descending l2 i (i + j) y r); [done|done|done|lia|done|done]. }
    rewrite Hnone. simpl.
    pose proof (length_filter above (take i l2)) as Hle.
    rewrite length_take in Hle. lia. }
  lia.
Qed.

Lemma sorted_arrangements_scores l1 l2 :
  Forall (fun r => PyFloat.is_nan (key r) = false) l1 ->
  StronglySorted (descending key) l1 ->
  StronglySorted (descending key) l2 ->
  l1 ≡ₚ l2 ->
  Forall2 (fun x y => PyFloat.eqb (key x) (key y) = true) l1 l2.
Proof.
  intros Hnan Hs1 Hs2 Hperm.
  apply Forall2_same_length_lookup_2; [by rewrite Hperm|].
  intros i x y Hx Hy. apply leb_leb_eqb.
  - by apply (sorted_arrangements_leb l1 l2 i).
  - apply (sorted_arrangements_leb l2 l1 i); [by rewrite <-Hperm|done..].
Qed.

End SortedArrangements.

(** Two iteration orders of the set give the same records, in lists that
    carry the same scores position by position: they differ at most in
    the order of the records with equal scores. *)
Lemma calculate_rrf_two_orders iter1 iter2 A B k w1 w2 out1 out2 :
  set_iteration iter1 -> set_iteration iter2 ->
  HybridSearchService.calculate_rrf iter1 A B k w1 w2 = inr out1 ->
  HybridSearchService.calculate_rrf iter2 A B k w1 w2 = inr out2 ->
  out1 ≡ₚ out2
  /\ (Forall (fun r => PyFloat.is_nan (HybridSearchResult.rrf_score r) = false)
        out1 ->
      Forall2 (fun r1 r2 =>
                 PyFloat.eqb (HybridSearchResult.rrf_score r1)
                   (HybridSearchResult.rrf_score r2) = true) out1 out2).
Proof.
  intros Hs1 Hs2 (rs1 & H1 & ->)%calculate_rrf_inr
    (rs2 & H2 & ->)%calculate_rrf_inr.
  assert (Hperm : rs1 ≡ₚ rs2).
  { rewrite (fuse_all_fmap _ _ _ _ _ _ _ H1), (fuse_all_fmap _ _ _ _ _ _ _ H2).
    apply fmap_Permutation.
    by rewrite (set_iteration_Permutation _ _ Hs1),
         (set_iteration_Permutation _ _ Hs2). }
  split; [by rewrite !sort_reverse_Permutation|].
  intros Hnan. apply sorted_arrangements_scores.
  - done.
  - apply sort_reverse_sorted.
    by rewrite <-(sort_reverse_Permutation HybridSearchResult.rrf_score).
  - apply sort_reverse_sorted. rewrite <-Hperm.
    by rewrite <-(sort_reverse_Permutation HybridSearchResult.rrf_score).
  - by rewrite !sort_reverse_Permutation.
Qed.

(** Whether the fusion returns does not depend on the iteration order. *)
Lemma calculate_rrf_returns_in_every_order iter1 iter2 A B k w1 w2 out1 :
  set_iteration iter1 -> set_iteration iter2 ->
  HybridSearchService.calculate_rrf iter1 A B k w1 w2 = inr out1 ->
  exists out2, HybridSearchService.calculate_rrf iter2 A B k w1 w2 = inr out2.
Proof.
  intros Hs1 Hs2 (rs1 & H1 & ->)%calculate_rrf_inr.
  destruct (for_each_returns
              (HybridSearchService.fuse_one (rank_map A) (rank_map B) k w1 w2)
              (iter2 (source_names A ∪ source_names B))) as [rs2 Hrs2].
  { apply Forall_forall. intros name Hname.
    apply (proj2 (Hs2 _)), (proj2 (Hs1 _)), list_elem_of_lookup in Hname
      as [i Hi].
    destruct (Forall2_lookup_l _ _ _ _ _ H1 Hi) as (r & _ & Hr). by exists r. }
  exists (sort_reverse HybridSearchResult.rrf_score rs2).
  apply calculate_rrf_inr. exists rs2. split; [by apply for_each_inr|done].
Qed.

(** C8: fusion is symmetric in its two sources, up to the order of the
    records whose scores are equal.  (1) Under one iteration order of
    the union, fuse(B, A, k, w2, w1) returns exactly the records of
    fuse(A, B, k, w1, w2) with the two rank fields exchanged, and raises
    when the other raises.  (2) Whatever the iteration orders of the two
    calls, the lists that fuse(A, B, k, w1, w2) may return are, after
    the exchange, the lists that fuse(B, A, k, w2, w1) may return.
    (3) When no score is a NaN and no two records have equal scores,
    the two outputs are equal after the exchange, whatever the two
    iteration orders.  (4) In general, under two iteration orders, the
    output of fuse(B, A, k, w2, w1) is a rearrangement of the exchanged
    records of fuse(A, B, k, w1, w2), and when no score is a NaN the two
    lists carry equal scores position by position: they differ at most
    in the order of records with equal scores.  (5) One call returns if
    and only if the other does. *)
Theorem C8_fusion_symmetric :
  forall A B k w1 w2,
    (forall set_iter,
        match HybridSearchService.calculate_rrf set_iter A B k w1 w2,
              HybridSearchService.calculate_rrf set_iter B A k w2 w1 with
        | inr out, inr out' => out' = swap_sources <$> out
        | inl _, inl _ => True
        | _, _ => False
        end)
    /\ (forall out,
          may_return A B k w1 w2 out
          <-> may_return B A k w2 w1 (swap_sources <$> out))
    /\ (forall iter1 iter2 out1 out2,
          set_iteration iter1 -> set_iteration iter2 ->
          HybridSearchService.calculate_rrf iter1 A B k w1 w2 = inr out1 ->
          HybridSearchService.calculate_rrf iter2 B A k w2 w1 = inr out2 ->
          Forall (fun r => PyFloat.is_nan (HybridSearchResult.rrf_score r) = false)
            out1 ->
          (forall x y,
              x ∈ out1 -> y ∈ out1 ->
              PyFloat.eqb (HybridSearchResult.rrf_score x)
                (HybridSearchResult.rrf_score y) = true ->
              x = y) ->
          out2 = swap_sources <$> out1)
    /\ (forall iter1 iter2 out1 out2,
          set_iteration iter1 -> set_iteration iter2 ->
          HybridSearchService.calculate_rrf iter1 A B k w1 w2 = inr out1 ->
          HybridSearchService.calculate_rrf iter2 B A k w2 w1 = inr out2 ->
          out2 ≡ₚ swap_sources <$> out1
          /\ (Forall (fun r =>
                        PyFloat.is_nan (HybridSearchResult.rrf_score r) = false)
                out1 ->
              Forall2 (fun r1 r2 =>
                         PyFloat.eqb (HybridSearchResult.rrf_score r1)
                           (HybridSearchResult.rrf_score r2) = true)
                out1 out2))
    /\ (forall iter1 iter2,
          set_iteration iter1 -> set_iteration iter2 ->
          (exists out1,
              HybridSearchService.calculate_rrf iter1 A B k w1 w2 = inr out1)
          <-> (exists out2,
                  HybridSearchService.calculate_rrf iter2 B A k w2 w1
                  = inr out2)).
Proof.
  intros A B k w1 w2. split; [|split; [|split; [|split]]].
  - intros set_iter.
    destruct (HybridSearchService.calculate_rrf set_iter A B k w1 w2)
      as [e|out] eqn:HAB.
    + destruct (HybridSearchService.calculate_rrf set_iter B A k w2 w1)
        as [e'|out'] eqn:HBA; [done|].
      apply calculate_rrf_swap in HBA. congruence.
    + by rewrite (calculate_rrf_swap _ _ _ _ _ _ _ HAB).
  - intros out. split; intros (set_iter & Hset & H); exists set_iter; split;
      try done.
    + by apply calculate_rrf_swap.
    + apply calculate_rrf_swap in H. by rewrite H, swap_sources_twice.
  - intros iter1 iter2 out1 out2 Hs1 Hs2 H1 H2 Hnan Hties.
    apply calculate_rrf_swap in H2.
    rewrite (calculate_rrf_order_independent _ _ _ _ _ _ _ _ _ Hs1 Hs2 H1 H2
               Hnan Hties).
    by rewrite swap_sources_twice.
  - intros iter1 iter2 out1 out2 Hs1 Hs2 H1 H2.
    apply calculate_rrf_swap in H2.
    destruct (calculate_rrf_two_orders _ _ _ _ _ _ _ _ _ Hs1 Hs2 H1 H2)
      as [Hperm Hscores].
    split.
    + rewrite Hperm. by rewrite swap_sources_twice.
    + intros Hnan. specialize (Hscores Hnan).
      by apply Forall2_fmap_r in Hscores.
  - intros iter1 iter2 Hs1 Hs2. split.
    + intros [out1 H1].
      destruct (calculate_rrf_returns_in_every_order _ _ _ _ _ _ _ _ Hs1 Hs2 H1)
        as [out2 H2].
      exists (swap_sources <$> out2). by apply calculate_rrf_swap.
    + intros [out2 H2]. apply calculate_rrf_swap in H2.
      by apply (calculate_rrf_returns_in_every_order iter2 iter1 _ _ _ _ _ _
                  Hs2 Hs1 H2).
Qed.

Lemma C8_witness :
  [ HybridSearchResult.mk "t2"
      (PyFloat.add (PyFloat.div half (PyFloat.of_Z 62))
         (PyFloat.div half (PyFloat.of_Z 61)))
      (Some 1) (Some 2);
    HybridSearchResult.mk "t1" (PyFloat.div half (PyFloat.of_Z 61)) None (Some 1);
    HybridSearchResult.mk "t3" (PyFloat.div half (PyFloat.of_Z 62)) (Some 2) None ]
  = swap_sources
      <$> [ HybridSearchResult.mk "t2"
              (PyFloat.add (PyFloat.div half (PyFloat.of_Z 62))
                 (PyFloat.div half (PyFloat.of_Z 61)))
              (Some 2) (Some 1);
            HybridSearchResult.mk "t1" (PyFloat.div half (PyFloat.of_Z 61))
              (Some 1) None;
            HybridSearchResult.mk "t3" (PyFloat.div half (PyFloat.of_Z 62))
              None (Some 2) ].
Proof.
  pose proof (C8_fusion_symmetric ex_vector_results ex_keyword_results 60
                half half) as (_ & _ & H & _).
  apply (H elements elements).
  - exact set_iteration_elements.
  - exact set_iteration_elements.
  - vm_compute. reflexivity.
  - vm_compute. reflexivity.
  - repeat constructor.
  - intros x y Hx Hy Heq. vm_compute in Hx, Hy.
    repeat (apply elem_of_cons in Hx as [->|Hx]);
      try (by apply elem_of_nil in Hx);
      repeat (apply elem_of_cons in Hy as [->|Hy]);
      try (by apply elem_of_nil in Hy);
      try reflexivity; vm_compute in Heq; discriminate.
Defined.

Lemma set_iteration_reversed_elements : set_iteration reversed_elements.
Proof.
  intros s. unfold reversed_elements. split.
  - rewrite reverse_Permutation. apply NoDup_elements.
  - intros x. by rewrite reverse_Permutation, elem_of_elements.
Qed.

(** Two sources that rank one identifier each: the scores of [a] and [b]
    are equal, the second call visits the union in another order, and
    the two outputs list the two records in different orders. *)
Lemma C8_counterexample :
  set_iteration elements
  /\ set_iteration reversed_elements
  /\ HybridSearchService.calculate_rrf elements
       [rank_row "a" 1] [rank_row "b" 1] 60 half half
     = inr [ HybridSearchResult.mk "a" (PyFloat.div half (PyFloat.of_Z 61))
               (Some 1) None;
             HybridSearchResult.mk "b" (PyFloat.div half (PyFloat.of_Z 61))
               None (Some 1) ]
  /\ HybridSearchService.calculate_rrf reversed_elements
       [rank_row "b" 1] [rank_row "a" 1] 60 half half
     = inr [ HybridSearchResult.mk "b" (PyFloat.div half (PyFloat.of_Z 61))
               (Some 1) None;
             HybridSearchResult.mk "a" (PyFloat.div half (PyFloat.of_Z 61))
               None (Some 1) ]
  /\ [ HybridSearchResult.mk "b" (PyFloat.div half (PyFloat.of_Z 61))
         (Some 1) None;
       HybridSearchResult.mk "a" (PyFloat.div half (PyFloat.of_Z 61))
         None (Some 1) ]
     <> swap_sources
          <$> [ HybridSearchResult.mk "a" (PyFloat.div half (PyFloat.of_Z 61))
                  (Some 1) None;
                HybridSearchResult.mk "b" (PyFloat.div half (PyFloat.of_Z 61))
                  None (Some 1) ].
Proof.
  split; [exact set_iteration_elements|].
  split; [exact set_iteration_reversed_elements|].
  split; [by vm_compute|]. split; [by vm_compute|].
  vm_compute. discriminate.
Qed.

Section VectorSearchFacts.
Variable get_embedding : string -> result (list float).
Variable fetch : sql -> result (list row).

Lemma search_inr query top_n method results :
  VectorSearch.search get_embedding fetch query top_n method = inr results <->
  exists query_embedding rows,
    get_embedding query = inr query_embedding
    /\ fetch (SelectByDistance "description_embedding"
                (default "<=>" (OPERATORS !! method)) query_embedding top_n)
       = inr rows
    /\ Forall2 (fun row res =>
                  exists score,
                    VectorSearch.similarity method (row_number row) = inr score
                    /\ res = SearchResult.mk (row_table_name row)
                               (PyFloat.round score 4))
         rows results.
Proof.
  unfold VectorSearch.search. rewrite bind_inr. split.
  - intros (e & He & H). apply bind_inr in H as (rows & Hrows & H).
    exists e, rows. split; [done|]. split; [done|].
    apply for_each_inr in H. eapply Forall2_impl; [exact H|].
    intros row res (score & Hs & [= <-])%bind_inr. eauto.
  - intros (e & rows & He & Hrows & H). exists e. split; [done|].
    apply bind_inr. exists rows. split; [done|]. apply for_each_inr.
    eapply Forall2_impl; [exact H|].
    intros row res (score & Hs & ->). apply bind_inr. eauto.
Qed.

Lemma similarity_rule method distance score :
  normalization_rule method distance = Some score ->
  (method = "L2" -> PyFloat.is_zero (PyFloat.add PyFloat.one distance) = false) ->
  VectorSearch.similarity method distance = inr score.
Proof.
  unfold normalization_rule, VectorSearch.similarity, float_truediv.
  repeat case_decide; try done.
  - by intros [= <-].
  - intros [= <-] Hz. by rewrite Hz.
  - by intros [= <-].
Qed.

End VectorSearchFacts.

Lemma round_four_decimals x : four_decimals (PyFloat.round x 4).
Proof.
  destruct x as [s|s| |s m e]; try exact I. unfold PyFloat.round.
  destruct (if 0 <=? e then _ else _) as [|n|n]; try exact I.
  unfold four_decimals.
  match goal with |- match ?d with _ => _ end => destruct d eqn:Hd end;
    try exact I.
  exists s, n. by rewrite <-Hd.
Qed.

(** C5 (as amended): for the three metrics, every row fetched becomes a
    result whose score is the metric's rule applied to the row's distance
    (cosine 1 - d, L2 1 / (1 + d), dot_product - d) and then rounded to 4
    decimals; distance 0.2 under cosine yields 0.8, distance 1.0 under L2
    yields 0.5 and distance -0.9 under dot_product yields 0.9. *)
Theorem C5_scores_follow_the_metric_rule :
  forall get_embedding fetch query top_n method query_embedding rows,
    get_embedding query = inr query_embedding ->
    fetch (SelectByDistance "description_embedding"
             (default "<=>" (OPERATORS !! method)) query_embedding top_n)
      = inr rows ->
    Forall (fun row =>
              is_Some (normalization_rule method (row_number row))
              /\ (method = "L2" ->
                  PyFloat.is_zero (PyFloat.add PyFloat.one (row_number row)) = false))
      rows ->
    (exists results,
        VectorSearch.search get_embedding fetch query top_n method = inr results
        /\ Forall2 (fun row res =>
                      SearchResult.table_name res = row_table_name row
                      /\ exists score,
                          normalization_rule method (row_number row) = Some score
                          /\ SearchResult.score res = PyFloat.round score 4)
             rows results)
    /\ VectorSearch.search ex_embedding
         (ex_fetch [distance_row "t" (PyFloat.literal 2 1)]) query top_n "cosine"
       = inr [SearchResult.mk "t" (PyFloat.literal 8 1)]
    /\ VectorSearch.search ex_embedding
         (ex_fetch [distance_row "t" (PyFloat.literal 10 1)]) query top_n "L2"
       = inr [SearchResult.mk "t" (PyFloat.literal 5 1)]
    /\ VectorSearch.search ex_embedding
         (ex_fetch [distance_row "t" (PyFloat.neg (PyFloat.literal 9 1))])
         query top_n "dot_product"
       = inr [SearchResult.mk "t" (PyFloat.literal 9 1)].
Proof.
  intros get_embedding fetch query top_n method e rows He Hrows Hall.
  split; [|by vm_compute].
  exists ((fun row =>
             SearchResult.mk (row_table_name row)
               (PyFloat.round
                  (default PyFloat.zero
                     (normalization_rule method (row_number row))) 4))
            <$> rows).
  split.
  - apply search_inr. exists e, rows. split; [done|]. split; [done|].
    apply Forall2_fmap_r, Forall_Forall2_diag.
    eapply Forall_impl; [exact Hall|]. intros row [[score Hs] Hz].
    exists score. rewrite Hs. split; [|done]. by apply similarity_rule.
  - apply Forall2_fmap_r, Forall_Forall2_diag.
    eapply Forall_impl; [exact Hall|]. intros row [[score Hs] _].
    split; [done|]. exists score. by rewrite Hs.
Qed.

Lemma C5_witness :
  (exists results,
      VectorSearch.search ex_embedding
        (ex_fetch [distance_row "a" (PyFloat.literal 2 1);
                   distance_row "b" (PyFloat.literal 12345 5)])
        "q" 10 "L2" = inr results
      /\ Forall2 (fun row res =>
                    SearchResult.table_name res = row_table_name row
                    /\ exists score,
                        normalization_rule "L2" (row_number row) = Some score
                        /\ SearchResult.score res = PyFloat.round score 4)
           [distance_row "a" (PyFloat.literal 2 1);
            distance_row "b" (PyFloat.literal 12345 5)] results)
  /\ VectorSearch.search ex_embedding
       (ex_fetch [distance_row "t" (PyFloat.literal 2 1)]) "q" 10 "cosine"
     = inr [SearchResult.mk "t" (PyFloat.literal 8 1)]
  /\ VectorSearch.search ex_embedding
       (ex_fetch [distance_row "t" (PyFloat.literal 10 1)]) "q" 10 "L2"
     = inr [SearchResult.mk "t" (PyFloat.literal 5 1)]
  /\ VectorSearch.search ex_embedding
       (ex_fetch [distance_row "t" (PyFloat.neg (PyFloat.literal 9 1))])
       "q" 10 "dot_product"
     = inr [SearchResult.mk "t" (PyFloat.literal 9 1)].
Proof.
  apply (C5_scores_follow_the_metric_rule ex_embedding
           (ex_fetch [distance_row "a" (PyFloat.literal 2 1);
                      distance_row "b" (PyFloat.literal 12345 5)])
           "q" 10 "L2" []).
  - reflexivity.
  - reflexivity.
  - repeat constructor; simpl; eauto.
Defined.

(** C5 as stated: under cosine a row at distance 0.12345 is returned
    with score 0.8765, which is not 1 - 0.12345. *)
Lemma C5_counterexample :
  VectorSearch.search ex_embedding
    (ex_fetch [distance_row "t" (PyFloat.literal 12345 5)]) "q" 10 "cosine"
  = inr [SearchResult.mk "t" (PyFloat.literal 8765 4)]
  /\ PyFloat.eqb (PyFloat.literal 8765 4)
       (PyFloat.sub PyFloat.one (PyFloat.literal 12345 5)) = false.
Proof. split; vm_compute; reflexivity. Qed.

(** C10: every score returned by search is round(score, 4) of the score
    computed by the branch on the metric, hence a float with at most four
    decimals; and the rounding is visible: under cosine, distance 0.12345
    gives 0.8765 where the unrounded score is 1 - 0.12345. *)
Theorem C10_scores_are_rounded_to_four_decimals :
  forall get_embedding fetch query top_n method results,
    VectorSearch.search get_embedding fetch query top_n method = inr results ->
    (exists query_embedding rows,
        get_embedding query = inr query_embedding
        /\ fetch (SelectByDistance "description_embedding"
                    (default "<=>" (OPERATORS !! method)) query_embedding top_n)
           = inr rows
        /\ Forall2 (fun row res =>
                      SearchResult.table_name res = row_table_name row
                      /\ exists score,
                          VectorSearch.similarity method (row_number row) = inr score
                          /\ SearchResult.score res = PyFloat.round score 4)
             rows results)
    /\ Forall (fun res => four_decimals (SearchResult.score res)) results
    /\ PyFloat.eqb
         (PyFloat.round (PyFloat.sub PyFloat.one (PyFloat.literal 12345 5)) 4)
         (PyFloat.sub PyFloat.one (PyFloat.literal 12345 5)) = false.
Proof.
  intros get_embedding fetch query top_n method results H.
  apply search_inr in H as (e & rows & He & Hrows & H).
  split; [|split; [|by vm_compute]].
  - exists e, rows. split; [done|]. split; [done|].
    eapply Forall2_impl; [exact H|]. intros row res (score & Hs & ->). eauto.
  - apply Forall_forall. intros res Hres.
    apply list_elem_of_lookup in Hres as [i Hi].
    destruct (Forall2_lookup_r _ _ _ _ _ H Hi) as (row & _ & score & _ & ->).
    apply round_four_decimals.
Qed.

Lemma C10_witness :
  (exists query_embedding rows,
      ex_embedding "q" = inr query_embedding
      /\ ex_fetch [distance_row "t" (PyFloat.literal 12345 5)]
           (SelectByDistance "description_embedding"
              (default "<=>" (OPERATORS !! "cosine")) query_embedding 10)
         = inr rows
      /\ Forall2 (fun row res =>
                    SearchResult.table_name res = row_table_name row
                    /\ exists score,
                        VectorSearch.similarity "cosine" (row_number row) = inr score
                        /\ SearchResult.score res = PyFloat.round score 4)
           rows [SearchResult.mk "t" (PyFloat.literal 8765 4)])
  /\ Forall (fun res => four_decimals (SearchResult.score res))
       [SearchResult.mk "t" (PyFloat.literal 8765 4)]
  /\ PyFloat.eqb
       (PyFloat.round (PyFloat.sub PyFloat.one (PyFloat.literal 12345 5)) 4)
       (PyFloat.sub PyFloat.one (PyFloat.literal 12345 5)) = false.
Proof.
  apply (C10_scores_are_rounded_to_four_decimals ex_embedding
           (ex_fetch [distance_row "t" (PyFloat.literal 12345 5)])
           "q" 10 "cosine").
  vm_compute. reflexivity.
Defined.

(** ** [search] of the two hybrid services *)

Lemma gather_inl {A B} a_first (a : result A) (b : result B) e :
  a = inl e \/ b = inl e ->
  exists e', gather a_first a b = inl e' /\ (a = inl e' \/ b = inl e').
Proof.
  destruct a as [ea|x], b as [eb|y]; simpl; intros [H|H]; try done;
    try destruct a_first; eauto.
Qed.

Lemma gather_inr {A B} a_first (a : result A) (b : result B) x y :
  gather a_first a b = inr (x, y) <-> a = inr x /\ b = inr y.
Proof.
  destruct a as [ea|x'], b as [eb|y']; simpl; split; try done;
    try (by intros [??]).
  - by intros [= -> ->].
  - by intros [[= ->] [= ->]].
Qed.

Lemma embedded_source_inl (score : row -> option float) embedding fetch
    statement e :
  (query_embedding ← embedding;
   rows ← fetch (statement query_embedding);
   mret (imap (fun idx row =>
                 {| ranked_table_name := row_table_name row;
                    ranked_rank := Z.of_nat idx + 1;
                    ranked_bm25_score := score row |}) rows)) = inl e
  <-> source_fails embedding fetch statement e.
Proof.
  unfold source_fails. destruct embedding as [e'|query_embedding]; simpl.
  - split; [intros [= ->]; by left|].
    intros [[= ->]|(? & ? & _)]; [done|done].
  - destruct (fetch (statement query_embedding)) as [e'|rows] eqn:Hrows; simpl.
    + split.
      * intros [= ->]. right. by exists query_embedding.
      * intros [?|(? & [= <-] & H)]; [done|]. rewrite Hrows in H.
        by injection H as ->.
    + split; [done|].
      intros [?|(? & [= <-] & H)]; [done|]. by rewrite Hrows in H.
Qed.

Lemma embedded_source_inr (score : row -> option float) embedding fetch
    statement results :
  (query_embedding ← embedding;
   rows ← fetch (statement query_embedding);
   mret (imap (fun idx row =>
                 {| ranked_table_name := row_table_name row;
                    ranked_rank := Z.of_nat idx + 1;
                    ranked_bm25_score := score row |}) rows)) = inr results
  <-> exists rows,
      source_fetches embedding fetch statement rows
      /\ results = imap (fun idx row =>
                           {| ranked_table_name := row_table_name row;
                              ranked_rank := Z.of_nat idx + 1;
                              ranked_bm25_score := score row |}) rows.
Proof.
  unfold source_fetches. destruct embedding as [e'|query_embedding]; simpl.
  - split; [done|]. by intros (? & (? & ? & _) & _).
  - destruct (fetch (statement query_embedding)) as [e'|rows] eqn:Hrows; simpl.
    + split; [done|]. intros (? & (? & [= <-] & H) & _). by rewrite Hrows in H.
    + split.
      * intros [= <-]. exists rows. split; [|done]. by exists query_embedding.
      * intros (rows' & (? & [= <-] & H) & ->). rewrite Hrows in H.
        by injection H as ->.
Qed.

Lemma vector_search_inl get_embedding fetch query limit method e :
  HybridSearchService.vector_search get_embedding fetch query limit method
  = inl e
  <-> source_fails (get_embedding query) fetch
        (description_statement method limit) e.
Proof. apply (embedded_source_inl (fun _ => None)). Qed.

Lemma vector_search_inr get_embedding fetch query limit method results :
  HybridSearchService.vector_search get_embedding fetch query limit method
  = inr results
  <-> exists rows,
      source_fetches (get_embedding query) fetch
        (description_statement method limit) rows
      /\ results = ranking rows.
Proof. apply (embedded_source_inr (fun _ => None)). Qed.

Lemma tags_search_inl get_tags_embedding fetch query limit e :
  HybridSearchService.tags_search get_tags_embedding fetch query limit = inl e
  <-> source_fails (get_tags_embedding query) fetch
        (tags_embedding_statement limit) e.
Proof. apply (embedded_source_inl (fun _ => None)). Qed.

Lemma tags_search_inr get_tags_embedding fetch query limit results :
  HybridSearchService.tags_search get_tags_embedding fetch query limit
  = inr results
  <-> exists rows,
      source_fetches (get_tags_embedding query) fetch
        (tags_embedding_statement limit) rows
      /\ results = ranking rows.
Proof. apply (embedded_source_inr (fun _ => None)). Qed.

Lemma bm25_search_inl fetch query limit e :
  HybridSearchBM25Service.bm25_search fetch query limit = inl e
  <-> fetch (SelectBM25 query limit) = inl e.
Proof.
  unfold HybridSearchBM25Service.bm25_search.
  destruct (fetch (SelectBM25 query limit)); simpl; split; try done;
    by intros [= ->].
Qed.

Lemma bm25_search_inr fetch query limit results :
  HybridSearchBM25Service.bm25_search fetch query limit = inr results
  <-> exists rows,
      fetch (SelectBM25 query limit) = inr rows /\ results = bm25_ranking rows.
Proof.
  unfold HybridSearchBM25Service.bm25_search.
  destruct (fetch (SelectBM25 query limit)) as [e|rows]; simpl; split.
  - done.
  - by intros (? & ? & _).
  - intros [= <-]. by exists rows.
  - by intros (? & [= <-] & ->).
Qed.

Lemma bm25_vector_search_eq :
  HybridSearchBM25Service.vector_search = HybridSearchService.vector_search.
Proof. reflexivity. Qed.

(** C7: policy (a), in both hybrid services, told by the calls the
    sources make: the embedding calls and the statements.  A source
    fails with e when its embedding call raises e, or when that call
    returns and its statement raises e; the BM25 source makes no
    embedding call.  In each service: (1) when a source fails, search
    fails, with the exception of a source that failed; (2) and (3) when
    one source fails with e and the other fetches its rows, search fails
    with e; (4) search returns only when both sources fetched rows, and
    then it returns the fusion of the rankings of those very rows, cut
    to top_n: no empty ranking stands in for a source.  In the tags
    variant, (5) when both embedding calls raise e, search fails with
    e. *)
Theorem C7_source_failure_fails_the_search :
  forall get_embedding get_tags_embedding fetch set_iter vector_first
         query top_n method vector_weight other_weight rrf_k,
    ((forall e,
         source_fails (get_embedding query) fetch
           (description_statement method (Z.max 100 (top_n * 10))) e
         \/ source_fails (get_tags_embedding query) fetch
              (tags_embedding_statement (Z.max 100 (top_n * 10))) e ->
         exists e',
           HybridSearchService.search get_embedding get_tags_embedding fetch
             set_iter vector_first query top_n method vector_weight
             other_weight rrf_k = inl e'
           /\ (source_fails (get_embedding query) fetch
                 (description_statement method (Z.max 100 (top_n * 10))) e'
               \/ source_fails (get_tags_embedding query) fetch
                    (tags_embedding_statement (Z.max 100 (top_n * 10))) e'))
     /\ (forall e tags_rows,
           source_fails (get_embedding query) fetch
             (description_statement method (Z.max 100 (top_n * 10))) e ->
           source_fetches (get_tags_embedding query) fetch
             (tags_embedding_statement (Z.max 100 (top_n * 10))) tags_rows ->
           HybridSearchService.search get_embedding get_tags_embedding fetch
             set_iter vector_first query top_n method vector_weight
             other_weight rrf_k = inl e)
     /\ (forall e vector_rows,
           source_fetches (get_embedding query) fetch
             (description_statement method (Z.max 100 (top_n * 10)))
             vector_rows ->
           source_fails (get_tags_embedding query) fetch
             (tags_embedding_statement (Z.max 100 (top_n * 10))) e ->
           HybridSearchService.search get_embedding get_tags_embedding fetch
             set_iter vector_first query top_n method vector_weight
             other_weight rrf_k = inl e)
     /\ (forall out,
           HybridSearchService.search get_embedding get_tags_embedding fetch
             set_iter vector_first query top_n method vector_weight
             other_weight rrf_k = inr out ->
           exists vector_rows tags_rows rrf_results,
             source_fetches (get_embedding query) fetch
               (description_statement method (Z.max 100 (top_n * 10)))
               vector_rows
             /\ source_fetches (get_tags_embedding query) fetch
                  (tags_embedding_statement (Z.max 100 (top_n * 10))) tags_rows
             /\ HybridSearchService.calculate_rrf set_iter
                  (ranking vector_rows) (ranking tags_rows) rrf_k
                  vector_weight other_weight = inr rrf_results
             /\ out = slice_to rrf_results top_n)
     /\ (forall e,
           get_embedding query = inl e ->
           get_tags_embedding query = inl e ->
           HybridSearchService.search get_embedding get_tags_embedding fetch
             set_iter vector_first query top_n method vector_weight
             other_weight rrf_k = inl e))
    /\ ((forall e,
            source_fails (get_embedding query) fetch
              (description_statement method (Z.max 100 (top_n * 10))) e
            \/ fetch (SelectBM25 query (Z.max 100 (top_n * 10))) = inl e ->
            exists e',
              HybridSearchBM25Service.search get_embedding fetch set_iter
                vector_first query top_n method vector_weight other_weight rrf_k
              = inl e'
              /\ (source_fails (get_embedding query) fetch
                    (description_statement method (Z.max 100 (top_n * 10))) e'
                  \/ fetch (SelectBM25 query (Z.max 100 (top_n * 10)))
                     = inl e'))
        /\ (forall e bm25_rows,
              source_fails (get_embedding query) fetch
                (description_statement method (Z.max 100 (top_n * 10))) e ->
              fetch (SelectBM25 query (Z.max 100 (top_n * 10)))
              = inr bm25_rows ->
              HybridSearchBM25Service.search get_embedding fetch set_iter
                vector_first query top_n method vector_weight other_weight rrf_k
              = inl e)
        /\ (forall e vector_rows,
              source_fetches (get_embedding query) fetch
                (description_statement method (Z.max 100 (top_n * 10)))
                vector_rows ->
              fetch (SelectBM25 query (Z.max 100 (top_n * 10))) = inl e ->
              HybridSearchBM25Service.search get_embedding fetch set_iter
                vector_first query top_n method vector_weight other_weight rrf_k
              = inl e)
        /\ (forall out,
              HybridSearchBM25Service.search get_embedding fetch set_iter
                vector_first query top_n method vector_weight other_weight rrf_k
              = inr out ->
              exists vector_rows bm25_rows rrf_results,
                source_fetches (get_embedding query) fetch
                  (description_statement method (Z.max 100 (top_n * 10)))
                  vector_rows
                /\ fetch (SelectBM25 query (Z.max 100 (top_n * 10)))
                   = inr bm25_rows
                /\ HybridSearchBM25Service.calculate_rrf set_iter
                     (ranking vector_rows) (bm25_ranking bm25_rows) rrf_k
                     vector_weight other_weight = inr rrf_results
                /\ out = slice_to rrf_results top_n)).
Proof.
  intros get_embedding get_tags_embedding fetch set_iter vector_first query
    top_n method wv wo k.
  split.
  - split; [|split; [|split; [|split]]].
    + intros e H. unfold HybridSearchService.search.
      rewrite <-vector_search_inl, <-tags_search_inl in H.
      destruct (gather_inl vector_first _ _ e H) as (e' & -> & He').
      exists e'. split; [done|].
      by rewrite <-vector_search_inl, <-tags_search_inl.
    + intros e trows Hv Ht. unfold HybridSearchService.search.
      apply vector_search_inl in Hv. rewrite Hv.
      rewrite (proj2 (tags_search_inr _ _ _ _ (ranking trows))); [done|].
      by exists trows.
    + intros e vrows Hv Ht. unfold HybridSearchService.search.
      apply tags_search_inl in Ht. rewrite Ht.
      rewrite (proj2 (vector_search_inr _ _ _ _ _ (ranking vrows))); [done|].
      by exists vrows.
    + intros out H. unfold HybridSearchService.search in H.
      apply bind_inr in H as ([vr tr] & Hg & H).
      apply gather_inr in Hg as [Hv Ht].
      apply vector_search_inr in Hv as (vrows & Hv & ->).
      apply tags_search_inr in Ht as (trows & Ht & ->).
      apply bind_inr in H as (full & Hfull & [= <-]).
      by exists vrows, trows, full.
    + intros e Hv Ht. unfold HybridSearchService.search.
      rewrite (proj2 (vector_search_inl _ _ _ _ _ e)) by by left.
      rewrite (proj2 (tags_search_inl _ _ _ _ e)) by by left.
      simpl. by destruct vector_first.
  - split; [|split; [|split]].
    + intros e H. unfold HybridSearchBM25Service.search.
      rewrite bm25_vector_search_eq.
      rewrite <-vector_search_inl, <-bm25_search_inl in H.
      destruct (gather_inl vector_first _ _ e H) as (e' & -> & He').
      exists e'. split; [done|].
      by rewrite <-vector_search_inl, <-bm25_search_inl.
    + intros e brows Hv Hb. unfold HybridSearchBM25Service.search.
      rewrite bm25_vector_search_eq.
      apply vector_search_inl in Hv. rewrite Hv.
      rewrite (proj2 (bm25_search_inr _ _ _ (bm25_ranking brows))); [done|].
      by exists brows.
    + intros e vrows Hv Hb. unfold HybridSearchBM25Service.search.
      rewrite bm25_vector_search_eq.
      apply bm25_search_inl in Hb. rewrite Hb.
      rewrite (proj2 (vector_search_inr _ _ _ _ _ (ranking vrows))); [done|].
      by exists vrows.
    + intros out H. unfold HybridSearchBM25Service.search in H.
      rewrite bm25_vector_search_eq in H.
      apply bind_inr in H as ([vr br] & Hg & H).
      apply gather_inr in Hg as [Hv Hb].
      apply vector_search_inr in Hv as (vrows & Hv & ->).
      apply bm25_search_inr in Hb as (brows & Hb & ->).
      apply bind_inr in H as (full & Hfull & [= <-]).
      by exists vrows, brows, full.
Qed.

Lemma C7_witness :
  HybridSearchService.search ex_embedding ex_embedding
    ex_description_only_database elements true "q" 10 "cosine" half half 60
  = inl (CollaboratorError "database")
  /\ HybridSearchService.search ex_embedding failing_embedding
       (ex_fetch ex_rows) elements true "q" 10 "cosine" half half 60
     = inl (CollaboratorError "embedding")
  /\ HybridSearchBM25Service.search ex_embedding ex_description_only_database
       elements true "q" 10 "cosine" half half 60
     = inl (CollaboratorError "database")
  /\ HybridSearchBM25Service.search failing_embedding (ex_fetch ex_rows)
       elements true "q" 10 "cosine" half half 60
     = inl (CollaboratorError "embedding").
Proof.
  split; [|split; [|split]].
  - destruct (C7_source_failure_fails_the_search ex_embedding ex_embedding
                ex_description_only_database elements true "q" 10 "cosine"
                half half 60) as [(_ & _ & H & _) _].
    apply (H _ ex_rows).
    + by exists [].
    + right. by exists [].
  - destruct (C7_source_failure_fails_the_search ex_embedding failing_embedding
                (ex_fetch ex_rows) elements true "q" 10 "cosine"
                half half 60) as [(_ & _ & H & _) _].
    apply (H _ ex_rows).
    + by exists [].
    + by left.
  - destruct (C7_source_failure_fails_the_search ex_embedding ex_embedding
                ex_description_only_database elements true "q" 10 "cosine"
                half half 60) as [_ (_ & _ & H & _)].
    apply (H _ ex_rows).
    + by exists [].
    + reflexivity.
  - destruct (C7_source_failure_fails_the_search failing_embedding ex_embedding
                (ex_fetch ex_rows) elements true "q" 10 "cosine"
                half half 60) as [_ (_ & H & _)].
    apply (H _ ex_rows).
    + by left.
    + reflexivity.
Defined.

(** ** Ranges and slices *)

Lemma range_from_concat_slices {A} (l : list A) (step fuel i : nat) :
  (0 < step)%nat -> (length l <= fuel + i)%nat ->
  concat ((fun j => slice l j (j + step)) <$> range_from fuel i (length l) step)
  = drop i l.
Proof.
  intros Hstep. revert i. induction fuel as [|fuel IH]; intros i Hfuel.
  - simpl. rewrite drop_ge; [done|lia].
  - simpl. destruct (Nat.ltb_spec i (length l)) as [Hlt|Hge].
    + rewrite fmap_cons. simpl. rewrite IH by lia. unfold slice.
      replace (i + step - i)%nat with step by lia.
      rewrite <-drop_drop. apply take_drop.
    + simpl. rewrite drop_ge; [done|lia].
Qed.

Lemma range_from_lookup (step fuel i stop j x : nat) :
  range_from fuel i stop step !! j = Some x ->
  x = (i + j * step)%nat /\ (x < stop)%nat.
Proof.
  revert i j. induction fuel as [|fuel IH]; intros i j; simpl; [done|].
  destruct (Nat.ltb_spec i stop) as [Hlt|Hge]; [|done].
  destruct j as [|j]; simpl.
  - intros [= <-]. lia.
  - intros H. apply IH in H. lia.
Qed.

Lemma concat_batches candidates : concat (batches candidates) = candidates.
Proof.
  unfold batches, range_step.
  rewrite (range_from_concat_slices candidates); [done| |]; unfold RerankService.BATCH_SIZE; lia.
Qed.

Lemma batches_lookup candidates j batch :
  batches candidates !! j = Some batch ->
  batch = slice candidates (j * 25) (j * 25 + 25)
  /\ length batch = Nat.min 25 (length candidates - j * 25)
  /\ (0 < length batch)%nat.
Proof.
  unfold batches. rewrite list_lookup_fmap.
  intros (i & Hi & ->)%fmap_Some. apply range_from_lookup in Hi as [-> Hlt].
  unfold RerankService.BATCH_SIZE in *. rewrite Nat.add_0_l in *.
  split; [done|]. unfold slice. rewrite length_take, length_drop. lia.
Qed.

Lemma batches_of_sixty candidates :
  length candidates = 60%nat -> length <$> batches candidates = [25; 25; 10]%nat.
Proof.
  intros H. unfold batches. rewrite H.
  change (range_step 60 RerankService.BATCH_SIZE) with [0; 25; 50]%nat.
  rewrite !fmap_cons. unfold slice, RerankService.BATCH_SIZE.
  rewrite !length_take, !length_drop, H. reflexivity.
Qed.

(** ** One batch *)

Section RerankFacts.
Variable generate : nat -> string -> llm_reply.
Variable json_loads : string -> option json.
Variable float_of_str : string -> option float.
Variables query context : string.

Local Abbreviation scored :=
  (scored generate json_loads float_of_str query context).

Lemma batch_loop_cons candidates i rest acc calls :
  RerankService.batch_loop generate json_loads float_of_str query context
    candidates (i :: rest) acc calls
  = let batch := slice candidates i (i + RerankService.BATCH_SIZE) in
    let calls' := calls ++ [RerankService._build_prompt query context batch] in
    match scored (length calls) batch with
    | inl e => (inl e, calls')
    | inr results =>
        RerankService.batch_loop generate json_loads float_of_str query context
          candidates rest (acc ++ results) calls'
    end.
Proof. reflexivity. Qed.

Lemma batch_results_inr score_map batch results :
  RerankService.batch_results float_of_str score_map batch = inr results <->
  Forall2 (fun c r =>
             exists x,
               RerankService.py_float float_of_str
                 (default (JFloat PyFloat.zero) (score_map !! cand_table_name c))
               = inr x
               /\ r = RerankResult.mk (cand_table_name c) x)
    batch results.
Proof.
  unfold RerankService.batch_results. rewrite for_each_inr.
  split; intros H; (eapply Forall2_impl; [exact H|]); intros c r.
  - intros (x & Hx & [= <-])%bind_inr. eauto.
  - intros (x & Hx & ->). apply bind_inr. eauto.
Qed.

Lemma batch_results_names score_map batch results :
  RerankService.batch_results float_of_str score_map batch = inr results ->
  RerankResult.table_name <$> results = cand_table_name <$> batch.
Proof.
  intros H%batch_results_inr.
  induction H as [|c r batch results (x & _ & ->) _ IH]; [done|].
  by rewrite !fmap_cons, IH.
Qed.

Lemma scored_names n batch results :
  scored n batch = inr results ->
  RerankResult.table_name <$> results = cand_table_name <$> batch.
Proof.
  unfold scored, RerankService.score_batch.
  intros (score_map & _ & H)%bind_inr. by eapply batch_results_names.
Qed.

(** ** The loop over the batches *)

Lemma batch_loop_names candidates indices acc calls results calls' :
  RerankService.batch_loop generate json_loads float_of_str query context
    candidates indices acc calls = (inr results, calls') ->
  RerankResult.table_name <$> results
  = (RerankResult.table_name <$> acc)
      ++ (cand_table_name <$>
            concat ((fun i => slice candidates i (i + RerankService.BATCH_SIZE))
                      <$> indices)).
Proof.
  revert acc calls. induction indices as [|i rest IH]; intros acc calls.
  - simpl. intros [= <- _]. by rewrite app_nil_r.
  - rewrite batch_loop_cons. cbv zeta.
    destruct (scored _ _) as [e|rs] eqn:Hrs; [done|].
    intros H%IH. rewrite H, fmap_app, <-app_assoc. f_equal.
    rewrite fmap_cons. simpl. by rewrite fmap_app, (scored_names _ _ _ Hrs).
Qed.

Lemma batch_loop_calls candidates indices acc calls outcome calls' :
  RerankService.batch_loop generate json_loads float_of_str query context
    candidates indices acc calls = (outcome, calls') ->
  exists n,
    calls' = calls ++ (RerankService._build_prompt query context
                         <$> take n ((fun i => slice candidates i
                                                 (i + RerankService.BATCH_SIZE))
                                       <$> indices))
    /\ (n <= length indices)%nat
    /\ ((exists results, outcome = inr results) -> n = length indices).
Proof.
  revert acc calls. induction indices as [|i rest IH]; intros acc calls.
  - simpl. intros [= <- <-]. exists 0%nat. by rewrite app_nil_r.
  - rewrite batch_loop_cons. cbv zeta.
    destruct (scored _ _) as [e|rs] eqn:Hrs.
    + intros [= <- <-]. exists 1%nat. simpl. split; [done|]. split; [lia|].
      by intros [? ?].
    + intros (n & -> & Hn & Hall)%IH. exists (S n). simpl.
      rewrite <-app_assoc. split; [done|]. split; [lia|].
      intros H. by rewrite Hall.
Qed.

Lemma batch_loop_scorable candidates indices acc calls :
  (forall j i,
      indices !! j = Some i ->
      exists results,
        scored (length calls + j)
          (slice candidates i (i + RerankService.BATCH_SIZE)) = inr results) ->
  exists per_batch,
    RerankService.batch_loop generate json_loads float_of_str query context
      candidates indices acc calls
    = (inr (acc ++ concat per_batch),
       calls ++ (RerankService._build_prompt query context
                   <$> ((fun i => slice candidates i
                                    (i + RerankService.BATCH_SIZE))
                          <$> indices)))
    /\ length per_batch = length indices
    /\ forall j i,
        indices !! j = Some i ->
        exists results,
          per_batch !! j = Some results
          /\ scored (length calls + j)
               (slice candidates i (i + RerankService.BATCH_SIZE)) = inr results.
Proof.
  revert acc calls. induction indices as [|i rest IH]; intros acc calls Hall.
  - exists []. simpl. by rewrite !app_nil_r.
  - destruct (Hall 0%nat i eq_refl) as [rs Hrs].
    rewrite Nat.add_0_r in Hrs.
    destruct (IH (acc ++ rs)
                (calls ++ [RerankService._build_prompt query context
                             (slice candidates i (i + RerankService.BATCH_SIZE))]))
      as (per_batch & Hloop & Hlen & Hper).
    { intros j i' Hj. rewrite length_app. simpl.
      replace (length calls + 1 + j)%nat with (length calls + S j)%nat by lia.
      by apply Hall. }
    exists (rs :: per_batch). rewrite batch_loop_cons. cbv zeta.
    rewrite Hrs, Hloop. simpl. rewrite <-!app_assoc. split; [done|].
    split; [by rewrite Hlen|]. intros [|j] i' Hj.
    + injection Hj as <-. exists rs. by rewrite Nat.add_0_r.
    + destruct (Hper j i' Hj) as (results & ? & Hs). exists results.
      split; [done|]. rewrite length_app in Hs. simpl in Hs.
      by replace (length calls + S j)%nat with (length calls + 1 + j)%nat by lia.
Qed.

Lemma batch_loop_first_failure candidates indices acc calls j i e :
  indices !! j = Some i ->
  (forall j' i',
      (j' < j)%nat -> indices !! j' = Some i' ->
      exists results,
        scored (length calls + j')
          (slice candidates i' (i' + RerankService.BATCH_SIZE)) = inr results) ->
  scored (length calls + j)
    (slice candidates i (i + RerankService.BATCH_SIZE)) = inl e ->
  RerankService.batch_loop generate json_loads float_of_str query context
    candidates indices acc calls
  = (inl e,
     calls ++ (RerankService._build_prompt query context
                 <$> take (S j) ((fun i => slice candidates i
                                            (i + RerankService.BATCH_SIZE))
                                   <$> indices))).
Proof.
  revert j acc calls.
  induction indices as [|i0 rest IH]; intros j acc calls Hj Hbefore Hfail;
    [done|].
  rewrite batch_loop_cons. cbv zeta. destruct j as [|j].
  - injection Hj as ->. rewrite Nat.add_0_r in Hfail. by rewrite Hfail.
  - destruct (Hbefore 0%nat i0 ltac:(lia) eq_refl) as [rs Hrs].
    rewrite Nat.add_0_r in Hrs. rewrite Hrs.
    rewrite (IH j (acc ++ rs) _ Hj).
    + rewrite fmap_cons, <-app_assoc. reflexivity.
    + intros j' i' Hlt Hj'. rewrite length_app. simpl.
      replace (length calls + 1 + j')%nat with (length calls + S j')%nat by lia.
      apply Hbefore; [lia|done].
    + rewrite length_app. simpl.
      by replace (length calls + 1 + j)%nat with (length calls + S j)%nat by lia.
Qed.

End RerankFacts.

Lemma rerank_candidates_scorable generate json_loads float_of_str query context
    candidates :
  all_scorable generate json_loads float_of_str query context candidates ->
  exists per_batch,
    RerankService.rerank_candidates generate json_loads float_of_str query context
      candidates
    = (sort_reverse RerankResult.score (concat per_batch),
       RerankService._build_prompt query context <$> batches candidates)
    /\ length per_batch = length (batches candidates)
    /\ forall j batch,
        batches candidates !! j = Some batch ->
        exists results,
          per_batch !! j = Some results
          /\ scored generate json_loads float_of_str query context j batch
             = inr results.
Proof.
  intros Hall.
  destruct (batch_loop_scorable generate json_loads float_of_str query context
              candidates
              (range_step (length candidates) RerankService.BATCH_SIZE) [] [])
    as (per_batch & Hloop & Hlen & Hper).
  { intros j i Hj. simpl. apply Hall. unfold batches.
    by rewrite list_lookup_fmap, Hj. }
  exists per_batch. unfold RerankService.rerank_candidates. rewrite Hloop.
  split; [done|]. split.
  - unfold batches. by rewrite length_fmap.
  - intros j batch Hj. unfold batches in Hj. rewrite list_lookup_fmap in Hj.
    apply fmap_Some in Hj as (i & Hi & ->). by apply Hper.
Qed.

Lemma rerank_candidates_names generate json_loads float_of_str query context
    candidates :
  RerankResult.table_name
    <$> (RerankService.rerank_candidates generate json_loads float_of_str
           query context candidates).1
  ≡ₚ cand_table_name <$> candidates.
Proof.
  unfold RerankService.rerank_candidates.
  destruct (RerankService.batch_loop _ _ _ _ _ _ _ _ _) as [[e|results] calls]
    eqn:Hloop; cbn [fst].
  - by rewrite <-list_fmap_compose.
  - rewrite sort_reverse_Permutation.
    rewrite (batch_loop_names _ _ _ _ _ _ _ _ _ _ _ Hloop).
    fold (batches candidates). by rewrite concat_batches.
Qed.

(** C2: whatever the LLM client, json.loads and float do, the list that
    rerank builds from its candidates holds one result per candidate: its
    identifiers are those of the candidates, each as often as it occurs
    among them, and its length is the number of candidates. *)
Theorem C2_rerank_keeps_every_candidate :
  forall generate json_loads float_of_str query context candidates,
    RerankResult.table_name
      <$> (RerankService.rerank_candidates generate json_loads float_of_str
             query context candidates).1
    ≡ₚ cand_table_name <$> candidates
    /\ length (RerankService.rerank_candidates generate json_loads float_of_str
                 query context candidates).1
       = length candidates.
Proof.
  intros generate json_loads float_of_str query context candidates.
  pose proof (rerank_candidates_names generate json_loads float_of_str query
                context candidates) as H.
  split; [done|].
  by rewrite <-(length_fmap RerankResult.table_name), H, length_fmap.
Qed.

Lemma concat_fmap {A B} (f : A -> B) (ls : list (list A)) :
  concat ((fun l : list A => f <$> l) <$> ls) = f <$> concat ls.
Proof.
  induction ls as [|l ls IH]; [done|].
  rewrite fmap_cons. simpl. by rewrite IH, fmap_app.
Qed.

Lemma elem_of_concat {A} (x : A) (ls : list (list A)) :
  x ∈ concat ls <-> exists l, l ∈ ls /\ x ∈ l.
Proof.
  induction ls as [|l ls IH]; simpl.
  - split; [by intros ?%elem_of_nil|]. by intros (? & ?%elem_of_nil & _).
  - rewrite elem_of_app, IH. split.
    + intros [H|(l' & H1 & H2)]; [exists l|exists l']; split; try done;
        by constructor.
    + intros (l' & [->|H1]%elem_of_cons & H2); eauto.
Qed.

Section Fallback.
Variable generate : nat -> string -> llm_reply.
Variable json_loads : string -> option json.
Variable float_of_str : string -> option float.
Variables query context : string.

Hypothesis always_raises : forall n prompt, exists e, generate n prompt = GenerateRaises e.

Lemma scored_when_raising n batch :
  scored generate json_loads float_of_str query context n batch
  = inr (zero_scores batch).
Proof.
  unfold scored.
  destruct (always_raises n (RerankService._build_prompt query context batch))
    as [e ->].
  unfold RerankService.score_batch. simpl.
  apply batch_results_inr, Forall2_fmap_r, Forall_Forall2_diag, Forall_forall.
  intros c _. exists PyFloat.zero. by rewrite lookup_empty.
Qed.

Lemma all_scorable_when_raising candidates :
  all_scorable generate json_loads float_of_str query context candidates.
Proof. intros j batch _. eexists. apply scored_when_raising. Qed.

Lemma rerank_candidates_when_raising candidates :
  RerankService.rerank_candidates generate json_loads float_of_str query context
    candidates
  = (zero_scores candidates,
     RerankService._build_prompt query context <$> batches candidates).
Proof.
  destruct (rerank_candidates_scorable _ _ _ _ _ _
              (all_scorable_when_raising candidates))
    as (per_batch & -> & Hlen & Hper).
  assert (Hzero : per_batch = zero_scores <$> batches candidates).
  { apply list_eq. intros j. rewrite list_lookup_fmap.
    destruct (batches candidates !! j) as [batch|] eqn:Hj; simpl.
    - destruct (Hper j batch Hj) as (results & -> & Hs).
      rewrite scored_when_raising in Hs. by injection Hs as <-.
    - apply lookup_ge_None. rewrite Hlen. by apply lookup_ge_None. }
  f_equal. rewrite Hzero. unfold zero_scores at 1.
  rewrite concat_fmap, concat_batches.
  apply sort_reverse_ties. intros x y Hx Hy.
  apply list_elem_of_fmap in Hx as (cx & -> & _), Hy as (cy & -> & _).
  reflexivity.
Qed.
End Fallback.

(** C3: when every call of the LLM client raises, rerank returns, from
    its candidates, one result per candidate with score exactly 0.0, in
    the order of the candidates (the stable sort leaves equal scores in
    place). *)
Theorem C3_failing_llm_gives_zero_scores_in_input_order :
  forall generate json_loads float_of_str query context candidates,
    (forall n prompt, exists e, generate n prompt = GenerateRaises e) ->
    (RerankService.rerank_candidates generate json_loads float_of_str query
       context candidates).1
    = (fun c => RerankResult.mk (cand_table_name c) PyFloat.zero) <$> candidates.
Proof.
  intros generate json_loads float_of_str query context candidates Hraise.
  by rewrite rerank_candidates_when_raising.
Qed.

Lemma C3_witness :
  (RerankService.rerank_candidates failing_llm no_json no_float "q" "c"
     (ex_candidates 60)).1
  = (fun c => RerankResult.mk (cand_table_name c) PyFloat.zero)
      <$> ex_candidates 60.
Proof.
  apply (C3_failing_llm_gives_zero_scores_in_input_order failing_llm no_json
           no_float "q" "c" (ex_candidates 60)).
  intros n prompt. exists (CollaboratorError "llm"). reflexivity.
Defined.

Lemma rerank_candidates_first_failure generate json_loads float_of_str query
    context candidates j batch e :
  batches candidates !! j = Some batch ->
  (forall j' batch',
      (j' < j)%nat -> batches candidates !! j' = Some batch' ->
      exists results,
        scored generate json_loads float_of_str query context j' batch'
        = inr results) ->
  scored generate json_loads float_of_str query context j batch = inl e ->
  RerankService.rerank_candidates generate json_loads float_of_str query context
    candidates
  = (zero_scores candidates,
     RerankService._build_prompt query context <$> take (S j) (batches candidates)).
Proof.
  intros Hj Hbefore Hfail. unfold batches in Hj.
  rewrite list_lookup_fmap in Hj. apply fmap_Some in Hj as (i & Hi & ->).
  unfold RerankService.rerank_candidates.
  rewrite (batch_loop_first_failure generate json_loads float_of_str query
             context candidates _ [] [] j i e Hi); [done| |done].
  intros j' i' Hlt Hj'. simpl. apply Hbefore; [done|].
  unfold batches. by rewrite list_lookup_fmap, Hj'.
Qed.

(** C6 (as amended): the batches of rerank are contiguous slices of the
    candidates, in order, of 25 elements each except the last, which
    holds what is left; the prompts sent to the LLM are those of the first
    batches, one call per batch and in order: of all the batches when no
    reply makes the scoring raise, and otherwise of the batches up to the
    first one whose scoring raises, after which the all-zero fallback is
    returned.  With 60 candidates the batches have sizes 25, 25 and 10. *)
Theorem C6_batches_and_llm_calls :
  forall generate json_loads float_of_str query context candidates,
    concat (batches candidates) = candidates
    /\ (forall j batch,
          batches candidates !! j = Some batch ->
          length batch = Nat.min 25 (length candidates - j * 25)
          /\ (0 < length batch)%nat)
    /\ (exists n,
          (RerankService.rerank_candidates generate json_loads float_of_str
             query context candidates).2
          = RerankService._build_prompt query context
              <$> take n (batches candidates))
    /\ (all_scorable generate json_loads float_of_str query context candidates ->
        (RerankService.rerank_candidates generate json_loads float_of_str
           query context candidates).2
        = RerankService._build_prompt query context <$> batches candidates)
    /\ (forall j batch e,
          batches candidates !! j = Some batch ->
          (forall j' batch',
              (j' < j)%nat -> batches candidates !! j' = Some batch' ->
              exists results,
                scored generate json_loads float_of_str query context j' batch'
                = inr results) ->
          scored generate json_loads float_of_str query context j batch = inl e ->
          RerankService.rerank_candidates generate json_loads float_of_str
            query context candidates
          = (zero_scores candidates,
             RerankService._build_prompt query context
               <$> take (S j) (batches candidates)))
    /\ (length candidates = 60%nat ->
        length <$> batches candidates = [25; 25; 10]%nat).
Proof.
  intros generate json_loads float_of_str query context candidates.
  split; [apply concat_batches|]. split.
  { intros j batch Hj. by apply batches_lookup in Hj as (_ & ? & ?). }
  split; [|split; [|split]].
  - unfold RerankService.rerank_candidates.
    destruct (RerankService.batch_loop _ _ _ _ _ _ _ _ _) as [outcome calls]
      eqn:Hloop.
    apply batch_loop_calls in Hloop as (n & -> & _). exists n.
    by destruct outcome.
  - intros Hall.
    by destruct (rerank_candidates_scorable _ _ _ _ _ _ Hall) as (? & -> & _).
  - intros j batch e. apply rerank_candidates_first_failure.
  - apply batches_of_sixty.
Qed.

Lemma C6_witness :
  (RerankService.rerank_candidates failing_llm no_json no_float "q" "c"
     (ex_candidates 60)).2
  = RerankService._build_prompt "q" "c" <$> batches (ex_candidates 60)
  /\ length <$> batches (ex_candidates 60) = [25; 25; 10]%nat.
Proof.
  destruct (C6_batches_and_llm_calls failing_llm no_json no_float "q" "c"
              (ex_candidates 60)) as (_ & _ & _ & Hcalls & _ & Hsizes).
  split.
  - apply Hcalls. intros j batch _. eexists. apply scored_when_raising.
    intros n prompt. by eexists.
  - apply Hsizes. reflexivity.
Defined.

(** C6 as stated: with 60 candidates and an LLM whose reply parses to the
    array [1], the first batch makes the scoring raise; one call is
    issued, not three, and the fallback list is returned. *)
Lemma C6_counterexample :
  length (ex_candidates 60) = 60%nat
  /\ length (batches (ex_candidates 60)) = 3%nat
  /\ length (RerankService.rerank_candidates malformed_llm loads_array_of_one
               no_float "q" "c" (ex_candidates 60)).2 = 1%nat
  /\ (RerankService.rerank_candidates malformed_llm loads_array_of_one
        no_float "q" "c" (ex_candidates 60)).1
     = zero_scores (ex_candidates 60).
Proof. repeat split; vm_compute; reflexivity. Qed.

(** ** The score map of a batch *)

Lemma score_map_fill_app score_map items rest :
  RerankService.score_map_fill score_map (items ++ rest)
  = RerankService.score_map_fill score_map items
      ≫= fun score_map' => RerankService.score_map_fill score_map' rest.
Proof.
  revert score_map. induction items as [|item items IH]; intros score_map; [done|].
  simpl. destruct (RerankService.score_map_insert score_map item); simpl; [done|].
  apply IH.
Qed.

Lemma score_map_insert_other score_map item score_map' name :
  RerankService.score_map_insert score_map item = inr score_map' ->
  py_getitem item "table_name" <> inr (JStr name) ->
  score_map' !! name = score_map !! name.
Proof.
  unfold RerankService.score_map_insert.
  destruct (py_getitem item "table_name") as [e|key]; simpl; [done|].
  destruct (py_getitem item "score") as [e|value]; simpl; [done|].
  destruct key; try done; try by intros [= <-].
  intros [= <-] Hne. apply lookup_insert_ne. congruence.
Qed.

Lemma score_map_fill_other score_map rest score_map' name :
  RerankService.score_map_fill score_map rest = inr score_map' ->
  Forall (fun later => py_getitem later "table_name" <> inr (JStr name)) rest ->
  score_map' !! name = score_map !! name.
Proof.
  intros H Hrest. revert score_map H.
  induction Hrest as [|later rest Hne _ IH]; intros score_map; simpl.
  - by intros [= <-].
  - intros (m & Hm & H)%bind_inr. rewrite (IH _ H).
    by eapply score_map_insert_other.
Qed.

Lemma score_map_last_wins items item rest score_map name score :
  RerankService.build_score_map (JList (items ++ item :: rest)) = inr score_map ->
  py_getitem item "table_name" = inr (JStr name) ->
  py_getitem item "score" = inr score ->
  Forall (fun later => py_getitem later "table_name" <> inr (JStr name)) rest ->
  score_map !! name = Some score.
Proof.
  unfold RerankService.build_score_map. simpl.
  rewrite score_map_fill_app. intros (m & _ & H)%bind_inr Hname Hscore Hrest.
  simpl in H. apply bind_inr in H as (m' & Hm' & H).
  rewrite (score_map_fill_other _ _ _ _ H Hrest).
  unfold RerankService.score_map_insert in Hm'.
  rewrite Hname, Hscore in Hm'. simpl in Hm'. injection Hm' as <-.
  apply lookup_insert_eq.
Qed.

Lemma NoDup_fmap_same {A B} (f : A -> B) (l : list A) x y :
  NoDup (f <$> l) -> x ∈ l -> y ∈ l -> f x = f y -> x = y.
Proof.
  induction l as [|z l IH]; [by intros _ ?%elem_of_nil|].
  rewrite fmap_cons, NoDup_cons.
  intros [Hz Hl] [->|Hx]%elem_of_cons [->|Hy]%elem_of_cons Hf; auto.
  - exfalso. apply Hz. rewrite Hf. by apply list_elem_of_fmap_2.
  - exfalso. apply Hz. rewrite <-Hf. by apply list_elem_of_fmap_2.
Qed.

(** ** Replies that end the loop *)

Section AnyFailure.
Variable generate : nat -> string -> llm_reply.
Variable json_loads : string -> option json.
Variable float_of_str : string -> option float.
Variables query context : string.
Variable candidates : list candidate.

Local Abbreviation scored :=
  (scored generate json_loads float_of_str query context).

Lemma scorable_below_or_failure n :
  (forall j batch,
      (j < n)%nat -> batches candidates !! j = Some batch ->
      exists results, scored j batch = inr results)
  \/ exists j batch e,
      (j < n)%nat /\ batches candidates !! j = Some batch
      /\ scored j batch = inl e
      /\ forall j' batch',
          (j' < j)%nat -> batches candidates !! j' = Some batch' ->
          exists results, scored j' batch' = inr results.
Proof.
  induction n as [|n [IH|(j & batch & e & Hlt & Hj & He & Hbefore)]].
  - left. intros j batch Hlt. lia.
  - destruct (batches candidates !! n) as [batch|] eqn:Hn.
    + destruct (scored n batch) as [e|results] eqn:Hs.
      * right. exists n, batch, e. repeat split; [lia|done..].
      * left. intros j batch' Hlt Hj.
        destruct (decide (j = n)) as [->|Hne].
        -- rewrite Hn in Hj. injection Hj as <-. by exists results.
        -- apply IH; [lia|done].
    + left. intros j batch' Hlt Hj.
      destruct (decide (j = n)) as [->|Hne]; [congruence|].
      apply IH; [lia|done].
  - right. exists j, batch, e. repeat split; [lia|done..].
Qed.

Lemma rerank_candidates_any_failure j batch e :
  batches candidates !! j = Some batch ->
  scored j batch = inl e ->
  exists n,
    (n <= j)%nat
    /\ RerankService.rerank_candidates generate json_loads float_of_str query
         context candidates
       = (zero_scores candidates,
          RerankService._build_prompt query context
            <$> take (S n) (batches candidates)).
Proof.
  intros Hj He.
  destruct (scorable_below_or_failure (S j))
    as [Hall|(j' & batch' & e' & Hlt & Hj' & He' & Hbefore)].
  - destruct (Hall j batch ltac:(lia) Hj) as [results Hr]. congruence.
  - exists j'. split; [lia|]. by eapply rerank_candidates_first_failure.
Qed.

End AnyFailure.

(** C9: a candidate that the array parsed for its batch names more than
    once, when the candidates have distinct names.  Whatever the replies
    are, the candidate occurs exactly once in the output.  It gets the
    score of the last entry that names it when no reply makes the
    scoring raise: that score then converts to a float x, and the
    candidate's result carries x.  When the reply to some batch makes
    the scoring raise, every candidate gets 0.0, the duplicated one
    included.  One of the two cases holds. *)
Theorem C9_last_duplicate_wins :
  forall generate json_loads float_of_str query context candidates
         j batch items item rest name score,
    NoDup (cand_table_name <$> candidates) ->
    batches candidates !! j = Some batch ->
    name ∈ cand_table_name <$> batch ->
    RerankService.reply_scores json_loads
      (generate j (RerankService._build_prompt query context batch))
    = JList (items ++ item :: rest) ->
    py_getitem item "table_name" = inr (JStr name) ->
    py_getitem item "score" = inr score ->
    Forall (fun later => py_getitem later "table_name" <> inr (JStr name)) rest ->
    NoDup (RerankResult.table_name
             <$> (RerankService.rerank_candidates generate json_loads
                    float_of_str query context candidates).1)
    /\ (exists r,
           r ∈ (RerankService.rerank_candidates generate json_loads
                  float_of_str query context candidates).1
           /\ RerankResult.table_name r = name
           /\ forall r',
               r' ∈ (RerankService.rerank_candidates generate json_loads
                       float_of_str query context candidates).1 ->
               RerankResult.table_name r' = name -> r' = r)
    /\ (all_scorable generate json_loads float_of_str query context candidates ->
        exists x,
          RerankService.py_float float_of_str score = inr x
          /\ RerankResult.mk name x
             ∈ (RerankService.rerank_candidates generate json_loads
                  float_of_str query context candidates).1
          /\ forall r',
              r' ∈ (RerankService.rerank_candidates generate json_loads
                      float_of_str query context candidates).1 ->
              RerankResult.table_name r' = name ->
              r' = RerankResult.mk name x)
    /\ (forall j' batch' e,
           batches candidates !! j' = Some batch' ->
           scored generate json_loads float_of_str query context j' batch'
           = inl e ->
           (RerankService.rerank_candidates generate json_loads float_of_str
              query context candidates).1 = zero_scores candidates
           /\ forall r',
               r' ∈ (RerankService.rerank_candidates generate json_loads
                       float_of_str query context candidates).1 ->
               RerankResult.table_name r' = name ->
               r' = RerankResult.mk name PyFloat.zero)
    /\ (all_scorable generate json_loads float_of_str query context candidates
        \/ exists j' batch' e,
            batches candidates !! j' = Some batch'
            /\ scored generate json_loads float_of_str query context j' batch'
               = inl e).
Proof.
  intros generate json_loads float_of_str query context candidates
    j batch items item rest name score
    Hnd Hj Hname Hreply Hitem Hscore Hrest.
  pose proof (rerank_candidates_names generate json_loads float_of_str query
                context candidates) as Hperm.
  assert (Hnd' : NoDup (RerankResult.table_name
                          <$> (RerankService.rerank_candidates generate
                                 json_loads float_of_str query context
                                 candidates).1))
    by by rewrite Hperm.
  assert (Hcand : name ∈ cand_table_name <$> candidates).
  { apply list_elem_of_fmap in Hname as (c & -> & Hc).
    apply list_elem_of_fmap_2. rewrite <-(concat_batches candidates).
    apply elem_of_concat. exists batch. split; [|done].
    by eapply list_elem_of_lookup_2. }
  split; [done|]. split; [|split; [|split]].
  - rewrite <-Hperm in Hcand.
    apply list_elem_of_fmap in Hcand as (r & Hr & Hin).
    exists r. split; [done|]. split; [done|].
    intros r' Hr' Hn.
    apply (NoDup_fmap_same RerankResult.table_name _ _ _ Hnd' Hr' Hin).
    congruence.
  - intros Hall.
    destruct (rerank_candidates_scorable _ _ _ _ _ _ Hall)
      as (per_batch & Heq & _ & Hper).
    destruct (Hper j batch Hj) as (results & Hresults & Hscored).
    unfold scored, RerankService.score_batch in Hscored.
    rewrite Hreply in Hscored.
    apply bind_inr in Hscored as (score_map & Hmap & Hres).
    pose proof (score_map_last_wins _ _ _ _ _ _ Hmap Hitem Hscore Hrest) as Hlast.
    apply batch_results_inr in Hres.
    apply list_elem_of_fmap in Hname as (c & -> & Hc).
    apply list_elem_of_lookup in Hc as [i Hi].
    destruct (Forall2_lookup_l _ _ _ _ _ Hres Hi) as (r & Hr & x & Hx & ->).
    rewrite Hlast in Hx. simpl in Hx.
    exists x. split; [done|].
    assert (Hout : RerankResult.mk (cand_table_name c) x
                   ∈ (RerankService.rerank_candidates generate json_loads
                        float_of_str query context candidates).1).
    { rewrite Heq. cbn [fst]. rewrite sort_reverse_Permutation.
      apply elem_of_concat. exists results. split.
      - by eapply list_elem_of_lookup_2.
      - by eapply list_elem_of_lookup_2. }
    split; [done|].
    intros r' Hr' Hn. by eapply (NoDup_fmap_same RerankResult.table_name).
  - intros j' batch' e Hj' He.
    destruct (rerank_candidates_any_failure generate json_loads float_of_str
                query context candidates j' batch' e Hj' He) as (n & _ & Heq).
    rewrite Heq. cbn [fst]. split; [done|].
    intros r' Hr' Hn. unfold zero_scores in Hr'.
    apply list_elem_of_fmap in Hr' as (c & -> & _).
    simpl in Hn. by rewrite Hn.
  - destruct (scorable_below_or_failure generate json_loads float_of_str query
                context candidates (length (batches candidates)))
      as [Hall|(j' & batch' & e & _ & Hj' & He & _)].
    + left. intros i b Hi. apply Hall; [|done]. by eapply lookup_lt_Some.
    + right. by exists j', batch', e.
Qed.

Lemma C9_witness :
  NoDup (RerankResult.table_name
           <$> (RerankService.rerank_candidates duplicate_llm loads_duplicate
                  no_float "q" "c" two_candidates).1)
  /\ (exists r,
         r ∈ (RerankService.rerank_candidates duplicate_llm loads_duplicate
                no_float "q" "c" two_candidates).1
         /\ RerankResult.table_name r = "a"
         /\ forall r',
             r' ∈ (RerankService.rerank_candidates duplicate_llm
                     loads_duplicate no_float "q" "c" two_candidates).1 ->
             RerankResult.table_name r' = "a" -> r' = r)
  /\ (all_scorable duplicate_llm loads_duplicate no_float "q" "c"
        two_candidates ->
      exists x,
        RerankService.py_float no_float (JFloat (PyFloat.literal 9 1)) = inr x
        /\ RerankResult.mk "a" x
           ∈ (RerankService.rerank_candidates duplicate_llm loads_duplicate
                no_float "q" "c" two_candidates).1
        /\ forall r',
            r' ∈ (RerankService.rerank_candidates duplicate_llm
                    loads_duplicate no_float "q" "c" two_candidates).1 ->
            RerankResult.table_name r' = "a" ->
            r' = RerankResult.mk "a" x)
  /\ (forall j' batch' e,
         batches two_candidates !! j' = Some batch' ->
         scored duplicate_llm loads_duplicate no_float "q" "c" j' batch'
         = inl e ->
         (RerankService.rerank_candidates duplicate_llm loads_duplicate
            no_float "q" "c" two_candidates).1 = zero_scores two_candidates
         /\ forall r',
             r' ∈ (RerankService.rerank_candidates duplicate_llm
                     loads_duplicate no_float "q" "c" two_candidates).1 ->
             RerankResult.table_name r' = "a" ->
             r' = RerankResult.mk "a" PyFloat.zero)
  /\ (all_scorable duplicate_llm loads_duplicate no_float "q" "c"
        two_candidates
      \/ exists j' batch' e,
          batches two_candidates !! j' = Some batch'
          /\ scored duplicate_llm loads_duplicate no_float "q" "c" j' batch'
             = inl e).
Proof.
  apply (C9_last_duplicate_wins duplicate_llm loads_duplicate no_float "q" "c"
           two_candidates 0 two_candidates
           [score_entry "a" (PyFloat.literal 2 1);
            score_entry "b" (PyFloat.literal 5 1)]
           (score_entry "a" (PyFloat.literal 9 1)) [] "a"
           (JFloat (PyFloat.literal 9 1))).
  - vm_compute. repeat constructor; set_solver.
  - reflexivity.
  - vm_compute. set_solver.
  - reflexivity.
  - reflexivity.
  - reflexivity.
  - constructor.
Defined.

(** The reply to the only batch names [a] twice, with the scores 0.2 and
    then 0.9, and gives [b] the score [null]: [float(None)] raises, the
    fallback is returned, and [a] gets 0.0, not 0.9. *)
Lemma C9_counterexample :
  RerankService.reply_scores loads_duplicate_null
    (duplicate_null_llm 0
       (RerankService._build_prompt "q" "c" two_candidates))
  = JList [score_entry "a" (PyFloat.literal 2 1);
           score_entry "a" (PyFloat.literal 9 1);
           JDict [("table_name", JStr "b"); ("score", JNull)]]
  /\ (RerankService.rerank_candidates duplicate_null_llm loads_duplicate_null
        no_float "q" "c" two_candidates).1
     = [RerankResult.mk "a" PyFloat.zero; RerankResult.mk "b" PyFloat.zero]
  /\ RerankResult.mk "a" (PyFloat.literal 9 1)
     ∉ (RerankService.rerank_candidates duplicate_null_llm
          loads_duplicate_null no_float "q" "c" two_candidates).1.
Proof.
  split; [by vm_compute|]. split; [by vm_compute|].
  intros H. vm_compute in H.
  repeat (apply elem_of_cons in H as [H|H]; [discriminate H|]).
  by apply elem_of_nil in H.
Qed.

(* ===================================================================== *)
(** * Further properties of the code *)
(* ===================================================================== *)

(** ** The regular expression of [_parse_llm_response] *)

Lemma from_open_bracket_Some s rest :
  from_open_bracket s = Some rest <->
  exists pre, s = pre +:+ String "["%char rest /\ lacks "["%char pre.
Proof.
  revert rest. induction s as [|c s IH]; intros rest; simpl.
  - split; [done|]. intros (pre & H & _). by destruct pre.
  - case_decide as Hc.
    + subst c. split.
      * intros [= <-]. by exists EmptyString.
      * intros (pre & H & Hpre). destruct pre as [|c' pre]; simpl in *.
        -- by injection H as <-.
        -- injection H as <- _. by destruct Hpre.
    + rewrite IH. split.
      * intros (pre & -> & Hpre). by exists (String c pre).
      * intros (pre & H & Hpre). destruct pre as [|c' pre]; simpl in *.
        -- by injection H as -> _.
        -- injection H as <- ->. destruct Hpre. by exists pre.
Qed.

Lemma upto_last_close_bracket_None s :
  upto_last_close_bracket s = None <-> lacks "]"%char s.
Proof.
  induction s as [|c s IH]; simpl; [done|].
  destruct (upto_last_close_bracket s) as [t|].
  - split; [done|]. intros [_ H]. by apply IH in H.
  - case_decide as Hc.
    + split; [done|]. by intros [? _].
    + split; [|done]. intros _. split; [done|]. by apply IH.
Qed.

Lemma upto_last_close_bracket_Some s body :
  upto_last_close_bracket s = Some body <->
  exists mid post,
    s = mid +:+ String "]"%char post /\ body = mid +:+ "]" /\ lacks "]"%char post.
Proof.
  revert body. induction s as [|c s IH]; intros body; simpl.
  - split; [done|]. intros (mid & post & H & _). by destruct mid.
  - destruct (upto_last_close_bracket s) as [t|] eqn:Ht.
    + split.
      * intros [= <-]. destruct (proj1 (IH t) eq_refl) as (mid & post & -> & -> & Hp).
        by exists (String c mid), post.
      * intros (mid & post & H & -> & Hpost).
        destruct mid as [|c' mid]; simpl in *.
        -- injection H as -> ->.
           apply upto_last_close_bracket_None in Hpost. congruence.
        -- injection H as <- ->. f_equal. f_equal.
           assert (Some t = Some (mid +:+ "]")) as [= ->]; [|done].
           apply IH. by exists mid, post.
    + apply upto_last_close_bracket_None in Ht. case_decide as Hc.
      * subst c. split.
        -- intros [= <-]. by exists EmptyString, s.
        -- intros (mid & post & H & -> & Hpost).
           destruct mid as [|c' mid]; simpl in *; [done|].
           injection H as <- ->. exfalso. clear -Ht.
           induction mid as [|c mid IH]; simpl in Ht; [by destruct Ht|].
           apply IH, Ht.
      * split; [done|]. intros (mid & post & H & -> & Hpost).
        destruct mid as [|c' mid]; simpl in *.
        -- by injection H as -> _.
        -- injection H as <- ->. exfalso. clear -Ht.
           induction mid as [|c' mid IH]; simpl in Ht; [by destruct Ht|].
           apply IH, Ht.
Qed.

Lemma re_search_array_Some response json_str :
    re_search_array response = Some json_str <->
    exists pre mid post,
      response = pre +:+ "[" +:+ mid +:+ "]" +:+ post
      /\ json_str = "[" +:+ mid +:+ "]"
      /\ lacks "["%char pre /\ lacks "]"%char post.
Proof.
  unfold re_search_array. split.
  - intros H. apply bind_Some in H as (rest & Hrest & H).
    apply bind_Some in H as (body & Hbody & [= <-]).
    apply from_open_bracket_Some in Hrest as (pre & -> & Hpre).
    apply upto_last_close_bracket_Some in Hbody as (mid & post & -> & -> & Hpost).
    by exists pre, mid, post.
  - intros (pre & mid & post & -> & -> & Hpre & Hpost).
    apply bind_Some. exists (mid +:+ "]" +:+ post). split.
    { apply from_open_bracket_Some. by exists pre. }
    apply bind_Some. exists (mid +:+ "]"). split; [|done].
    apply upto_last_close_bracket_Some. by exists mid, post.
Qed.

Lemma from_open_bracket_None s :
  from_open_bracket s = None <-> lacks "["%char s.
Proof.
  induction s as [|c s IH]; simpl; [done|].
  case_decide as Hc.
  - split; [done|]. by intros [? _].
  - rewrite IH. tauto.
Qed.

Lemma re_search_array_None response :
  re_search_array response = None <->
  lacks "["%char response
  \/ exists pre rest,
      response = pre +:+ "[" +:+ rest
      /\ lacks "["%char pre /\ lacks "]"%char rest.
Proof.
  unfold re_search_array.
  destruct (from_open_bracket response) as [rest|] eqn:Hopen; simpl.
  - apply from_open_bracket_Some in Hopen as (pre & -> & Hpre).
    destruct (upto_last_close_bracket rest) as [body|] eqn:Hclose; simpl.
    + split; [done|]. intros [Hno|(pre' & rest' & Heq & Hpre' & Hrest')].
      * exfalso. clear -Hno. induction pre as [|c pre IH]; simpl in Hno.
        -- by destruct Hno.
        -- apply IH. by destruct Hno.
      * assert (Hrest : from_open_bracket (pre' +:+ "[" +:+ rest') = Some rest').
        { apply from_open_bracket_Some. by exists pre'. }
        rewrite <-Heq in Hrest.
        assert (Hrest0 : from_open_bracket (pre +:+ String "["%char rest)
                         = Some rest).
        { apply from_open_bracket_Some. by exists pre. }
        rewrite Hrest0 in Hrest. injection Hrest as ->.
        apply upto_last_close_bracket_None in Hrest'. congruence.
    + split; [|done]. intros _. right. exists pre, rest.
      split; [done|]. split; [done|]. by apply upto_last_close_bracket_None.
  - apply from_open_bracket_None in Hopen. split; [by left|done].
Qed.

(** X1: the text _parse_llm_response extracts with the regular
    expression \[.*\] (DOTALL) runs from the first opening bracket of the
    response to its last closing bracket.  There is a match exactly when
    a closing bracket follows the first opening bracket, and nothing
    before the first opening bracket or after the last closing bracket
    is part of it. *)
Theorem X1_llm_array_spans_first_to_last_bracket :
  forall response,
    (forall json_str,
        re_search_array response = Some json_str <->
        exists pre mid post,
          response = pre +:+ "[" +:+ mid +:+ "]" +:+ post
          /\ json_str = "[" +:+ mid +:+ "]"
          /\ lacks "["%char pre /\ lacks "]"%char post)
    /\ (re_search_array response = None <->
        lacks "["%char response
        \/ exists pre rest,
            response = pre +:+ "[" +:+ rest
            /\ lacks "["%char pre /\ lacks "]"%char rest).
Proof.
  intros response. split.
  - intros json_str. apply re_search_array_Some.
  - apply re_search_array_None.
Qed.

Lemma string_app_empty_r (s : string) : s +:+ EmptyString = s.
Proof. induction s as [|c s IH]; [done|]. exact (f_equal (String c) IH). Qed.

(** X2: text around the array does not matter to _parse_llm_response.
    A response made of a prefix without an opening bracket, an array
    text and a suffix without a closing bracket is parsed as the array
    text alone is: to what json.loads gives for the array text, or to
    the empty list when json.loads rejects it. *)
Theorem X2_parse_ignores_text_around_the_array :
  forall json_loads pre mid post,
    lacks "["%char pre -> lacks "]"%char post ->
    RerankService._parse_llm_response json_loads
      (pre +:+ "[" +:+ mid +:+ "]" +:+ post)
    = default (JList []) (json_loads ("[" +:+ mid +:+ "]"))
    /\ RerankService._parse_llm_response json_loads
         (pre +:+ "[" +:+ mid +:+ "]" +:+ post)
       = RerankService._parse_llm_response json_loads ("[" +:+ mid +:+ "]").
Proof.
  intros json_loads pre mid post Hpre Hpost.
  assert (H : forall pre' post',
             lacks "["%char pre' -> lacks "]"%char post' ->
             RerankService._parse_llm_response json_loads
               (pre' +:+ "[" +:+ mid +:+ "]" +:+ post')
             = default (JList []) (json_loads ("[" +:+ mid +:+ "]"))).
  { intros pre' post' Hpre' Hpost'. unfold RerankService._parse_llm_response.
    assert (re_search_array (pre' +:+ "[" +:+ mid +:+ "]" +:+ post')
            = Some ("[" +:+ mid +:+ "]")) as ->; [|done].
    apply re_search_array_Some. by exists pre', mid, post'. }
  split; [by apply H|].
  rewrite (H pre post Hpre Hpost).
  assert (H0 : RerankService._parse_llm_response json_loads ("[" +:+ mid +:+ "]")
               = default (JList []) (json_loads ("[" +:+ mid +:+ "]"))).
  { pose proof (H EmptyString EmptyString I I) as H0.
    rewrite string_app_empty_r in H0. exact H0. }
  by rewrite H0.
Qed.

(** ** Batches without scores, missing and stray identifiers *)

Lemma undecodable_reply_scores json_loads reply :
  undecodable json_loads reply ->
  RerankService.reply_scores json_loads reply = JList [].
Proof.
  destruct reply as [e|response]; simpl; [done|].
  unfold RerankService._parse_llm_response, decoded_text.
  by destruct (re_search_array _); intros ->.
Qed.

Lemma score_batch_empty float_of_str batch :
  RerankService.score_batch float_of_str (JList []) batch = inr (zero_scores batch).
Proof.
  unfold RerankService.score_batch. simpl.
  apply batch_results_inr, Forall2_fmap_r, Forall_Forall2_diag, Forall_forall.
  intros c _. exists PyFloat.zero. by rewrite lookup_empty.
Qed.

Lemma scored_in_output generate json_loads float_of_str query context candidates
    j batch results r :
  all_scorable generate json_loads float_of_str query context candidates ->
  batches candidates !! j = Some batch ->
  scored generate json_loads float_of_str query context j batch = inr results ->
  r ∈ results ->
  r ∈ (RerankService.rerank_candidates generate json_loads float_of_str query
         context candidates).1.
Proof.
  intros Hall Hj Hs Hr.
  destruct (rerank_candidates_scorable _ _ _ _ _ _ Hall)
    as (per_batch & -> & _ & Hper).
  destruct (Hper j batch Hj) as (results' & Hres & Hs').
  rewrite Hs in Hs'. injection Hs' as <-.
  cbn [fst]. rewrite sort_reverse_Permutation. apply elem_of_concat.
  exists results. split; [|done]. by eapply list_elem_of_lookup_2.
Qed.

Lemma score_map_fill_absent items score_map name :
  RerankService.build_score_map (JList items) = inr score_map ->
  Forall (fun item => py_getitem item "table_name" <> inr (JStr name)) items ->
  score_map !! name = None.
Proof.
  unfold RerankService.build_score_map. simpl. intros H Hitems.
  by rewrite (score_map_fill_other _ _ _ _ H Hitems), lookup_empty.
Qed.

Lemma for_each_inl {A B} (f : A -> result B) l x e :
  x ∈ l -> f x = inl e -> exists e', for_each f l = inl e'.
Proof.
  intros Hx Hf. destruct (for_each f l) as [e'|out] eqn:H; [by exists e'|].
  apply for_each_inr in H. apply list_elem_of_lookup in Hx as [i Hi].
  destruct (Forall2_lookup_l _ _ _ _ _ H Hi) as (y & _ & Hy). congruence.
Qed.

(** X3: when the LLM client raises for a batch, or json.loads rejects
    the text extracted from its reply, the batch is scored with the
    empty list: every candidate of the batch gets 0.0, the loop goes on,
    and, provided no reply makes the scoring raise, each candidate of
    that batch is in the output of rerank with score 0.0. *)
Theorem X3_undecodable_reply_scores_its_batch_zero :
  forall generate json_loads float_of_str query context candidates j batch,
    batches candidates !! j = Some batch ->
    undecodable json_loads
      (generate j (RerankService._build_prompt query context batch)) ->
    all_scorable generate json_loads float_of_str query context candidates ->
    scored generate json_loads float_of_str query context j batch
    = inr (zero_scores batch)
    /\ forall c,
        c ∈ batch ->
        RerankResult.mk (cand_table_name c) PyFloat.zero
        ∈ (RerankService.rerank_candidates generate json_loads float_of_str
             query context candidates).1.
Proof.
  intros generate json_loads float_of_str query context candidates j batch
    Hj Hun Hall.
  assert (Hs : scored generate json_loads float_of_str query context j batch
               = inr (zero_scores batch)).
  { unfold scored. rewrite (undecodable_reply_scores _ _ Hun).
    apply score_batch_empty. }
  split; [done|]. intros c Hc.
  eapply scored_in_output; [done..|].
  unfold zero_scores. apply list_elem_of_fmap. by exists c.
Qed.

(** X4: a candidate that the reply for its batch does not name gets the
    default score 0.0 and is still in the output (provided no reply
    makes the scoring raise). *)
Theorem X4_unnamed_candidate_scores_zero :
  forall generate json_loads float_of_str query context candidates j batch items c,
    all_scorable generate json_loads float_of_str query context candidates ->
    batches candidates !! j = Some batch ->
    c ∈ batch ->
    RerankService.reply_scores json_loads
      (generate j (RerankService._build_prompt query context batch))
    = JList items ->
    Forall (fun item =>
              py_getitem item "table_name" <> inr (JStr (cand_table_name c)))
      items ->
    RerankResult.mk (cand_table_name c) PyFloat.zero
    ∈ (RerankService.rerank_candidates generate json_loads float_of_str
         query context candidates).1.
Proof.
  intros generate json_loads float_of_str query context candidates j batch
    items c Hall Hj Hc Hreply Hitems.
  destruct (Hall j batch Hj) as [results Hs].
  eapply scored_in_output; [done..|].
  unfold scored, RerankService.score_batch in Hs. rewrite Hreply in Hs.
  apply bind_inr in Hs as (score_map & Hmap & Hres).
  apply batch_results_inr in Hres.
  apply list_elem_of_lookup in Hc as [i Hi].
  destruct (Forall2_lookup_l _ _ _ _ _ Hres Hi) as (r & Hr & x & Hx & ->).
  rewrite (score_map_fill_absent _ _ _ Hmap Hitems) in Hx. simpl in Hx.
  injection Hx as <-. by eapply list_elem_of_lookup_2.
Qed.

(** ** Entries that name no candidate *)

Lemma score_map_insert_agree (P : string -> Prop) m1 m2 item :
  (forall name, P name -> m1 !! name = m2 !! name) ->
  match RerankService.score_map_insert m1 item,
        RerankService.score_map_insert m2 item with
  | inl e1, inl e2 => e1 = e2
  | inr m1', inr m2' => forall name, P name -> m1' !! name = m2' !! name
  | _, _ => False
  end.
Proof.
  intros Hagree. unfold RerankService.score_map_insert.
  destruct (py_getitem item "table_name") as [e|key]; simpl; [done|].
  destruct (py_getitem item "score") as [e|value]; simpl; [done|].
  destruct key; try done.
  intros name HP. destruct (decide (s = name)) as [->|Hne].
  - by rewrite !lookup_insert_eq.
  - rewrite !lookup_insert_ne by done. by apply Hagree.
Qed.

Lemma score_map_fill_agree (P : string -> Prop) m1 m2 items :
  (forall name, P name -> m1 !! name = m2 !! name) ->
  match RerankService.score_map_fill m1 items,
        RerankService.score_map_fill m2 items with
  | inl e1, inl e2 => e1 = e2
  | inr m1', inr m2' => forall name, P name -> m1' !! name = m2' !! name
  | _, _ => False
  end.
Proof.
  revert m1 m2. induction items as [|item items IH]; intros m1 m2 Hagree; [done|].
  simpl. pose proof (score_map_insert_agree P m1 m2 item Hagree) as H.
  destruct (RerankService.score_map_insert m1 item) as [e1|m1'],
    (RerankService.score_map_insert m2 item) as [e2|m2']; simpl; try done.
  by apply IH.
Qed.

Lemma batch_results_agree float_of_str m1 m2 batch :
  (forall name, name ∈ cand_table_name <$> batch -> m1 !! name = m2 !! name) ->
  RerankService.batch_results float_of_str m1 batch
  = RerankService.batch_results float_of_str m2 batch.
Proof.
  unfold RerankService.batch_results.
  induction batch as [|c batch IH]; intros Hagree; [done|].
  simpl. rewrite (Hagree (cand_table_name c)) by (rewrite fmap_cons; left).
  rewrite IH; [done|]. intros name Hname. apply Hagree. rewrite fmap_cons. by right.
Qed.

Lemma score_map_insert_stray m item key value batch :
  py_getitem item "table_name" = inr key ->
  py_getitem item "score" = inr value ->
  names_no_candidate key batch ->
  exists m',
    RerankService.score_map_insert m item = inr m'
    /\ forall name, name ∈ cand_table_name <$> batch -> m' !! name = m !! name.
Proof.
  intros Hkey Hvalue Hstray. unfold RerankService.score_map_insert.
  rewrite Hkey, Hvalue. simpl. destruct key; try done; try by eexists.
  eexists. split; [done|]. intros name Hname. apply lookup_insert_ne.
  intros ->. by apply Hstray.
Qed.

(** X5: an entry of the reply whose name is not that of a candidate of
    the batch (an unknown table, or a name that is a number, a boolean
    or null) changes nothing: the batch gets the same results, or the
    scoring raises the same exception, as without the entry, whatever
    the score of the entry is. *)
Theorem X5_stray_entries_are_ignored :
  forall float_of_str items item rest key value batch,
    py_getitem item "table_name" = inr key ->
    py_getitem item "score" = inr value ->
    names_no_candidate key batch ->
    RerankService.score_batch float_of_str (JList (items ++ item :: rest)) batch
    = RerankService.score_batch float_of_str (JList (items ++ rest)) batch.
Proof.
  intros float_of_str items item rest key value batch Hkey Hvalue Hstray.
  unfold RerankService.score_batch, RerankService.build_score_map. simpl.
  rewrite !score_map_fill_app.
  destruct (RerankService.score_map_fill ∅ items) as [e|m]; simpl; [done|].
  destruct (score_map_insert_stray m item key value batch Hkey Hvalue Hstray)
    as (m' & -> & Hm'). simpl.
  pose proof (score_map_fill_agree (fun name => name ∈ cand_table_name <$> batch)
                m' m rest Hm') as H.
  destruct (RerankService.score_map_fill m' rest) as [e1|m1],
    (RerankService.score_map_fill m rest) as [e2|m2]; simpl; try done.
  - by rewrite H.
  - by apply batch_results_agree.
Qed.

Lemma score_map_fill_inl m items item :
  item ∈ items ->
  (forall m', exists e, RerankService.score_map_insert m' item = inl e) ->
  exists e, RerankService.score_map_fill m items = inl e.
Proof.
  intros Hin Hfail. revert m.
  induction Hin as [item items|item other items _ IH]; intros m; simpl.
  - destruct (Hfail m) as [e ->]. by exists e.
  - destruct (RerankService.score_map_insert m other) as [e|m']; simpl; [by exists e|].
    apply IH, Hfail.
Qed.

Lemma score_map_insert_ill_formed m item :
  ~ well_formed_entry item ->
  exists e, RerankService.score_map_insert m item = inl e.
Proof.
  intros Hill. unfold RerankService.score_map_insert.
  destruct (py_getitem item "table_name") as [e|key] eqn:Hkey; simpl; [by exists e|].
  destruct (py_getitem item "score") as [e|value] eqn:Hvalue; simpl; [by exists e|].
  destruct key; try (by eexists);
    exfalso; apply Hill; eexists _, _; by rewrite Hkey, Hvalue.
Qed.

(** X6: an entry of a reply that is not an object with the keys
    "table_name" and "score" (or whose name is a list or an object) ends
    the scoring: rerank returns every candidate with score 0.0, in the
    order of the candidates, those of the batches scored before
    included, and no prompt is sent for the batches after the first one
    that fails. *)
Theorem X6_ill_formed_entry_falls_back :
  forall generate json_loads float_of_str query context candidates
         j batch items item,
    batches candidates !! j = Some batch ->
    RerankService.reply_scores json_loads
      (generate j (RerankService._build_prompt query context batch))
    = JList items ->
    item ∈ items ->
    ~ well_formed_entry item ->
    exists n,
      (n <= j)%nat
      /\ RerankService.rerank_candidates generate json_loads float_of_str query
           context candidates
         = (zero_scores candidates,
            RerankService._build_prompt query context
              <$> take (S n) (batches candidates)).
Proof.
  intros generate json_loads float_of_str query context candidates
    j batch items item Hj Hreply Hin Hill.
  destruct (score_map_fill_inl ∅ items item Hin) as [e He].
  { intros m. by apply score_map_insert_ill_formed. }
  apply (rerank_candidates_any_failure _ _ _ _ _ _ j batch e Hj).
  unfold scored, RerankService.score_batch, RerankService.build_score_map.
  rewrite Hreply. simpl. by rewrite He.
Qed.

(** X7: a score that float() rejects (null, a list, a string that is
    no number), when it is the last score the reply gives to a candidate
    of the batch, ends the scoring in the same way: all candidates are
    returned with score 0.0 in input order and the later batches are not
    sent. *)
Theorem X7_unconvertible_score_falls_back :
  forall generate json_loads float_of_str query context candidates
         j batch items item rest name score e,
    batches candidates !! j = Some batch ->
    name ∈ cand_table_name <$> batch ->
    RerankService.reply_scores json_loads
      (generate j (RerankService._build_prompt query context batch))
    = JList (items ++ item :: rest) ->
    py_getitem item "table_name" = inr (JStr name) ->
    py_getitem item "score" = inr score ->
    Forall (fun later => py_getitem later "table_name" <> inr (JStr name)) rest ->
    RerankService.py_float float_of_str score = inl e ->
    exists n,
      (n <= j)%nat
      /\ RerankService.rerank_candidates generate json_loads float_of_str query
           context candidates
         = (zero_scores candidates,
            RerankService._build_prompt query context
              <$> take (S n) (batches candidates)).
Proof.
  intros generate json_loads float_of_str query context candidates
    j batch items item rest name score e Hj Hname Hreply Hitem Hscore Hrest He.
  destruct (scored generate json_loads float_of_str query context j batch)
    as [e'|results] eqn:Hs.
  { by eapply rerank_candidates_any_failure. }
  exfalso. unfold scored, RerankService.score_batch in Hs. rewrite Hreply in Hs.
  apply bind_inr in Hs as (score_map & Hmap & Hres).
  pose proof (score_map_last_wins _ _ _ _ _ _ Hmap Hitem Hscore Hrest) as Hlast.
  apply list_elem_of_fmap in Hname as (c & -> & Hc).
  unfold RerankService.batch_results in Hres.
  match type of Hres with
  | for_each ?f _ = _ => destruct (for_each_inl f batch c e Hc) as [e' He']
  end.
  - rewrite Hlast. simpl. by rewrite He.
  - by rewrite He' in Hres.
Qed.

(** ** [rerank] from the request to the results *)

Lemma rerank_candidates_calls generate json_loads float_of_str query context
    candidates :
  exists n,
    (RerankService.rerank_candidates generate json_loads float_of_str query
       context candidates).2
    = RerankService._build_prompt query context <$> take n (batches candidates).
Proof.
  unfold RerankService.rerank_candidates.
  destruct (RerankService.batch_loop _ _ _ _ _ _ _ _ _) as [outcome calls]
    eqn:Hloop.
  apply batch_loop_calls in Hloop as (n & -> & _). exists n.
  by destruct outcome.
Qed.

Lemma candidates_of_rows_names rows :
  cand_table_name <$> candidates_of_rows rows = row_table_name <$> rows.
Proof.
  induction rows as [|row rows' IH]; [done|].
  change (candidates_of_rows (row :: rows'))
    with ({| cand_table_name := row_table_name row;
             cand_description :=
               match row_table_description row with
               | Some d =>
                   if decide (d = EmptyString)
                   then "No description available" else d
               | None => "No description available"
               end |} :: candidates_of_rows rows').
  by rewrite !fmap_cons, IH.
Qed.

Lemma rerank_after_retrieval get_embedding fetch generate json_loads float_of_str
    query context top_n method initial rows :
  VectorSearch.search get_embedding fetch query top_n method = inr initial ->
  initial <> [] ->
  fetch (SelectDescriptions (map SearchResult.table_name initial)) = inr rows ->
  RerankService.rerank get_embedding fetch generate json_loads float_of_str
    query context top_n method
  = (inr (RerankService.rerank_candidates generate json_loads float_of_str
            query context (candidates_of_rows rows)).1,
     (RerankService.rerank_candidates generate json_loads float_of_str
        query context (candidates_of_rows rows)).2).
Proof.
  intros Hsearch Hne Hrows. unfold RerankService.rerank. rewrite Hsearch.
  destruct initial as [|r initial]; [done|]. rewrite Hrows.
  fold (candidates_of_rows rows).
  destruct (candidates_of_rows rows) as [|c candidates] eqn:Hc; [done|].
  by destruct (RerankService.rerank_candidates _ _ _ _ _ _).
Qed.

(** X8: once the vector search has returned results and the description
    query has returned rows, rerank returns, whatever the LLM client,
    json.loads and float() do.  It returns one result per description
    row: the identifiers are those of the rows, so a result of the
    vector search without a row in tables_metadata is dropped.  The
    prompts sent are those of the first batches of the candidates built
    from the rows. *)
Theorem X8_rerank_returns_one_result_per_description_row :
  forall get_embedding fetch generate json_loads float_of_str
         query context top_n method initial rows,
    VectorSearch.search get_embedding fetch query top_n method = inr initial ->
    initial <> [] ->
    fetch (SelectDescriptions (map SearchResult.table_name initial)) = inr rows ->
    exists results calls,
      RerankService.rerank get_embedding fetch generate json_loads float_of_str
        query context top_n method = (inr results, calls)
      /\ RerankResult.table_name <$> results ≡ₚ row_table_name <$> rows
      /\ length results = length rows
      /\ exists n,
          calls = RerankService._build_prompt query context
                    <$> take n (batches (candidates_of_rows rows)).
Proof.
  intros get_embedding fetch generate json_loads float_of_str
    query context top_n method initial rows Hsearch Hne Hrows.
  eexists _, _. split; [by eapply rerank_after_retrieval|].
  pose proof (rerank_candidates_names generate json_loads float_of_str query
                context (candidates_of_rows rows)) as Hnames.
  rewrite candidates_of_rows_names in Hnames. split; [done|]. split.
  - by rewrite <-(length_fmap RerankResult.table_name), Hnames, length_fmap.
  - apply rerank_candidates_calls.
Qed.

(** X9: rerank raises only what retrieval raised, that is the vector
    search, or the description query after a search with results; no
    prompt has been sent to the LLM then.  A failure of the LLM is never
    an exception of rerank. *)
Theorem X9_rerank_raises_only_what_retrieval_raises :
  forall get_embedding fetch generate json_loads float_of_str
         query context top_n method e calls,
    RerankService.rerank get_embedding fetch generate json_loads float_of_str
      query context top_n method = (inl e, calls) ->
    calls = []
    /\ (VectorSearch.search get_embedding fetch query top_n method = inl e
        \/ exists initial,
            VectorSearch.search get_embedding fetch query top_n method
            = inr initial
            /\ initial <> []
            /\ fetch (SelectDescriptions (map SearchResult.table_name initial))
               = inl e).
Proof.
  intros get_embedding fetch generate json_loads float_of_str
    query context top_n method e calls.
  unfold RerankService.rerank.
  destruct (VectorSearch.search _ _ _ _ _) as [e'|initial] eqn:Hsearch.
  { intros [= <- <-]. auto. }
  destruct initial as [|r initial]; [done|].
  destruct (fetch _) as [e'|rows] eqn:Hrows.
  { intros [= <- <-]. split; [done|]. right. by exists (r :: initial). }
  fold (candidates_of_rows rows).
  destruct (candidates_of_rows rows); [done|].
  by destruct (RerankService.rerank_candidates _ _ _ _ _ _).
Qed.

Lemma zero_scores_sorted candidates :
  StronglySorted (descending RerankResult.score) (zero_scores candidates).
Proof.
  unfold zero_scores. induction candidates as [|c candidates IH]; [constructor|].
  rewrite fmap_cons. constructor; [done|].
  apply Forall_fmap, Forall_forall. by intros c' _.
Qed.

(** X10: the list rerank builds from its candidates is in descending
    order of score, provided none of its scores is a NaN (json.loads
    accepts the literal NaN). *)
Theorem X10_rerank_results_are_sorted :
  forall generate json_loads float_of_str query context candidates,
    Forall (fun r => PyFloat.is_nan (RerankResult.score r) = false)
      (RerankService.rerank_candidates generate json_loads float_of_str query
         context candidates).1 ->
    StronglySorted (descending RerankResult.score)
      (RerankService.rerank_candidates generate json_loads float_of_str query
         context candidates).1.
Proof.
  intros generate json_loads float_of_str query context candidates.
  unfold RerankService.rerank_candidates.
  destruct (RerankService.batch_loop _ _ _ _ _ _ _ _ _) as [[e|results] calls];
    cbn [fst].
  - intros _. apply zero_scores_sorted.
  - intros Hnan. apply sort_reverse_sorted.
    by rewrite sort_reverse_Permutation in Hnan.
Qed.

(** ** Equal scores *)


Section Stable.
Context {A : Type} (key : A -> float) (x : float).



End Stable.


(** ** The statements above, on examples *)

Lemma X2_witness :
  RerankService._parse_llm_response loads_array_of_one "Scores: [1] as asked"
  = default (JList []) (loads_array_of_one "[1]")
  /\ RerankService._parse_llm_response loads_array_of_one "Scores: [1] as asked"
     = RerankService._parse_llm_response loads_array_of_one "[1]".
Proof.
  apply (X2_parse_ignores_text_around_the_array loads_array_of_one
           "Scores: " "1" " as asked").
  - vm_compute. repeat split; discriminate.
  - vm_compute. repeat split; discriminate.
Defined.

Lemma two_candidates_scorable generate json_loads float_of_str results :
  scored generate json_loads float_of_str "q" "c" 0 two_candidates = inr results ->
  all_scorable generate json_loads float_of_str "q" "c" two_candidates.
Proof.
  intros Hs [|j] batch Hj; [|done]. injection Hj as <-. by exists results.
Qed.

Lemma X3_witness :
  scored prose_llm no_json no_float "q" "c" 0 two_candidates
  = inr (zero_scores two_candidates)
  /\ forall c,
      c ∈ two_candidates ->
      RerankResult.mk (cand_table_name c) PyFloat.zero
      ∈ (RerankService.rerank_candidates prose_llm no_json no_float "q" "c"
           two_candidates).1.
Proof.
  apply (X3_undecodable_reply_scores_its_batch_zero prose_llm no_json no_float
           "q" "c" two_candidates 0 two_candidates).
  - reflexivity.
  - reflexivity.
  - apply (two_candidates_scorable _ _ _ (zero_scores two_candidates)).
    vm_compute. reflexivity.
Defined.

Lemma X4_witness :
  RerankResult.mk "b" PyFloat.zero
  ∈ (RerankService.rerank_candidates partial_llm loads_only_a no_float "q" "c"
       two_candidates).1.
Proof.
  apply (X4_unnamed_candidate_scores_zero partial_llm loads_only_a no_float
           "q" "c" two_candidates 0 two_candidates
           [score_entry "a" (PyFloat.literal 9 1)]
           {| cand_table_name := "b"; cand_description := "second" |}).
  - apply (two_candidates_scorable _ _ _
             [RerankResult.mk "a" (PyFloat.literal 9 1);
              RerankResult.mk "b" PyFloat.zero]).
    vm_compute. reflexivity.
  - reflexivity.
  - unfold two_candidates. set_solver.
  - reflexivity.
  - repeat constructor. discriminate.
Defined.

Lemma X5_witness :
  RerankService.score_batch no_float
    (JList [score_entry "a" (PyFloat.literal 9 1);
            JDict [("table_name", JStr "zzz"); ("score", JNull)]])
    two_candidates
  = RerankService.score_batch no_float
      (JList [score_entry "a" (PyFloat.literal 9 1)]) two_candidates.
Proof.
  apply (X5_stray_entries_are_ignored no_float
           [score_entry "a" (PyFloat.literal 9 1)]
           (JDict [("table_name", JStr "zzz"); ("score", JNull)]) []
           (JStr "zzz") JNull two_candidates).
  - reflexivity.
  - reflexivity.
  - unfold names_no_candidate, two_candidates. rewrite !fmap_cons, fmap_nil.
    cbn [cand_table_name]. rewrite !elem_of_cons, elem_of_nil.
    intros [H|[H|[]]]; discriminate H.
Defined.

Lemma X6_witness :
  exists n,
    (n <= 0)%nat
    /\ RerankService.rerank_candidates malformed_llm loads_array_of_one no_float
         "q" "c" two_candidates
       = (zero_scores two_candidates,
          RerankService._build_prompt "q" "c"
            <$> take (S n) (batches two_candidates)).
Proof.
  apply (X6_ill_formed_entry_falls_back malformed_llm loads_array_of_one no_float
           "q" "c" two_candidates 0 two_candidates [JInt 1] (JInt 1)).
  - reflexivity.
  - reflexivity.
  - left.
  - intros (key & value & H & _). discriminate H.
Defined.

Lemma X7_witness :
  exists n,
    (n <= 0)%nat
    /\ RerankService.rerank_candidates null_score_llm loads_null_score no_float
         "q" "c" two_candidates
       = (zero_scores two_candidates,
          RerankService._build_prompt "q" "c"
            <$> take (S n) (batches two_candidates)).
Proof.
  apply (X7_unconvertible_score_falls_back null_score_llm loads_null_score
           no_float "q" "c" two_candidates 0 two_candidates
           [] null_score_entry [] "a" JNull TypeError).
  - reflexivity.
  - unfold two_candidates. rewrite !fmap_cons. left.
  - reflexivity.
  - reflexivity.
  - reflexivity.
  - constructor.
  - reflexivity.
Defined.

Lemma X8_witness :
  exists results calls,
    RerankService.rerank ex_embedding ex_database failing_llm no_json no_float
      "q" "c" 10 "cosine" = (inr results, calls)
    /\ RerankResult.table_name <$> results
       ≡ₚ row_table_name
            <$> [ {| row_table_name := "a"; row_number := PyFloat.zero;
                     row_table_description := Some "first" |};
                  {| row_table_name := "b"; row_number := PyFloat.zero;
                     row_table_description := None |} ]
    /\ length results = 2%nat
    /\ exists n,
        calls = RerankService._build_prompt "q" "c"
                  <$> take n
                        (batches
                           (candidates_of_rows
                              [ {| row_table_name := "a";
                                   row_number := PyFloat.zero;
                                   row_table_description := Some "first" |};
                                {| row_table_name := "b";
                                   row_number := PyFloat.zero;
                                   row_table_description := None |} ])).
Proof.
  apply (X8_rerank_returns_one_result_per_description_row ex_embedding
           ex_database failing_llm no_json no_float "q" "c" 10 "cosine"
           [SearchResult.mk "a" (PyFloat.literal 8 1);
            SearchResult.mk "b" (PyFloat.literal 7 1)]).
  - vm_compute. reflexivity.
  - discriminate.
  - reflexivity.
Defined.

Lemma X9_witness :
  @nil string = []
  /\ (VectorSearch.search failing_embedding ex_database "q" 10 "cosine"
      = inl (CollaboratorError "embedding")
      \/ exists initial,
          VectorSearch.search failing_embedding ex_database "q" 10 "cosine"
          = inr initial
          /\ initial <> []
          /\ ex_database (SelectDescriptions (map SearchResult.table_name initial))
             = inl (CollaboratorError "embedding")).
Proof.
  apply (X9_rerank_raises_only_what_retrieval_raises failing_embedding
           ex_database failing_llm no_json no_float "q" "c" 10 "cosine"
           (CollaboratorError "embedding") []).
  reflexivity.
Defined.

Lemma X10_witness :
  StronglySorted (descending RerankResult.score)
    (RerankService.rerank_candidates duplicate_llm loads_duplicate no_float
       "q" "c" two_candidates).1.
Proof.
  apply (X10_rerank_results_are_sorted duplicate_llm loads_duplicate no_float
           "q" "c" two_candidates).
  vm_compute. repeat constructor.
Defined.


(** ** Integers between [-2^53] and [2^53] convert exactly *)

Lemma binary_round_small s p :
  Z.pos p < 2 ^ 53 ->
  exists m e, binary_round PyFloat.prec PyFloat.emax s p 0 = S754_finite s m e.
Proof.
  intros Hlt. unfold binary_round.
  pose proof (digits2_pos_lower p) as Hd.
  assert (Hd53 : Z.pos (digits2_pos p) <= 53).
  { destruct (decide (Z.pos (digits2_pos p) <= 53)) as [|Hn]; [done|].
    assert (2 ^ 53 <= 2 ^ (Z.pos (digits2_pos p) - 1))
      by (apply Z.pow_le_mono_r; lia). lia. }
  assert (Hf : fexp PyFloat.prec PyFloat.emax (Z.pos (digits2_pos p) + 0)
               = Z.pos (digits2_pos p) - 53).
  { unfold fexp, emin, PyFloat.prec, PyFloat.emax. lia. }
  rewrite Hf. unfold shl_align.
  destruct (Z.pos (digits2_pos p) - 53 - 0) as [|k|k] eqn:Hk; try lia.
  - eexists _, _. apply binary_round_aux_canonical.
    + unfold fexp, emin, PyFloat.prec, PyFloat.emax. lia.
    + unfold PyFloat.prec, PyFloat.emax. lia.
  - eexists _, _. apply binary_round_aux_canonical.
    + rewrite digits2_pos_shift.
      unfold fexp, emin, PyFloat.prec, PyFloat.emax. lia.
    + unfold PyFloat.prec, PyFloat.emax. lia.
Qed.

Lemma of_Z_small_nonzero z :
  z <> 0 -> - 2 ^ 53 < z < 2 ^ 53 ->
  exists s m e, PyFloat.of_Z z = S754_finite s m e.
Proof.
  intros Hz Hlt. destruct z as [|p|p]; [done| |].
  - exists false. apply binary_round_small. lia.
  - exists true. apply binary_round_small. lia.
Qed.

Lemma float_truediv_int_nonzero x n :
  n <> 0 -> - 2 ^ 53 < n < 2 ^ 53 ->
  float_truediv_int x n = inr (PyFloat.div x (PyFloat.of_Z n)).
Proof.
  intros Hn Hlt. destruct (of_Z_small_nonzero n Hn Hlt) as (s & m & e & Hm).
  unfold float_truediv_int, float_of_int. by rewrite Hm.
Qed.

Lemma float_truediv_int_zero x : float_truediv_int x 0 = inl ZeroDivisionError.
Proof. reflexivity. Qed.

Lemma float_truediv_int_inl x n e :
  - 2 ^ 53 < n < 2 ^ 53 -> float_truediv_int x n = inl e ->
  n = 0 /\ e = ZeroDivisionError.
Proof.
  intros Hlt H. destruct (decide (n = 0)) as [->|Hn].
  - rewrite float_truediv_int_zero in H. by injection H as <-.
  - by rewrite float_truediv_int_nonzero in H.
Qed.

(** ** Rank maps, entry by entry *)

Lemma rank_map_snoc results r :
  rank_map (results ++ [r])
  = <[ranked_table_name r := ranked_rank r]> (rank_map results).
Proof. unfold rank_map. by rewrite foldl_app. Qed.

Lemma rank_map_lookup results name :
  rank_map results !! name = ranked_rank <$> last (entries_of name results).
Proof.
  unfold entries_of.
  induction results as [|r results IH] using rev_ind; [done|].
  rewrite rank_map_snoc, filter_app, filter_cons, filter_nil.
  destruct (decide (ranked_table_name r = name)) as [<-|Hne].
  - by rewrite lookup_insert_eq, last_snoc.
  - rewrite lookup_insert_ne by done. by rewrite app_nil_r.
Qed.

Lemma rank_map_small k results name r :
  small_ranks k results -> rank_map results !! name = Some r ->
  - 2 ^ 53 < k + r < 2 ^ 53.
Proof.
  intros Hs Hr.
  apply (rank_map_foldl_Forall (fun r => - 2 ^ 53 < k + r < 2 ^ 53) results ∅
           (map_Forall_empty _) Hs name r Hr).
Qed.

Lemma for_each_inl_inv {A B} (f : A -> result B) l e :
  for_each f l = inl e -> exists x, x ∈ l /\ f x = inl e.
Proof.
  induction l as [|x l IH]; simpl; [done|].
  destruct (f x) as [e'|y] eqn:Hx; simpl.
  - intros [= <-]. exists x. split; [left|done].
  - destruct (for_each f l) as [e'|ys]; simpl; [|done].
    intros [= <-]. destruct IH as (x' & Hin & Hx'); [done|].
    exists x'. split; [by right|done].
Qed.

(** ** When the fusion divides by zero *)

Section Division.
Variable set_iter : gset string -> list string.
Variables vector_results tags_results : list ranked.
Variable k : Z.
Variables vector_weight tags_weight : float.
Hypothesis set_iter_ok : set_iteration set_iter.
Hypothesis vector_small : small_ranks k vector_results.
Hypothesis tags_small : small_ranks k tags_results.

Local Abbreviation vector_ranks := (rank_map vector_results).
Local Abbreviation tags_ranks := (rank_map tags_results).

Lemma fuse_one_inl name e :
  HybridSearchService.fuse_one vector_ranks tags_ranks k
    vector_weight tags_weight name = inl e ->
  e = ZeroDivisionError
  /\ exists r,
      (vector_ranks !! name = Some r \/ tags_ranks !! name = Some r)
      /\ k + r = 0.
Proof.
  unfold HybridSearchService.fuse_one.
  destruct (vector_ranks !! name) as [rv|] eqn:Hv; simpl.
  - destruct (float_truediv_int vector_weight (k + rv)) as [e'|qv] eqn:Hqv; simpl.
    + intros [= <-].
      apply float_truediv_int_inl in Hqv as [Hz ->];
        [|exact (rank_map_small _ _ _ _ vector_small Hv)]. eauto.
    + destruct (tags_ranks !! name) as [rt|] eqn:Ht; simpl; [|done].
      destruct (float_truediv_int tags_weight (k + rt)) as [e'|qt] eqn:Hqt;
        simpl; [|done].
      intros [= <-].
      apply float_truediv_int_inl in Hqt as [Hz ->];
        [|exact (rank_map_small _ _ _ _ tags_small Ht)]. eauto.
  - destruct (tags_ranks !! name) as [rt|] eqn:Ht; simpl; [|done].
    destruct (float_truediv_int tags_weight (k + rt)) as [e'|qt] eqn:Hqt;
      simpl; [|done].
    intros [= <-].
    apply float_truediv_int_inl in Hqt as [Hz ->];
      [|exact (rank_map_small _ _ _ _ tags_small Ht)]. eauto.
Qed.

Lemma fuse_one_zero_denominator name r :
  vector_ranks !! name = Some r \/ tags_ranks !! name = Some r ->
  k + r = 0 ->
  HybridSearchService.fuse_one vector_ranks tags_ranks k
    vector_weight tags_weight name = inl ZeroDivisionError.
Proof.
  intros Hr Hz.
  destruct (HybridSearchService.fuse_one vector_ranks tags_ranks k
              vector_weight tags_weight name) as [e|res] eqn:Hf.
  { by apply fuse_one_inl in Hf as [-> _]. }
  exfalso. unfold HybridSearchService.fuse_one in Hf.
  destruct Hr as [Hr|Hr].
  - rewrite Hr, Hz in Hf. by rewrite float_truediv_int_zero in Hf.
  - rewrite Hr, Hz in Hf.
    destruct (vector_ranks !! name) as [rv|]; simpl in Hf; [|done].
    by destruct (float_truediv_int vector_weight (k + rv)).
Qed.

Lemma calculate_rrf_inl e :
  HybridSearchService.calculate_rrf set_iter vector_results tags_results k
    vector_weight tags_weight = inl e ->
  e = ZeroDivisionError
  /\ exists name r,
      (vector_ranks !! name = Some r \/ tags_ranks !! name = Some r)
      /\ k + r = 0.
Proof.
  unfold HybridSearchService.calculate_rrf.
  destruct (for_each _ _) as [e'|rrf_scores] eqn:Hloop; simpl; [|done].
  intros [= <-]. apply for_each_inl_inv in Hloop as (name & _ & Hf).
  apply fuse_one_inl in Hf as [-> (r & Hr & Hz)]. eauto.
Qed.

Lemma calculate_rrf_zero_denominator name r :
  vector_ranks !! name = Some r \/ tags_ranks !! name = Some r ->
  k + r = 0 ->
  HybridSearchService.calculate_rrf set_iter vector_results tags_results k
    vector_weight tags_weight = inl ZeroDivisionError.
Proof.
  intros Hr Hz.
  assert (Hin : name ∈ set_iter (dom vector_ranks ∪ dom tags_ranks)).
  { apply set_iter_ok. apply elem_of_union.
    destruct Hr as [Hr|Hr]; [left|right]; by apply elem_of_dom. }
  destruct (HybridSearchService.calculate_rrf set_iter vector_results
              tags_results k vector_weight tags_weight) as [e|out] eqn:Hc.
  { by apply calculate_rrf_inl in Hc as [-> _]. }
  exfalso. unfold HybridSearchService.calculate_rrf in Hc.
  apply bind_inr in Hc as (rrf_scores & Hloop & _).
  destruct (for_each_inl _ _ name ZeroDivisionError Hin
              (fuse_one_zero_denominator name r Hr Hz)) as [e He].
  congruence.
Qed.

End Division.

(** X11: calculate_rrf divides by k + rank unguarded.  When every
    k + rank lies between -2^53 and 2^53, it raises ZeroDivisionError as
    soon as one ranked identifier has k + rank = 0 (k = -1 and rank 1,
    say), and it returns a list otherwise.  The request model demands
    rrf_k >= 1; the service does not. *)
Theorem X11_calculate_rrf_raises_on_zero_denominator :
  forall set_iter vector_results tags_results k vector_weight tags_weight,
    set_iteration set_iter ->
    small_ranks k vector_results ->
    small_ranks k tags_results ->
    ((exists name r,
         (rank_map vector_results !! name = Some r
          \/ rank_map tags_results !! name = Some r)
         /\ k + r = 0)
     -> HybridSearchService.calculate_rrf set_iter vector_results tags_results k
          vector_weight tags_weight = inl ZeroDivisionError)
    /\ (~ (exists name r,
             (rank_map vector_results !! name = Some r
              \/ rank_map tags_results !! name = Some r)
             /\ k + r = 0)
        -> exists out,
            HybridSearchService.calculate_rrf set_iter vector_results
              tags_results k vector_weight tags_weight = inr out).
Proof.
  intros set_iter vector_results tags_results k wv wt Hset Hv Ht. split.
  - intros (name & r & Hr & Hz). by eapply calculate_rrf_zero_denominator.
  - intros Hnone.
    destruct (HybridSearchService.calculate_rrf set_iter vector_results
                tags_results k wv wt) as [e|out] eqn:Hc; [|by exists out].
    exfalso. apply Hnone.
    by apply calculate_rrf_inl in Hc as [_ ?].
Qed.

(** X12: when a source lists an identifier more than once, the fusion
    uses the rank of its last entry: the dict comprehension that builds
    the rank map keeps the last value of a repeated key. *)
Theorem X12_fusion_uses_the_last_rank_of_a_name :
  forall set_iter vector_results tags_results k vector_weight tags_weight out r,
    HybridSearchService.calculate_rrf set_iter vector_results tags_results k
      vector_weight tags_weight = inr out ->
    r ∈ out ->
    HybridSearchResult.vector_rank r
    = ranked_rank
        <$> last (entries_of (HybridSearchResult.table_name r) vector_results)
    /\ HybridSearchResult.tags_rank r
       = ranked_rank
           <$> last (entries_of (HybridSearchResult.table_name r) tags_results).
Proof.
  intros set_iter vector_results tags_results k wv wt out r Hc Hr.
  pose proof (calculate_rrf_fused _ _ _ _ _ _ _ _ Hc Hr) as Hf.
  rewrite Hf. cbn [HybridSearchResult.vector_rank HybridSearchResult.tags_rank
                   HybridSearchResult.table_name].
  by rewrite !rank_map_lookup.
Qed.

(** ** The sources rank their rows by position *)

Lemma imap_ranked_names (score : row -> option float) (rows : list row) :
  ranked_table_name
    <$> imap (fun idx row =>
                {| ranked_table_name := row_table_name row;
                   ranked_rank := Z.of_nat idx + 1;
                   ranked_bm25_score := score row |}) rows
  = row_table_name <$> rows.
Proof. rewrite fmap_imap. by rewrite <-(imap_const row_table_name). Qed.

Lemma imap_source_names (score : row -> option float) (rows : list row) :
  source_names
    (imap (fun idx row =>
             {| ranked_table_name := row_table_name row;
                ranked_rank := Z.of_nat idx + 1;
                ranked_bm25_score := score row |}) rows)
  = row_names rows.
Proof. unfold source_names, row_names. by rewrite imap_ranked_names. Qed.

Lemma imap_valid_ranks (score : row -> option float) k (rows : list row) :
  0 <= k -> k + Z.of_nat (length rows) < 2 ^ 53 ->
  valid_ranks k
    (imap (fun idx row =>
             {| ranked_table_name := row_table_name row;
                ranked_rank := Z.of_nat idx + 1;
                ranked_bm25_score := score row |}) rows).
Proof.
  intros Hk Hlen. apply Forall_forall. intros r Hr.
  apply elem_of_lookup_imap in Hr as (idx & row & -> & Hidx).
  apply lookup_lt_Some in Hidx. simpl. lia.
Qed.

Lemma imap_rank_map_ext (score1 score2 : row -> option float)
    (rows1 rows2 : list row) :
  row_table_name <$> rows1 = row_table_name <$> rows2 ->
  rank_map
    (imap (fun idx row =>
             {| ranked_table_name := row_table_name row;
                ranked_rank := Z.of_nat idx + 1;
                ranked_bm25_score := score1 row |}) rows1)
  = rank_map
      (imap (fun idx row =>
               {| ranked_table_name := row_table_name row;
                  ranked_rank := Z.of_nat idx + 1;
                  ranked_bm25_score := score2 row |}) rows2).
Proof.
  intros Hnames.
  assert (Hgen : forall (score : row -> option float) (rows : list row),
             rank_map
               (imap (fun idx row =>
                        {| ranked_table_name := row_table_name row;
                           ranked_rank := Z.of_nat idx + 1;
                           ranked_bm25_score := score row |}) rows)
             = foldl (fun m ir => <[ir.2 := Z.of_nat ir.1 + 1]> m) ∅
                 (imap (fun idx name => (idx, name)) (row_table_name <$> rows))).
  { intros score rows. unfold rank_map. rewrite imap_fmap.
    generalize (∅ : gmap string Z).
    induction rows as [|row rows IH] using rev_ind; intros m; [done|].
    by rewrite !imap_app, !foldl_app, IH. }
  by rewrite !Hgen, Hnames.
Qed.

(** ** [search]: the top of the fusion *)

Lemma fusion_top_n set_iter vector_results tags_results k wv wt top_n :
  set_iteration set_iter ->
  0 <= k -> valid_ranks k vector_results -> valid_ranks k tags_results ->
  nonneg wv -> nonneg wt -> 0 <= top_n ->
  exists full,
    HybridSearchService.calculate_rrf set_iter vector_results tags_results k
      wv wt = inr full
    /\ top_of_fusion top_n
         (source_names vector_results ∪ source_names tags_results)
         (slice_to full top_n).
Proof.
  intros Hset Hk Hv Ht Hwv Hwt Htop.
  destruct (calculate_rrf_returns set_iter vector_results tags_results k wv wt
              Hk Hv Ht) as [full Hfull].
  exists full. split; [done|].
  destruct (calculate_rrf_complete _ _ _ _ _ _ _ Hset Hfull)
    as (Hlen & Hnd & Hnames).
  destruct (calculate_rrf_sorted _ _ _ _ _ _ _ Hk Hv Ht Hwv Hwt Hfull)
    as [_ Hsorted].
  unfold top_of_fusion, slice_to.
  destruct (Z.leb_spec 0 top_n) as [_|?]; [|lia].
  split; [by rewrite length_take, Hlen|]. split; [|split].
  - rewrite fmap_take. eapply sublist_NoDup; [exact Hnd|apply sublist_take].
  - apply Forall_forall. intros r Hr.
    apply elem_of_union, Hnames, list_elem_of_fmap_2.
    eapply elem_of_sublist; [exact Hr|apply sublist_take].
  - apply (StronglySorted_app_1_l _ _ (drop (Z.to_nat top_n) full)).
    by rewrite take_drop.
Qed.

(** X13: search of HybridSearchService, when its two embedding calls and
    the two statements, each asking for max(100, 10 * top_n) rows, return.
    For rrf_k >= 0, top_n >= 0 and weights that are not negative it
    returns min(top_n, number of distinct identifiers) results, each
    identifier at most once, all of them from the rows of the two
    sources, in descending order of RRF score. *)
Theorem X13_hybrid_search_returns_the_top_of_the_fusion :
  forall get_embedding get_tags_embedding fetch set_iter vector_first
         query top_n method vector_weight tags_weight rrf_k
         query_embedding tags_query_embedding vector_rows tags_rows,
    set_iteration set_iter ->
    0 <= rrf_k -> 0 <= top_n ->
    nonneg vector_weight -> nonneg tags_weight ->
    get_embedding query = inr query_embedding ->
    get_tags_embedding query = inr tags_query_embedding ->
    fetch (SelectByDistance "description_embedding"
             (default "<=>" (OPERATORS !! method)) query_embedding
             (Z.max 100 (top_n * 10))) = inr vector_rows ->
    fetch (SelectByDistance "tags_embedding" "<=>" tags_query_embedding
             (Z.max 100 (top_n * 10))) = inr tags_rows ->
    rrf_k + Z.of_nat (length vector_rows) < 2 ^ 53 ->
    rrf_k + Z.of_nat (length tags_rows) < 2 ^ 53 ->
    exists out,
      HybridSearchService.search get_embedding get_tags_embedding fetch
        set_iter vector_first query top_n method vector_weight tags_weight
        rrf_k = inr out
      /\ top_of_fusion top_n (row_names vector_rows ∪ row_names tags_rows) out.
Proof.
  intros get_embedding get_tags_embedding fetch set_iter vector_first query
    top_n method wv wt k e et vrows trows Hset Hk Htop Hwv Hwt He Het
    Hvrows Htrows Hvlen Htlen.
  destruct (fusion_top_n set_iter _ _ k wv wt top_n Hset Hk
              (imap_valid_ranks (fun _ => None) k vrows Hk Hvlen)
              (imap_valid_ranks (fun _ => None) k trows Hk Htlen)
              Hwv Hwt Htop) as (full & Hfull & Hout).
  rewrite !imap_source_names in Hout.
  exists (slice_to full top_n). split; [|done].
  unfold HybridSearchService.search, HybridSearchService.vector_search,
    HybridSearchService.tags_search.
  rewrite He, Het. simpl. rewrite Hvrows, Htrows. simpl. by rewrite Hfull.
Qed.

(** X14: search of HybridSearchBM25Service, when the embedding call, the
    vector statement and the BM25 statement, each asking for
    max(100, 10 * top_n) rows, return.  For rrf_k >= 0, top_n >= 0 and
    weights that are not negative it returns min(top_n, number of
    distinct identifiers) results, each identifier at most once, all of
    them from the rows of the two sources, in descending order of RRF
    score. *)
Theorem X14_hybrid_bm25_search_returns_the_top_of_the_fusion :
  forall get_embedding fetch set_iter vector_first query top_n method
         vector_weight bm25_weight rrf_k query_embedding vector_rows bm25_rows,
    set_iteration set_iter ->
    0 <= rrf_k -> 0 <= top_n ->
    nonneg vector_weight -> nonneg bm25_weight ->
    get_embedding query = inr query_embedding ->
    fetch (SelectByDistance "description_embedding"
             (default "<=>" (OPERATORS !! method)) query_embedding
             (Z.max 100 (top_n * 10))) = inr vector_rows ->
    fetch (SelectBM25 query (Z.max 100 (top_n * 10))) = inr bm25_rows ->
    rrf_k + Z.of_nat (length vector_rows) < 2 ^ 53 ->
    rrf_k + Z.of_nat (length bm25_rows) < 2 ^ 53 ->
    exists out,
      HybridSearchBM25Service.search get_embedding fetch set_iter vector_first
        query top_n method vector_weight bm25_weight rrf_k = inr out
      /\ top_of_fusion top_n (row_names vector_rows ∪ row_names bm25_rows) out.
Proof.
  intros get_embedding fetch set_iter vector_first query top_n method wv wb k
    e vrows brows Hset Hk Htop Hwv Hwb He Hvrows Hbrows Hvlen Hblen.
  destruct (fusion_top_n set_iter _ _ k wv wb top_n Hset Hk
              (imap_valid_ranks (fun _ => None) k vrows Hk Hvlen)
              (imap_valid_ranks (fun row => Some (row_number row)) k brows
                 Hk Hblen)
              Hwv Hwb Htop) as (full & Hfull & Hout).
  rewrite !imap_source_names in Hout.
  exists (slice_to full top_n). split; [|done].
  unfold HybridSearchBM25Service.search, HybridSearchBM25Service.vector_search,
    HybridSearchBM25Service.bm25_search.
  rewrite He. simpl. rewrite Hvrows, Hbrows. simpl.
  rewrite bm25_calculate_rrf_eq. by rewrite Hfull.
Qed.

(** X15: the number bm25_search stores as "bm25_score" plays no part in
    the result.  Two databases that answer the vector statement alike,
    and whose BM25 statement returns the same identifiers in the same
    order, give the same search result, whatever the rank_score values
    are. *)
Theorem X15_bm25_scores_do_not_reach_the_fusion :
  forall get_embedding fetch1 fetch2 set_iter vector_first query top_n method
         vector_weight bm25_weight rrf_k bm25_rows1 bm25_rows2,
    (forall query_embedding,
        fetch1 (SelectByDistance "description_embedding"
                  (default "<=>" (OPERATORS !! method)) query_embedding
                  (Z.max 100 (top_n * 10)))
        = fetch2 (SelectByDistance "description_embedding"
                    (default "<=>" (OPERATORS !! method)) query_embedding
                    (Z.max 100 (top_n * 10)))) ->
    fetch1 (SelectBM25 query (Z.max 100 (top_n * 10))) = inr bm25_rows1 ->
    fetch2 (SelectBM25 query (Z.max 100 (top_n * 10))) = inr bm25_rows2 ->
    row_table_name <$> bm25_rows1 = row_table_name <$> bm25_rows2 ->
    HybridSearchBM25Service.search get_embedding fetch1 set_iter vector_first
      query top_n method vector_weight bm25_weight rrf_k
    = HybridSearchBM25Service.search get_embedding fetch2 set_iter vector_first
        query top_n method vector_weight bm25_weight rrf_k.
Proof.
  intros get_embedding fetch1 fetch2 set_iter vector_first query top_n method
    wv wb k rows1 rows2 Hvector Hrows1 Hrows2 Hnames.
  unfold HybridSearchBM25Service.search, HybridSearchBM25Service.vector_search,
    HybridSearchBM25Service.bm25_search.
  rewrite Hrows1, Hrows2.
  destruct (get_embedding query) as [e|query_embedding]; simpl; [done|].
  rewrite Hvector.
  destruct (fetch2 (SelectByDistance _ _ _ _)) as [e|vrows]; simpl; [done|].
  unfold HybridSearchBM25Service.calculate_rrf.
  by rewrite (imap_rank_map_ext (fun row => Some (row_number row))
                (fun row => Some (row_number row)) rows1 rows2 Hnames).
Qed.

(** ** The statements above, on examples *)

Lemma X11_witness :
  HybridSearchService.calculate_rrf elements ex_vector_results
    ex_keyword_results (-1) half half = inl ZeroDivisionError.
Proof.
  apply (X11_calculate_rrf_raises_on_zero_denominator elements
           ex_vector_results ex_keyword_results (-1) half half).
  - apply set_iteration_elements.
  - repeat constructor; simpl; lia.
  - repeat constructor; simpl; lia.
  - exists "t1", 1. split; [|done]. left. reflexivity.
Defined.

Lemma X12_witness :
  Some 3 = ranked_rank <$> last (entries_of "t" ex_repeated_results)
  /\ None = ranked_rank <$> last (entries_of "t" []).
Proof.
  apply (X12_fusion_uses_the_last_rank_of_a_name elements ex_repeated_results []
           60 half half
           [HybridSearchResult.mk "u"
              (PyFloat.add PyFloat.zero (PyFloat.div half (PyFloat.of_Z 62)))
              (Some 2) None;
            HybridSearchResult.mk "t"
              (PyFloat.add PyFloat.zero (PyFloat.div half (PyFloat.of_Z 63)))
              (Some 3) None]
           (HybridSearchResult.mk "t"
              (PyFloat.add PyFloat.zero (PyFloat.div half (PyFloat.of_Z 63)))
              (Some 3) None)).
  - vm_compute. reflexivity.
  - right. left.
Defined.

Lemma X13_witness :
  exists out,
    HybridSearchService.search ex_embedding ex_embedding (ex_fetch ex_rows)
      elements true "q" 10 "cosine" half half 60 = inr out
    /\ top_of_fusion 10 (row_names ex_rows ∪ row_names ex_rows) out.
Proof.
  apply (X13_hybrid_search_returns_the_top_of_the_fusion ex_embedding
           ex_embedding (ex_fetch ex_rows) elements true "q" 10 "cosine"
           half half 60 [] [] ex_rows ex_rows).
  - apply set_iteration_elements.
  - lia.
  - lia.
  - reflexivity.
  - reflexivity.
  - reflexivity.
  - reflexivity.
  - reflexivity.
  - reflexivity.
  - simpl. lia.
  - simpl. lia.
Defined.

Lemma X14_witness :
  exists out,
    HybridSearchBM25Service.search ex_embedding (ex_fetch ex_rows) elements true
      "q" 10 "cosine" half half 60 = inr out
    /\ top_of_fusion 10 (row_names ex_rows ∪ row_names ex_rows) out.
Proof.
  apply (X14_hybrid_bm25_search_returns_the_top_of_the_fusion ex_embedding
           (ex_fetch ex_rows) elements true "q" 10 "cosine" half half 60 []
           ex_rows ex_rows).
  - apply set_iteration_elements.
  - lia.
  - lia.
  - reflexivity.
  - reflexivity.
  - reflexivity.
  - reflexivity.
  - reflexivity.
  - simpl. lia.
  - simpl. lia.
Defined.

Lemma X15_witness :
  HybridSearchBM25Service.search ex_embedding
    (ex_bm25_database (PyFloat.literal 2 1)) elements true
    "q" 10 "cosine" half half 60
  = HybridSearchBM25Service.search ex_embedding
      (ex_bm25_database (PyFloat.literal 9 1)) elements true
      "q" 10 "cosine" half half 60.
Proof.
  apply (X15_bm25_scores_do_not_reach_the_fusion ex_embedding
           (ex_bm25_database (PyFloat.literal 2 1))
           (ex_bm25_database (PyFloat.literal 9 1)) elements true
           "q" 10 "cosine" half half 60
           [distance_row "a" (PyFloat.literal 2 1)]
           [distance_row "a" (PyFloat.literal 9 1)]).
  - reflexivity.
  - reflexivity.
  - reflexivity.
  - reflexivity.
Defined.

(** ** What [search] raises, and what it does with an unlisted method *)

Lemma OPERATORS_unlisted method : unlisted method -> OPERATORS !! method = None.
Proof.
  intros (H1 & H2 & H3). unfold OPERATORS.
  rewrite !lookup_insert_ne by done. by apply lookup_singleton_ne.
Qed.

Lemma search_scored_rows get_embedding fetch query top_n method score
    query_embedding rows :
  get_embedding query = inr query_embedding ->
  fetch (SelectByDistance "description_embedding"
           (default "<=>" (OPERATORS !! method)) query_embedding top_n)
  = inr rows ->
  Forall (fun row =>
            VectorSearch.similarity method (row_number row)
            = inr (score (row_number row))) rows ->
  VectorSearch.search get_embedding fetch query top_n method
  = inr (scored_rows score rows).
Proof.
  intros He Hrows Hscore. apply search_inr. exists query_embedding, rows.
  split; [done|]. split; [done|].
  apply Forall2_fmap_r, Forall_Forall2_diag.
  eapply Forall_impl; [exact Hscore|]. intros row Hrow.
  by exists (score (row_number row)).
Qed.

(** X16: search does not reject a method name that OPERATORS does not
    list.  The rows are fetched with the cosine operator, as for
    "cosine", but each is scored round(-distance, 4), where "cosine"
    gives round(1 - distance, 4). *)
Theorem X16_unlisted_method_orders_by_cosine_and_negates :
  forall get_embedding fetch query top_n method query_embedding rows,
    unlisted method ->
    get_embedding query = inr query_embedding ->
    fetch (SelectByDistance "description_embedding" "<=>" query_embedding top_n)
    = inr rows ->
    VectorSearch.search get_embedding fetch query top_n method
    = inr (scored_rows PyFloat.neg rows)
    /\ VectorSearch.search get_embedding fetch query top_n "cosine"
       = inr (scored_rows (PyFloat.sub PyFloat.one) rows).
Proof.
  intros get_embedding fetch query top_n method e rows Hun He Hrows. split.
  - apply (search_scored_rows _ _ _ _ _ PyFloat.neg e rows He).
    + by rewrite (OPERATORS_unlisted _ Hun).
    + apply Forall_forall. intros row _. unfold VectorSearch.similarity.
      destruct Hun as (H1 & H2 & _). by rewrite !decide_False by done.
  - apply (search_scored_rows _ _ _ _ _ (PyFloat.sub PyFloat.one) e rows He);
      [done|]. by apply Forall_forall.
Qed.

Lemma similarity_inl method distance e :
  VectorSearch.similarity method distance = inl e ->
  method = "L2" /\ e = ZeroDivisionError
  /\ PyFloat.is_zero (PyFloat.add PyFloat.one distance) = true.
Proof.
  unfold VectorSearch.similarity, float_truediv.
  repeat case_decide; try done.
  destruct (PyFloat.is_zero _); [|done]. by intros [= <-].
Qed.

(** X17: search raises only what get_embedding or the statement raised,
    or ZeroDivisionError under "L2" for a row whose 1 + distance is
    zero.  Under any other method the scoring itself never raises. *)
Theorem X17_vector_search_raises_only :
  forall get_embedding fetch query top_n method e,
    VectorSearch.search get_embedding fetch query top_n method = inl e ->
    get_embedding query = inl e
    \/ exists query_embedding,
        get_embedding query = inr query_embedding
        /\ (fetch (SelectByDistance "description_embedding"
                     (default "<=>" (OPERATORS !! method)) query_embedding top_n)
            = inl e
            \/ exists rows row,
                fetch (SelectByDistance "description_embedding"
                         (default "<=>" (OPERATORS !! method))
                         query_embedding top_n) = inr rows
                /\ row ∈ rows
                /\ method = "L2" /\ e = ZeroDivisionError
                /\ PyFloat.is_zero (PyFloat.add PyFloat.one (row_number row))
                   = true).
Proof.
  intros get_embedding fetch query top_n method e.
  unfold VectorSearch.search.
  destruct (get_embedding query) as [e'|query_embedding]; simpl.
  { intros [= <-]. by left. }
  intros H. right. exists query_embedding. split; [done|].
  destruct (fetch _) as [e'|rows]; simpl in H.
  { injection H as <-. by left. }
  right. apply for_each_inl_inv in H as (row & Hrow & H).
  exists rows, row. split; [done|]. split; [done|].
  destruct (VectorSearch.similarity method (row_number row)) as [e'|score]
    eqn:Hs; simpl in H; [|done].
  injection H as <-. by apply similarity_inl in Hs.
Qed.

(** ** The statements above, on examples *)

Lemma X16_witness :
  VectorSearch.search ex_embedding
    (ex_fetch [distance_row "t" (PyFloat.literal 2 1)]) "q" 10 "euclidean"
  = inr (scored_rows PyFloat.neg [distance_row "t" (PyFloat.literal 2 1)])
  /\ VectorSearch.search ex_embedding
       (ex_fetch [distance_row "t" (PyFloat.literal 2 1)]) "q" 10 "cosine"
     = inr (scored_rows (PyFloat.sub PyFloat.one)
              [distance_row "t" (PyFloat.literal 2 1)]).
Proof.
  apply (X16_unlisted_method_orders_by_cosine_and_negates ex_embedding
           (ex_fetch [distance_row "t" (PyFloat.literal 2 1)]) "q" 10
           "euclidean" []).
  - repeat split; discriminate.
  - reflexivity.
  - reflexivity.
Defined.

Lemma X17_witness :
  ex_embedding "q" = inl ZeroDivisionError
  \/ exists query_embedding,
      ex_embedding "q" = inr query_embedding
      /\ (ex_fetch [distance_row "t" (PyFloat.neg PyFloat.one)]
            (SelectByDistance "description_embedding"
               (default "<=>" (OPERATORS !! "L2")) query_embedding 10)
          = inl ZeroDivisionError
          \/ exists rows row,
              ex_fetch [distance_row "t" (PyFloat.neg PyFloat.one)]
                (SelectByDistance "description_embedding"
                   (default "<=>" (OPERATORS !! "L2")) query_embedding 10)
              = inr rows
              /\ row ∈ rows
              /\ "L2" = "L2" /\ ZeroDivisionError = ZeroDivisionError
              /\ PyFloat.is_zero (PyFloat.add PyFloat.one (row_number row))
                 = true).
Proof.
  apply (X17_vector_search_raises_only ex_embedding
           (ex_fetch [distance_row "t" (PyFloat.neg PyFloat.one)])
           "q" 10 "L2" ZeroDivisionError).
  vm_compute. reflexivity.
Defined.

(** ** Rounding a number that is at least [2^-1022] never gives zero *)

Lemma digits2_pos_upper p : Z.pos p < 2 ^ Z.pos (digits2_pos p).
Proof.
  induction p as [p IH|p IH|]; simpl digits2_pos; [| |done];
    rewrite Pos2Z.inj_succ, Z.pow_succ_r by lia; lia.
Qed.

Lemma Zdigits2_mono m m' : 0 < m <= m' -> Zdigits2 m <= Zdigits2 m'.
Proof.
  intros [Hm Hle]. destruct m as [|p|p]; try lia. destruct m' as [|p'|p']; try lia.
  simpl. pose proof (digits2_pos_lower p). pose proof (digits2_pos_upper p').
  destruct (decide (Z.pos (digits2_pos p) <= Z.pos (digits2_pos p')))
    as [|Hn]; [done|].
  assert (2 ^ Z.pos (digits2_pos p') <= 2 ^ (Z.pos (digits2_pos p) - 1))
    by (apply Z.pow_le_mono_r; lia).
  lia.
Qed.

Lemma shr_1_div2 mrs : 0 <= shr_m mrs -> shr_m (shr_1 mrs) = shr_m mrs / 2.
Proof.
  destruct mrs as [[|[p|p|]|p] r s]; cbn [shr_1 shr_m]; try lia; intros _.
  - done.
  - apply (Z.div_unique _ _ _ 1); lia.
  - apply (Z.div_unique _ _ _ 0); lia.
  - done.
Qed.

Lemma pow2_xO n : 2 ^ Z.pos n~0 = 2 ^ Z.pos n * 2 ^ Z.pos n.
Proof.
  replace (Z.pos n~0) with (Z.pos n + Z.pos n) by lia.
  apply Z.pow_add_r; lia.
Qed.

Lemma pow2_xI n : 2 ^ Z.pos n~1 = 2 * (2 ^ Z.pos n * 2 ^ Z.pos n).
Proof.
  replace (Z.pos n~1) with (1 + (Z.pos n + Z.pos n)) by lia.
  rewrite (Z.pow_add_r 2 1), (Z.pow_add_r 2 (Z.pos n)) by lia. lia.
Qed.

Lemma iter_shr_1_div n mrs :
  0 <= shr_m mrs ->
  0 <= shr_m (SpecFloat.iter_pos shr_1 n mrs)
  /\ shr_m (SpecFloat.iter_pos shr_1 n mrs) = shr_m mrs / 2 ^ Z.pos n.
Proof.
  revert mrs. induction n as [n IH|n IH|]; intros mrs Hm; simpl SpecFloat.iter_pos.
  - pose proof (shr_1_nonneg mrs Hm) as H1.
    destruct (IH (shr_1 mrs) H1) as [H2 E2].
    destruct (IH _ H2) as [H3 E3]. split; [done|].
    assert (0 < 2 ^ Z.pos n) by (apply Z.pow_pos_nonneg; lia).
    rewrite E3, E2, shr_1_div2 by done.
    rewrite !Z.div_div by lia. by rewrite pow2_xI.
  - destruct (IH mrs Hm) as [H2 E2].
    destruct (IH _ H2) as [H3 E3]. split; [done|].
    assert (0 < 2 ^ Z.pos n) by (apply Z.pow_pos_nonneg; lia).
    rewrite E3, E2, Z.div_div by lia. by rewrite pow2_xO.
  - split; [by apply shr_1_nonneg|]. by rewrite shr_1_div2.
Qed.

Lemma shr_fexp_normal m e l :
  0 < m -> - 1021 <= Zdigits2 m + e ->
  0 < shr_m (fst (shr_fexp PyFloat.prec PyFloat.emax m e l))
  /\ Zdigits2 m + e
     <= Zdigits2 (shr_m (fst (shr_fexp PyFloat.prec PyFloat.emax m e l)))
        + snd (shr_fexp PyFloat.prec PyFloat.emax m e l).
Proof.
  intros Hm Hnormal. unfold shr_fexp, shr.
  assert (Hrec : shr_m (shr_record_of_loc m l) = m) by (by destruct l as [|[]]).
  assert (Hf : fexp PyFloat.prec PyFloat.emax (Zdigits2 m + e) - e
               = Zdigits2 m - 53).
  { unfold fexp, emin, PyFloat.prec, PyFloat.emax. lia. }
  rewrite Hf. destruct (Zdigits2 m - 53) as [|n|n] eqn:Hn; simpl;
    rewrite ?Hrec; try (split; [done|lia]).
  destruct (iter_shr_1_div n (shr_record_of_loc m l)) as [Hq Eq]; [lia|].
  rewrite Hrec in Eq. rewrite Eq.
  destruct m as [|p|p]; try lia. simpl in Hn.
  pose proof (digits2_pos_lower p) as Hlow.
  assert (Hpow : 2 ^ 52 * 2 ^ Z.pos n = 2 ^ (Z.pos (digits2_pos p) - 1)).
  { rewrite <-Z.pow_add_r by lia. f_equal. lia. }
  assert (Hq52 : 2 ^ 52 <= Z.pos p / 2 ^ Z.pos n).
  { apply Z.div_le_lower_bound; [by apply Z.pow_pos_nonneg|]. lia. }
  split; [lia|].
  destruct (Z.pos p / 2 ^ Z.pos n) as [|q|q] eqn:Hdiv; try lia.
  simpl Zdigits2. pose proof (digits2_pos_upper q) as Hup.
  assert (Hd : 52 < Z.pos (digits2_pos q)).
  { destruct (decide (52 < Z.pos (digits2_pos q))) as [|Hle]; [done|].
    assert (2 ^ Z.pos (digits2_pos q) <= 2 ^ 52)
      by (apply Z.pow_le_mono_r; lia). lia. }
  lia.
Qed.

Lemma round_nearest_even_bounds m l : m <= round_nearest_even m l.
Proof. destruct l as [|[]]; simpl; try destruct (Z.even m); lia. Qed.

Lemma binary_round_aux_not_zero s m e l :
  0 < m -> - 1021 <= Zdigits2 m + e ->
  PyFloat.is_zero (binary_round_aux PyFloat.prec PyFloat.emax s m e l) = false.
Proof.
  intros Hm Hnormal. unfold binary_round_aux.
  destruct (shr_fexp_normal m e l Hm Hnormal) as [H1 D1].
  destruct (shr_fexp PyFloat.prec PyFloat.emax m e l) as [mrs' e'].
  cbn [fst snd] in H1, D1.
  pose proof (round_nearest_even_bounds (shr_m mrs') (loc_of_shr_record mrs'))
    as Hr.
  pose proof (Zdigits2_mono (shr_m mrs')
                (round_nearest_even (shr_m mrs') (loc_of_shr_record mrs'))
                ltac:(lia)) as Hd.
  destruct (shr_fexp_normal
              (round_nearest_even (shr_m mrs') (loc_of_shr_record mrs')) e'
              loc_Exact ltac:(lia) ltac:(lia)) as [H2 _].
  destruct (shr_fexp PyFloat.prec PyFloat.emax _ e' loc_Exact) as [mrs'' e''].
  cbn [fst] in H2.
  destruct (shr_m mrs'') as [|q|q]; try lia.
  by destruct (e'' <=? PyFloat.emax - PyFloat.prec).
Qed.

Lemma shl_align_digits mx ex ex' :
  Z.pos (digits2_pos (fst (shl_align mx ex ex'))) + snd (shl_align mx ex ex')
  = Z.pos (digits2_pos mx) + ex.
Proof.
  unfold shl_align. destruct (ex' - ex) as [|d|d] eqn:Hd; simpl; try done.
  rewrite digits2_pos_shift. lia.
Qed.

Lemma shl_align_le mx ex ex' :
  Z.pos mx <= Z.pos (fst (shl_align mx ex ex')).
Proof.
  unfold shl_align. destruct (ex' - ex) as [|d|d]; simpl; try lia.
  induction d as [|d IH] using Pos.peano_ind; simpl; [lia|].
  rewrite Pos.iter_succ. lia.
Qed.

Lemma binary_round_not_zero s p e :
  - 1021 <= Z.pos (digits2_pos p) + e ->
  PyFloat.is_zero (binary_round PyFloat.prec PyFloat.emax s p e) = false.
Proof.
  intros Hnormal. unfold binary_round.
  pose proof (shl_align_digits p e
                (fexp PyFloat.prec PyFloat.emax (Z.pos (digits2_pos p) + e)))
    as Hd.
  destruct (shl_align p e _) as [mz ez]. cbn [fst snd] in Hd.
  apply binary_round_aux_not_zero; [lia|]. simpl Zdigits2. lia.
Qed.

(** [1 + d] is not zero when [d] is not below zero. *)
Lemma add_one_nonneg_not_zero d :
  nonneg d -> PyFloat.is_zero (PyFloat.add PyFloat.one d) = false.
Proof.
  destruct d as [[]|[]| |[] m e]; simpl; try done. intros _.
  unfold PyFloat.add, PyFloat.one, SFadd. cbn [cond_Zopp].
  set (ez := Z.min (-52) e).
  set (m1 := fst (shl_align 4503599627370496 (-52) ez)).
  set (m2 := fst (shl_align m e ez)).
  change (Z.pos m1 + Z.pos m2) with (Z.pos (m1 + m2)).
  cbn [binary_normalize]. apply binary_round_not_zero.
  pose proof (Zdigits2_mono (Z.pos m1) (Z.pos (m1 + m2)) ltac:(lia)) as Hmono.
  simpl Zdigits2 in Hmono.
  pose proof (shl_align_digits 4503599627370496 (-52) ez) as Hd.
  fold m1 in Hd.
  assert (Hez : snd (shl_align 4503599627370496 (-52) ez) = ez).
  { unfold shl_align. subst ez.
    destruct (Z.min (-52) e - -52) as [|d|d] eqn:Hmin; simpl; lia. }
  rewrite Hez in Hd.
  change (Z.pos (digits2_pos 4503599627370496)) with 53 in Hd. lia.
Qed.

Lemma round_nonneg x ndigits : nonneg x -> nonneg (PyFloat.round x ndigits).
Proof.
  destruct x as [s|s| |s m e]; try done. simpl nonneg. intros ->.
  unfold PyFloat.round.
  destruct (if 0 <=? e then _ else _) as [|n|n]; try done.
  by apply (div_nonneg (S754_finite false n 0)).
Qed.

Lemma l2_score_nonneg d :
  nonneg d -> nonneg (PyFloat.div PyFloat.one (PyFloat.add PyFloat.one d)).
Proof.
  intros Hd. pose proof (add_one_nonneg_not_zero d Hd) as Hz.
  pose proof (add_nonneg PyFloat.one d eq_refl Hd) as Hn.
  destruct (PyFloat.add PyFloat.one d) as [s|s| |s m e]; try done.
  simpl in Hn. subst s. by apply div_nonneg.
Qed.

(** X18: under "L2", when no distance is negative or a NaN, search
    never divides by zero.  It returns one result per row, scored
    round(1 / (1 + distance), 4), and no score is negative or a NaN. *)
Theorem X18_l2_search_returns_for_nonnegative_distances :
  forall get_embedding fetch query top_n query_embedding rows,
    get_embedding query = inr query_embedding ->
    fetch (SelectByDistance "description_embedding" "<->" query_embedding top_n)
    = inr rows ->
    Forall (fun row => nonneg (row_number row)) rows ->
    VectorSearch.search get_embedding fetch query top_n "L2"
    = inr (scored_rows
             (fun d => PyFloat.div PyFloat.one (PyFloat.add PyFloat.one d)) rows)
    /\ Forall (fun r => nonneg (SearchResult.score r))
         (scored_rows
            (fun d => PyFloat.div PyFloat.one (PyFloat.add PyFloat.one d)) rows).
Proof.
  intros get_embedding fetch query top_n e rows He Hrows Hdist. split.
  - apply (search_scored_rows _ _ _ _ _ _ e rows He); [done|].
    eapply Forall_impl; [exact Hdist|]. intros row Hrow.
    unfold VectorSearch.similarity, float_truediv. simpl.
    by rewrite add_one_nonneg_not_zero.
  - unfold scored_rows. apply Forall_fmap.
    eapply Forall_impl; [exact Hdist|]. intros row Hrow. simpl.
    by apply round_nonneg, l2_score_nonneg.
Qed.

Lemma X18_witness :
  VectorSearch.search ex_embedding
    (ex_fetch [distance_row "t" (PyFloat.literal 10 1)]) "q" 10 "L2"
  = inr (scored_rows
           (fun d => PyFloat.div PyFloat.one (PyFloat.add PyFloat.one d))
           [distance_row "t" (PyFloat.literal 10 1)])
  /\ Forall (fun r => nonneg (SearchResult.score r))
       (scored_rows
          (fun d => PyFloat.div PyFloat.one (PyFloat.add PyFloat.one d))
          [distance_row "t" (PyFloat.literal 10 1)]).
Proof.
  apply (X18_l2_search_returns_for_nonnegative_distances ex_embedding
           (ex_fetch [distance_row "t" (PyFloat.literal 10 1)]) "q" 10 []).
  - reflexivity.
  - reflexivity.
  - repeat constructor.
Defined.

(** ** What validation guarantees *)

Lemma METHODS_rule method distance :
  method ∈ METHODS -> is_Some (normalization_rule method distance).
Proof.
  unfold METHODS. rewrite !elem_of_cons, elem_of_nil.
  intros [->|[->|[->|[]]]]; by eexists.
Qed.

Lemma similarity_inr_rule method distance score :
  method ∈ METHODS ->
  VectorSearch.similarity method distance = inr score ->
  normalization_rule method distance = Some score.
Proof.
  unfold METHODS. rewrite !elem_of_cons, elem_of_nil.
  unfold VectorSearch.similarity, normalization_rule, float_truediv.
  intros [->|[->|[->|[]]]]; repeat case_decide; try done.
  - by intros [= <-].
  - destruct (PyFloat.is_zero _); [done|]. by intros [= <-].
  - by intros [= <-].
Qed.

Lemma SearchRequest_valid request :
  SearchRequest.valid request = true ->
  1 <= SearchRequest.top_n request <= 10000
  /\ SearchRequest.method request ∈ METHODS.
Proof.
  unfold SearchRequest.valid. rewrite !andb_true_iff, !Z.leb_le.
  intros [[? ?] ?%bool_decide_eq_true]. auto.
Qed.

Lemma HybridSearchRequest_valid request :
  HybridSearchRequest.valid request = true ->
  1 <= HybridSearchRequest.top_n request <= 100
  /\ nonneg (HybridSearchRequest.vector_weight request)
  /\ nonneg (HybridSearchRequest.tags_weight request)
  /\ HybridSearchRequest.method request ∈ METHODS
  /\ 1 <= HybridSearchRequest.rrf_k request <= 100.
Proof.
  unfold HybridSearchRequest.valid. rewrite !andb_true_iff, !Z.leb_le.
  intros [[[[[[[[? ?] Hv] _] Ht] _] ?%bool_decide_eq_true] ?] ?].
  repeat split; try done; by apply leb_zero_nonneg.
Qed.

(** X19: the handler of POST /search, for a request that satisfies the
    constraints of SearchRequest.  Either it returns the response, with
    total = len(results) and the results being the rows of the statement
    for the requested method, each scored by the rule of that method and
    rounded to 4 decimals; or it raises HTTPException 500 with detail
    "Search failed: " + str(e), where e was raised by a collaborator or
    is the ZeroDivisionError of an L2 row whose 1 + distance is zero. *)
Theorem X19_search_endpoint_answers :
  forall get_embedding fetch str request,
    SearchRequest.valid request = true ->
    match Main.search_tables get_embedding fetch str request with
    | Returns body =>
        SearchResponse.total body
        = Z.of_nat (length (SearchResponse.results body))
        /\ exists query_embedding rows,
            get_embedding (SearchRequest.query request) = inr query_embedding
            /\ fetch (search_statement request query_embedding) = inr rows
            /\ Forall2 (fun row res =>
                          SearchResult.table_name res = row_table_name row
                          /\ exists score,
                              normalization_rule (SearchRequest.method request)
                                (row_number row) = Some score
                              /\ SearchResult.score res = PyFloat.round score 4)
                 rows (SearchResponse.results body)
    | HTTPException status_code detail =>
        status_code = 500
        /\ exists e,
            detail = "Search failed: " +:+ str e
            /\ (get_embedding (SearchRequest.query request) = inl e
                \/ exists query_embedding,
                    get_embedding (SearchRequest.query request)
                    = inr query_embedding
                    /\ (fetch (search_statement request query_embedding) = inl e
                        \/ exists rows row,
                            fetch (search_statement request query_embedding)
                            = inr rows
                            /\ row ∈ rows
                            /\ SearchRequest.method request = "L2"
                            /\ e = ZeroDivisionError
                            /\ PyFloat.is_zero
                                 (PyFloat.add PyFloat.one (row_number row))
                               = true))
    end.
Proof.
  intros get_embedding fetch str request [_ Hmethod]%SearchRequest_valid.
  unfold Main.search_tables, search_statement.
  destruct (VectorSearch.search _ _ _ _ _) as [e|results] eqn:Hsearch.
  - split; [done|]. exists e. split; [done|].
    revert Hsearch. unfold VectorSearch.search.
    destruct (get_embedding _) as [e'|query_embedding]; simpl.
    { intros [= <-]. by left. }
    intros H. right. exists query_embedding. split; [done|].
    destruct (fetch _) as [e'|rows]; simpl in H.
    { injection H as <-. by left. }
    right. apply for_each_inl_inv in H as (row & Hrow & H).
    exists rows, row. split; [done|]. split; [done|].
    destruct (VectorSearch.similarity _ (row_number row)) as [e'|score] eqn:Hs;
      simpl in H; [|done].
    injection H as <-. by apply similarity_inl in Hs.
  - split; [done|]. cbn [SearchResponse.results].
    apply search_inr in Hsearch as (query_embedding & rows & He & Hrows & H).
    exists query_embedding, rows. split; [done|]. split; [done|].
    eapply Forall2_impl; [exact H|]. intros row res (score & Hs & ->).
    split; [done|]. exists score. split; [|done].
    by apply similarity_inr_rule.
Qed.

(** X20: the handler of POST /search_rerank.  It raises HTTPException
    500 with detail "Reranking failed: " + str(e) only for an exception
    of retrieval, and then no prompt was sent to the LLM.  Otherwise it
    returns total = len(results): no result and no LLM call after an
    empty vector search, one result per description row otherwise. *)
Theorem X20_rerank_endpoint_fails_only_with_retrieval :
  forall get_embedding fetch generate json_loads float_of_str str request,
    match Main.search_with_rerank get_embedding fetch generate json_loads
            float_of_str str request with
    | (Returns body, calls) =>
        RerankResponse.total body
        = Z.of_nat (length (RerankResponse.results body))
        /\ exists initial,
            VectorSearch.search get_embedding fetch
              (RerankRequest.query request) (RerankRequest.top_n request)
              (RerankRequest.method request) = inr initial
            /\ (initial = [] -> RerankResponse.results body = [] /\ calls = [])
            /\ (initial <> [] ->
                exists rows,
                  fetch (SelectDescriptions
                           (map SearchResult.table_name initial)) = inr rows
                  /\ RerankResult.table_name <$> RerankResponse.results body
                     ≡ₚ row_table_name <$> rows)
    | (HTTPException status_code detail, calls) =>
        status_code = 500
        /\ calls = []
        /\ exists e,
            detail = "Reranking failed: " +:+ str e
            /\ (VectorSearch.search get_embedding fetch
                  (RerankRequest.query request) (RerankRequest.top_n request)
                  (RerankRequest.method request) = inl e
                \/ exists initial,
                    VectorSearch.search get_embedding fetch
                      (RerankRequest.query request)
                      (RerankRequest.top_n request)
                      (RerankRequest.method request) = inr initial
                    /\ initial <> []
                    /\ fetch (SelectDescriptions
                               (map SearchResult.table_name initial)) = inl e)
    end.
Proof.
  intros get_embedding fetch generate json_loads float_of_str str request.
  unfold Main.search_with_rerank.
  destruct (RerankService.rerank _ _ _ _ _ _ _ _ _) as [[e|results] calls]
    eqn:Hrerank.
  - split; [done|]. revert Hrerank. unfold RerankService.rerank.
    destruct (VectorSearch.search _ _ _ _ _) as [e'|initial] eqn:Hsearch.
    { intros [= <- <-]. split; [done|]. exists e'. auto. }
    destruct initial as [|r initial]; [done|].
    destruct (fetch _) as [e'|rows] eqn:Hrows.
    { intros [= <- <-]. split; [done|]. exists e'. split; [done|]. right.
      by exists (r :: initial). }
    fold (candidates_of_rows rows).
    destruct (candidates_of_rows rows); [done|].
    by destruct (RerankService.rerank_candidates _ _ _ _ _ _).
  - split; [done|]. cbn [RerankResponse.results].
    destruct (VectorSearch.search get_embedding fetch
                (RerankRequest.query request) (RerankRequest.top_n request)
                (RerankRequest.method request)) as [e|initial] eqn:Hsearch.
    { unfold RerankService.rerank in Hrerank. by rewrite Hsearch in Hrerank. }
    exists initial. split; [done|]. split.
    + intros ->. unfold RerankService.rerank in Hrerank.
      rewrite Hsearch in Hrerank. by injection Hrerank as <- <-.
    + intros Hne.
      destruct (fetch (SelectDescriptions (map SearchResult.table_name initial)))
        as [e|rows] eqn:Hrows.
      { unfold RerankService.rerank in Hrerank. rewrite Hsearch in Hrerank.
        destruct initial; [done|]. by rewrite Hrows in Hrerank. }
      exists rows. split; [done|].
      rewrite (rerank_after_retrieval get_embedding fetch generate json_loads
                 float_of_str _ _ _ _ initial rows Hsearch Hne Hrows) in Hrerank.
      injection Hrerank as <- _.
      by rewrite rerank_candidates_names, candidates_of_rows_names.
Qed.

(** X21: the handler of POST /search_hybrid, for a request that
    satisfies the constraints of HybridSearchRequest (top_n in 1..100,
    weights in 0.0..1.0, rrf_k in 1..100).  When the two embedding calls
    and the two statements return, it returns the response and raises no
    HTTPException: total = len(results) <= top_n, and results is the
    top of the fusion of the two sources, that is the first top_n
    entries of the list calculate_rrf makes of the rankings of the
    fetched rows; that list holds every identifier of either source
    once, each with its ranks and its RRF score, in descending order of
    score. *)
Theorem X21_hybrid_endpoint_answers :
  forall get_embedding get_tags_embedding fetch set_iter vector_first str
         request query_embedding tags_query_embedding vector_rows tags_rows,
    set_iteration set_iter ->
    HybridSearchRequest.valid request = true ->
    get_embedding (HybridSearchRequest.query request) = inr query_embedding ->
    get_tags_embedding (HybridSearchRequest.query request)
    = inr tags_query_embedding ->
    fetch (vector_statement request query_embedding) = inr vector_rows ->
    fetch (tags_statement request tags_query_embedding) = inr tags_rows ->
    Z.of_nat (length vector_rows) < 2 ^ 52 ->
    Z.of_nat (length tags_rows) < 2 ^ 52 ->
    exists body fusion,
      Main.search_hybrid get_embedding get_tags_embedding fetch set_iter
        vector_first str request = Returns body
      /\ HybridSearchResponse.total body
         = Z.of_nat (length (HybridSearchResponse.results body))
      /\ HybridSearchResponse.total body <= HybridSearchRequest.top_n request
      /\ top_of_fusion (HybridSearchRequest.top_n request)
           (row_names vector_rows ∪ row_names tags_rows)
           (HybridSearchResponse.results body)
      /\ HybridSearchService.calculate_rrf set_iter (ranking vector_rows)
           (ranking tags_rows) (HybridSearchRequest.rrf_k request)
           (HybridSearchRequest.vector_weight request)
           (HybridSearchRequest.tags_weight request) = inr fusion
      /\ fusion_complete (ranking vector_rows) (ranking tags_rows) fusion
      /\ Forall (fused_as_specified (rank_map (ranking vector_rows))
                   (rank_map (ranking tags_rows))
                   (HybridSearchRequest.rrf_k request)
                   (HybridSearchRequest.vector_weight request)
                   (HybridSearchRequest.tags_weight request)) fusion
      /\ StronglySorted (descending HybridSearchResult.rrf_score) fusion
      /\ HybridSearchResponse.results body
         = take (Z.to_nat (HybridSearchRequest.top_n request)) fusion.
Proof.
  intros get_embedding get_tags_embedding fetch set_iter vector_first str
    request e et vrows trows
    Hset (Htop & Hwv & Hwt & _ & Hk)%HybridSearchRequest_valid
    He Het Hvrows Htrows Hvlen Htlen.
  assert (Hk0 : 0 <= HybridSearchRequest.rrf_k request) by lia.
  assert (Hv : valid_ranks (HybridSearchRequest.rrf_k request) (ranking vrows))
    by (apply (imap_valid_ranks (fun _ => None)); lia).
  assert (Ht : valid_ranks (HybridSearchRequest.rrf_k request) (ranking trows))
    by (apply (imap_valid_ranks (fun _ => None)); lia).
  destruct (fusion_top_n set_iter _ _ (HybridSearchRequest.rrf_k request)
              (HybridSearchRequest.vector_weight request)
              (HybridSearchRequest.tags_weight request)
              (HybridSearchRequest.top_n request) Hset Hk0 Hv Ht
              Hwv Hwt ltac:(lia)) as (full & Hfull & Hfusion).
  unfold ranking in Hfusion. rewrite !imap_source_names in Hfusion.
  assert (Hslice : slice_to full (HybridSearchRequest.top_n request)
                   = take (Z.to_nat (HybridSearchRequest.top_n request)) full).
  { unfold slice_to.
    by destruct (Z.leb_spec 0 (HybridSearchRequest.top_n request)); [|lia]. }
  exists (HybridSearchResponse.mk
            (slice_to full (HybridSearchRequest.top_n request))
            (Z.of_nat (length (slice_to full (HybridSearchRequest.top_n request))))),
    full.
  split.
  { unfold Main.search_hybrid, HybridSearchService.search,
      HybridSearchService.vector_search, HybridSearchService.tags_search.
    rewrite He, Het. simpl. unfold vector_statement in Hvrows.
    unfold tags_statement in Htrows. rewrite Hvrows, Htrows. simpl.
    pose proof Hfull as Hreturns. unfold ranking in Hreturns.
    by rewrite Hreturns. }
  split; [done|]. split.
  { cbn [HybridSearchResponse.total]. destruct Hfusion as [-> _]. lia. }
  split; [done|]. split; [done|]. split.
  { by apply (calculate_rrf_complete set_iter _ _ _ _ _ _ Hset Hfull). }
  destruct (calculate_rrf_sorted _ _ _ _ _ _ _ Hk0 Hv Ht Hwv Hwt Hfull)
    as [Hfused Hsorted].
  done.
Qed.

(** X22: the handler of POST /search_hybrid_bm25, for a request that
    satisfies the constraints of HybridSearchRequest; tags_weight is
    passed as the BM25 weight.  When the embedding call, the vector
    statement and the BM25 statement return, it returns the response and
    raises no HTTPException: total = len(results) <= top_n, and results
    is the top of the fusion of the two sources, that is the first top_n
    entries of the list calculate_rrf makes of the rankings of the
    fetched rows; that list holds every identifier of either source
    once, each with its ranks and its RRF score, in descending order of
    score. *)
Theorem X22_hybrid_bm25_endpoint_answers :
  forall get_embedding fetch set_iter vector_first str request
         query_embedding vector_rows bm25_rows,
    set_iteration set_iter ->
    HybridSearchRequest.valid request = true ->
    get_embedding (HybridSearchRequest.query request) = inr query_embedding ->
    fetch (vector_statement request query_embedding) = inr vector_rows ->
    fetch (bm25_statement request) = inr bm25_rows ->
    Z.of_nat (length vector_rows) < 2 ^ 52 ->
    Z.of_nat (length bm25_rows) < 2 ^ 52 ->
    exists body fusion,
      Main.search_hybrid_bm25 get_embedding fetch set_iter vector_first str
        request = Returns body
      /\ HybridSearchResponse.total body
         = Z.of_nat (length (HybridSearchResponse.results body))
      /\ HybridSearchResponse.total body <= HybridSearchRequest.top_n request
      /\ top_of_fusion (HybridSearchRequest.top_n request)
           (row_names vector_rows ∪ row_names bm25_rows)
           (HybridSearchResponse.results body)
      /\ HybridSearchBM25Service.calculate_rrf set_iter (ranking vector_rows)
           (bm25_ranking bm25_rows) (HybridSearchRequest.rrf_k request)
           (HybridSearchRequest.vector_weight request)
           (HybridSearchRequest.tags_weight request) = inr fusion
      /\ fusion_complete (ranking vector_rows) (bm25_ranking bm25_rows) fusion
      /\ Forall (fused_as_specified (rank_map (ranking vector_rows))
                   (rank_map (bm25_ranking bm25_rows))
                   (HybridSearchRequest.rrf_k request)
                   (HybridSearchRequest.vector_weight request)
                   (HybridSearchRequest.tags_weight request)) fusion
      /\ StronglySorted (descending HybridSearchResult.rrf_score) fusion
      /\ HybridSearchResponse.results body
         = take (Z.to_nat (HybridSearchRequest.top_n request)) fusion.
Proof.
  intros get_embedding fetch set_iter vector_first str request e vrows brows
    Hset (Htop & Hwv & Hwt & _ & Hk)%HybridSearchRequest_valid
    He Hvrows Hbrows Hvlen Hblen.
  assert (Hk0 : 0 <= HybridSearchRequest.rrf_k request) by lia.
  assert (Hv : valid_ranks (HybridSearchRequest.rrf_k request) (ranking vrows))
    by (apply (imap_valid_ranks (fun _ => None)); lia).
  assert (Hb : valid_ranks (HybridSearchRequest.rrf_k request)
                 (bm25_ranking brows))
    by (apply (imap_valid_ranks (fun row => Some (row_number row))); lia).
  destruct (fusion_top_n set_iter _ _ (HybridSearchRequest.rrf_k request)
              (HybridSearchRequest.vector_weight request)
              (HybridSearchRequest.tags_weight request)
              (HybridSearchRequest.top_n request) Hset Hk0 Hv Hb
              Hwv Hwt ltac:(lia)) as (full & Hfull & Hfusion).
  unfold ranking, bm25_ranking in Hfusion.
  rewrite !imap_source_names in Hfusion.
  assert (Hslice : slice_to full (HybridSearchRequest.top_n request)
                   = take (Z.to_nat (HybridSearchRequest.top_n request)) full).
  { unfold slice_to.
    by destruct (Z.leb_spec 0 (HybridSearchRequest.top_n request)); [|lia]. }
  exists (HybridSearchResponse.mk
            (slice_to full (HybridSearchRequest.top_n request))
            (Z.of_nat (length (slice_to full (HybridSearchRequest.top_n request))))),
    full.
  split.
  { unfold Main.search_hybrid_bm25, HybridSearchBM25Service.search,
      HybridSearchBM25Service.vector_search, HybridSearchBM25Service.bm25_search.
    rewrite He. simpl. unfold vector_statement in Hvrows.
    unfold bm25_statement in Hbrows. rewrite Hvrows, Hbrows. simpl.
    pose proof Hfull as Hreturns. unfold ranking, bm25_ranking in Hreturns.
    rewrite bm25_calculate_rrf_eq. by rewrite Hreturns. }
  split; [done|]. split.
  { cbn [HybridSearchResponse.total]. destruct Hfusion as [-> _]. lia. }
  split; [done|]. split; [by rewrite bm25_calculate_rrf_eq|]. split.
  { by apply (calculate_rrf_complete set_iter _ _ _ _ _ _ Hset Hfull). }
  destruct (calculate_rrf_sorted _ _ _ _ _ _ _ Hk0 Hv Hb Hwv Hwt Hfull)
    as [Hfused Hsorted].
  done.
Qed.

(** ** The statements above, on examples *)

Lemma X19_witness :
  match Main.search_tables ex_embedding (ex_fetch ex_rows) ex_str
          ex_search_request with
  | Returns body =>
      SearchResponse.total body
      = Z.of_nat (length (SearchResponse.results body))
      /\ exists query_embedding rows,
          ex_embedding (SearchRequest.query ex_search_request)
          = inr query_embedding
          /\ ex_fetch ex_rows (search_statement ex_search_request query_embedding)
             = inr rows
          /\ Forall2 (fun row res =>
                        SearchResult.table_name res = row_table_name row
                        /\ exists score,
                            normalization_rule
                              (SearchRequest.method ex_search_request)
                              (row_number row) = Some score
                            /\ SearchResult.score res = PyFloat.round score 4)
               rows (SearchResponse.results body)
  | HTTPException status_code detail =>
      status_code = 500
      /\ exists e,
          detail = "Search failed: " +:+ ex_str e
          /\ (ex_embedding (SearchRequest.query ex_search_request) = inl e
              \/ exists query_embedding,
                  ex_embedding (SearchRequest.query ex_search_request)
                  = inr query_embedding
                  /\ (ex_fetch ex_rows
                        (search_statement ex_search_request query_embedding)
                      = inl e
                      \/ exists rows row,
                          ex_fetch ex_rows
                            (search_statement ex_search_request query_embedding)
                          = inr rows
                          /\ row ∈ rows
                          /\ SearchRequest.method ex_search_request = "L2"
                          /\ e = ZeroDivisionError
                          /\ PyFloat.is_zero
                               (PyFloat.add PyFloat.one (row_number row))
                             = true))
  end.
Proof.
  apply (X19_search_endpoint_answers ex_embedding (ex_fetch ex_rows) ex_str
           ex_search_request).
  reflexivity.
Defined.

Lemma X21_witness :
  exists body fusion,
    Main.search_hybrid ex_embedding ex_embedding ex_tags_database elements
      true ex_str ex_top_1_request = Returns body
    /\ HybridSearchResponse.total body
       = Z.of_nat (length (HybridSearchResponse.results body))
    /\ HybridSearchResponse.total body <= 1
    /\ top_of_fusion 1 (row_names ex_rows ∪ row_names ex_tags_rows)
         (HybridSearchResponse.results body)
    /\ HybridSearchService.calculate_rrf elements (ranking ex_rows)
         (ranking ex_tags_rows) 60 half half = inr fusion
    /\ fusion_complete (ranking ex_rows) (ranking ex_tags_rows) fusion
    /\ Forall (fused_as_specified (rank_map (ranking ex_rows))
                 (rank_map (ranking ex_tags_rows)) 60 half half) fusion
    /\ StronglySorted (descending HybridSearchResult.rrf_score) fusion
    /\ HybridSearchResponse.results body = take 1 fusion.
Proof.
  apply (X21_hybrid_endpoint_answers ex_embedding ex_embedding
           ex_tags_database elements true ex_str ex_top_1_request [] []
           ex_rows ex_tags_rows).
  - apply set_iteration_elements.
  - reflexivity.
  - reflexivity.
  - reflexivity.
  - reflexivity.
  - reflexivity.
  - simpl. lia.
  - simpl. lia.
Defined.

Lemma X22_witness :
  exists body fusion,
    Main.search_hybrid_bm25 ex_embedding ex_keyword_database elements true
      ex_str ex_top_1_request = Returns body
    /\ HybridSearchResponse.total body
       = Z.of_nat (length (HybridSearchResponse.results body))
    /\ HybridSearchResponse.total body <= 1
    /\ top_of_fusion 1 (row_names ex_rows ∪ row_names ex_tags_rows)
         (HybridSearchResponse.results body)
    /\ HybridSearchBM25Service.calculate_rrf elements (ranking ex_rows)
         (bm25_ranking ex_tags_rows) 60 half half = inr fusion
    /\ fusion_complete (ranking ex_rows) (bm25_ranking ex_tags_rows) fusion
    /\ Forall (fused_as_specified (rank_map (ranking ex_rows))
                 (rank_map (bm25_ranking ex_tags_rows)) 60 half half) fusion
    /\ StronglySorted (descending HybridSearchResult.rrf_score) fusion
    /\ HybridSearchResponse.results body = take 1 fusion.
Proof.
  apply (X22_hybrid_bm25_endpoint_answers ex_embedding ex_keyword_database
           elements true ex_str ex_top_1_request [] ex_rows ex_tags_rows).
  - apply set_iteration_elements.
  - reflexivity.
  - reflexivity.
  - reflexivity.
  - reflexivity.
  - simpl. lia.
  - simpl. lia.
Defined.

(** ** The prompt of a batch *)

Lemma string_app_assoc (s1 s2 s3 : string) :
  (s1 +:+ s2) +:+ s3 = s1 +:+ s2 +:+ s3.
Proof.
  induction s1 as [|c s1 IH]; [done|]. exact (f_equal (String c) IH).
Qed.

Lemma candidates_text_foldl (entries : list (nat * candidate)) (text : string) :
  foldl (fun text ic =>
           text +:+ (pretty (S (fst ic)) +:+ ". Table: "
                       +:+ cand_table_name (snd ic) +:+ newline)
                +:+ ("   Description: " +:+ cand_description (snd ic)
                       +:+ newline +:+ newline))
    text entries
  = text
    +:+ foldl (fun text ic =>
                 text +:+ (pretty (S (fst ic)) +:+ ". Table: "
                             +:+ cand_table_name (snd ic) +:+ newline)
                      +:+ ("   Description: " +:+ cand_description (snd ic)
                             +:+ newline +:+ newline))
          EmptyString entries.
Proof.
  revert text. induction entries as [|ic entries IH]; intros text.
  - symmetry. apply string_app_empty_r.
  - cbn [foldl]. rewrite IH. rewrite (IH (EmptyString +:+ _)).
    by rewrite string_app_assoc.
Qed.

Lemma candidates_text_middle before c after :
  RerankService.candidates_text (before ++ c :: after)
  = RerankService.candidates_text before
    +:+ candidate_entry (S (length before)) c
    +:+ foldl (fun text ic =>
                 text +:+ (pretty (S (fst ic)) +:+ ". Table: "
                             +:+ cand_table_name (snd ic) +:+ newline)
                      +:+ ("   Description: " +:+ cand_description (snd ic)
                             +:+ newline +:+ newline))
          EmptyString
          (imap (fun i c => ((length before + S i)%nat, c)) after).
Proof.
  unfold RerankService.candidates_text.
  rewrite imap_app, foldl_app, imap_cons. cbn [foldl].
  rewrite candidates_text_foldl. cbn [fst snd]. rewrite Nat.add_0_r.
  unfold candidate_entry. rewrite !string_app_assoc. done.
Qed.

Lemma unlines_app (lines1 lines2 : list string) :
  unlines (lines1 ++ lines2) = unlines lines1 +:+ unlines lines2.
Proof.
  induction lines1 as [|l lines1 IH]; [done|].
  cbn [app unlines]. by rewrite IH, !string_app_assoc.
Qed.

Lemma occurs_in_unlines l lines : l ∈ lines -> occurs_in l (unlines lines).
Proof.
  intros (i & Hi)%list_elem_of_lookup.
  rewrite <-(take_drop_middle lines i l Hi), unlines_app. cbn [unlines].
  by exists (unlines (take i lines)), (newline +:+ unlines (drop (S i) lines)).
Qed.

Lemma occurs_in_trans a b c : occurs_in a b -> occurs_in b c -> occurs_in a c.
Proof.
  intros (p & q & ->) (p' & q' & ->). exists (p' +:+ p), (q +:+ q').
  by rewrite !string_app_assoc.
Qed.

(** X24: the prompt of a batch lists every candidate of the batch.  The
    candidate at index i stands there as the line "i+1. Table: name",
    the line "   Description: description" and an empty line: the
    numbering starts at 1 in every batch.  The prompt ends with the
    lines "User Query: query" and "Context: context". *)
Theorem X24_prompt_lists_every_candidate_of_the_batch :
  forall query context batch i c,
    batch !! i = Some c ->
    occurs_in (candidate_entry (S i) c)
      (RerankService._build_prompt query context batch)
    /\ ends_with
         (unlines ["User Query: " +:+ query; "Context: " +:+ context])
         (RerankService._build_prompt query context batch).
Proof.
  intros query context batch i c Hi. split.
  - apply (occurs_in_trans _ (RerankService.candidates_text batch)).
    + rewrite <-(take_drop_middle batch i c Hi).
      rewrite candidates_text_middle.
      rewrite length_take_le by (apply lookup_lt_Some in Hi; lia).
      by eexists _, _.
    + apply occurs_in_unlines.
      by apply (list_elem_of_lookup_2 _ 20%nat).
  - unfold RerankService._build_prompt.
    match goal with
    | |- ends_with _ (unlines ?lines) =>
        rewrite <-(take_drop 22 lines), unlines_app
    end.
    by eexists.
Qed.

Lemma X24_witness :
  occurs_in
    (candidate_entry 2 {| cand_table_name := "b"; cand_description := "second" |})
    (RerankService._build_prompt "q" "c" two_candidates)
  /\ ends_with (unlines ["User Query: " +:+ "q"; "Context: " +:+ "c"])
       (RerankService._build_prompt "q" "c" two_candidates).
Proof.
  apply (X24_prompt_lists_every_candidate_of_the_batch "q" "c" two_candidates
           1%nat {| cand_table_name := "b"; cand_description := "second" |}).
  reflexivity.
Defined.
